(** * Knowledge-spine query engine (src/lib/query-engine.ts)

    A shallow embedding of the retrieval-and-guardrail engine: request
    validation, term planning, keyword scoring, conflict detection, the five
    section builders, the freshness evaluator and the evidence / escalation
    scorer, followed by the properties stated about them.

    Modelling conventions.
    - JS strings are [string]s of bytes (UTF-8). [toLowerCase] and [trim]
      follow the Unicode tables of the platform and are taken from the
      record [Runtime].
    - The numbers the engine computes with are IEEE 754 binary64 values
      ([Num.t]), with the operations of the Standard Library's [SpecFloat]
      at precision 53. A reliability is recorded as the rational its JSON
      literal denotes and enters the arithmetic as the nearest double.
      Counts are [nat]; ages, limits and the booking value are integers [Z].
    - [Map<string, SourceRecord>] is a [gmap string SourceRecord].
    - What the engine takes from its surroundings (the clock, [Date] parsing
      and printing, the locale, the string functions, the environment
      variable, the external narrative service) is gathered in the record
      [Runtime]. *)

From stdpp Require Import gmap strings list.
From Stdlib Require Import Ascii QArith Qminmax Qround DecimalString Sorted SpecFloat.
Close Scope Q_scope.
Set Warnings "-register-all".

(** ** Strings *)

Module Str.

Definition isEmpty (s : string) : bool :=
  match s with EmptyString => true | _ => false end.

(** [text.includes(t)] *)
Fixpoint includes (text t : string) : bool :=
  if String.prefix t text then true
  else match text with
       | EmptyString => false
       | String _ text' => includes text' t
       end.

Definition isAlnumLower (a : ascii) : bool :=
  let n := nat_of_ascii a in
  ((97 <=? n)%nat && (n <=? 122)%nat) || ((48 <=? n)%nat && (n <=? 57)%nat).

(** [s.replace(/[^a-z0-9]+/g, "")] *)
Fixpoint compact (s : string) : string :=
  match s with
  | EmptyString => EmptyString
  | String a s' => if isAlnumLower a then String a (compact s') else compact s'
  end.

(** [lines.join(sep)] *)
Definition join (sep : string) (l : list string) : string := String.concat sep l.

(** [String(n)] and [`${n}`] on an integer *)
Definition ofZ (n : Z) : string := NilZero.string_of_int (Z.to_int n).

Definition ofNat (n : nat) : string := ofZ (Z.of_nat n).

End Str.

(** [Array.from(new Set(arr))]: first occurrences, in order. *)
Fixpoint uniqAcc (seen : list string) (arr : list string) : list string :=
  match arr with
  | [] => []
  | x :: rest =>
      if existsb (String.eqb x) seen then uniqAcc seen rest
      else x :: uniqAcc (x :: seen) rest
  end.

Definition uniq (arr : list string) : list string := uniqAcc [] arr.

(** ** Numbers *)

(** The hundredths of a rational that is not negative, rounded half up, as
    [toFixed(2)] picks them, and their decimal writing. *)
Definition hundredths (n : Q) : Z := Qfloor (n * inject_Z 100 + (1 # 2))%Q.

Definition decimal2 (h : Z) : string :=
  let frac := (h mod 100)%Z in
  Str.ofZ (h / 100)%Z +:+ "." +:+ (if (frac <? 10)%Z then "0" else "") +:+ Str.ofZ frac.

(** The rational that [n.toFixed(2)] writes. *)
Definition round2 (n : Q) : Q := (hundredths n # 100)%Q.

(** JS numbers: IEEE 754 binary64, rounding to nearest, ties to even. *)
Module Num.

Definition t : Type := spec_float.

Definition prec : Z := 53.
Definition emax : Z := 1024.

Definition NaN : t := S754_nan.

Definition ofZ (z : Z) : t := binary_normalize prec emax z 0 false.

Definition ofNat (n : nat) : t := ofZ (Z.of_nat n).

Definition add (x y : t) : t := SFadd prec emax x y.
Definition mul (x y : t) : t := SFmul prec emax x y.
Definition div (x y : t) : t := SFdiv prec emax x y.

(** [x < y], [x <= y] and [x === y]; each is false when a side is NaN. *)
Definition ltb (x y : t) : bool := SFltb x y.
Definition leb (x y : t) : bool := SFleb x y.
Definition eqb (x y : t) : bool := SFeqb x y.

(** The double nearest to the quotient of two positive integers, with the
    sign [s]: the quotient is taken with enough digits and rounded once. *)
Definition nearest (s : bool) (n d : positive) : t :=
  let '(mz, ez, lz) := SFdiv_core_binary prec emax (Zpos n) 0 (Zpos d) 0 in
  binary_round_aux prec emax s mz ez lz.

(** The number a numeric literal of the source or of a JSON file denotes:
    the double nearest to the rational it writes. *)
Definition ofQ (q : Q) : t :=
  match Qnum q with
  | Z0 => S754_zero false
  | Zpos n => nearest false n (Qden q)
  | Zneg n => nearest true n (Qden q)
  end.

Definition isNaN (x : t) : bool :=
  match x with S754_nan => true | _ => false end.

Definition isPosZero (x : t) : bool :=
  match x with S754_zero false => true | _ => false end.

Definition isNegZero (x : t) : bool :=
  match x with S754_zero true => true | _ => false end.

(** [Math.min(a, b)] and [Math.max(a, b)]: NaN when either is NaN, and -0
    counts as below +0. *)
Definition min (a b : t) : t :=
  if isNaN a || isNaN b then NaN
  else if isNegZero b && isPosZero a then b
  else if ltb b a then b else a.

Definition max (a b : t) : t :=
  if isNaN a || isNaN b then NaN
  else if isPosZero b && isNegZero a then b
  else if ltb a b then b else a.

(** The exact absolute value of a finite number. *)
Definition magnitude (x : t) : Q :=
  match x with
  | S754_finite _ m e =>
      match e with
      | Zneg k => Zpos m # 2 ^ k
      | _ => inject_Z (Zpos m * 2 ^ e)
      end
  | _ => 0
  end%Q.

(** [x.toFixed(2)], for a number below 10^21 in absolute value (the engine
    applies it to a clamped score): the integer [n] with [n / 100] nearest
    to the exact value, the larger one on a tie. *)
Definition toFixed2 (x : t) : string :=
  match x with
  | S754_nan => "NaN"
  | S754_infinity s => if s then "-Infinity" else "Infinity"
  | S754_zero _ => "0.00"
  | S754_finite s _ _ => (if s then "-" else "") +:+ decimal2 (hundredths (magnitude x))
  end.

(** [Number(x.toFixed(2))]: the double nearest to the decimal written. *)
Definition round2 (x : t) : t :=
  match x with
  | S754_finite s _ _ =>
      let rounded := ofQ (hundredths (magnitude x) # 100) in
      if s then SFopp rounded else rounded
  | S754_zero _ => ofZ 0
  | _ => x
  end.

End Num.

(** The arithmetic a formula is evaluated in: the numbers, the reading of a
    literal and of a count, and the operations. *)
Module Arith.
Record t := {
  num : Type;
  ofNat : nat -> num;
  lit : Q -> num;
  add : num -> num -> num;
  mul : num -> num -> num;
  div : num -> num -> num;
  min : num -> num -> num;
  max : num -> num -> num }.
End Arith.

(** The arithmetic of the engine. *)
Definition binary64 : Arith.t :=
  {| Arith.num := Num.t; Arith.ofNat := Num.ofNat; Arith.lit := Num.ofQ;
     Arith.add := Num.add; Arith.mul := Num.mul; Arith.div := Num.div;
     Arith.min := Num.min; Arith.max := Num.max |}.

(** The same operations on the rationals, where nothing is rounded. *)
Definition exact : Arith.t :=
  {| Arith.num := Q; Arith.ofNat := fun n => inject_Z (Z.of_nat n);
     Arith.lit := fun q => q;
     Arith.add := Qplus; Arith.mul := Qmult; Arith.div := Qdiv;
     Arith.min := Qmin; Arith.max := Qmax |}.

(** ** Enumerations (src/lib/types.ts) *)

Inductive TravelerType := honeymoon | multi_gen_family | solo_wellness | corporate_executive.
Inductive SeasonType := late_september | peak_summer | shoulder_apr_may | low_nov_mar.
Inductive RoleType := reservations | marketing | destination_specialist | finance.

Inductive SourceType :=
  | site_visit | post_trip_feedback | booking_intelligence
  | contract | promotion | ujv_pov | unstructured_chunk.

Inductive SectionKey := positioning | travelerFit | risks | promotions | ujvPov.

Inductive Severity := low | medium | high.

Inductive Status := OK | INSUFFICIENT_SOURCES.

Inductive RetrievalMode := mock_synthesis | llm_assisted.

Inductive Compliance := PASS | WARN.

Inductive Label := High | Medium | Low.

#[global] Instance TravelerType_eq_dec : EqDecision TravelerType.
Proof. solve_decision. Defined.
#[global] Instance SeasonType_eq_dec : EqDecision SeasonType.
Proof. solve_decision. Defined.
#[global] Instance RoleType_eq_dec : EqDecision RoleType.
Proof. solve_decision. Defined.
#[global] Instance SourceType_eq_dec : EqDecision SourceType.
Proof. solve_decision. Defined.
#[global] Instance SectionKey_eq_dec : EqDecision SectionKey.
Proof. solve_decision. Defined.
#[global] Instance Status_eq_dec : EqDecision Status.
Proof. solve_decision. Defined.
#[global] Instance Compliance_eq_dec : EqDecision Compliance.
Proof. solve_decision. Defined.

Definition travelerTypes : list string :=
  ["honeymoon"; "multi_gen_family"; "solo_wellness"; "corporate_executive"].
Definition seasonTypes : list string :=
  ["late_september"; "peak_summer"; "shoulder_apr_may"; "low_nov_mar"].
Definition roleTypes : list string :=
  ["reservations"; "marketing"; "destination_specialist"; "finance"].

Definition SourceType_name (t : SourceType) : string :=
  match t with
  | site_visit => "site_visit"
  | post_trip_feedback => "post_trip_feedback"
  | booking_intelligence => "booking_intelligence"
  | contract => "contract"
  | promotion => "promotion"
  | ujv_pov => "ujv_pov"
  | unstructured_chunk => "unstructured_chunk"
  end.

Definition SectionKey_name (k : SectionKey) : string :=
  match k with
  | positioning => "positioning"
  | travelerFit => "travelerFit"
  | risks => "risks"
  | promotions => "promotions"
  | ujvPov => "ujvPov"
  end.

Definition Severity_upper (s : Severity) : string :=
  match s with low => "LOW" | medium => "MEDIUM" | high => "HIGH" end.

(** The casts [x as TravelerType] and the like; [validateInput] applies them
    to members of the enumerations only. *)
Definition asTravelerType (s : string) : TravelerType :=
  if String.eqb s "honeymoon" then honeymoon
  else if String.eqb s "multi_gen_family" then multi_gen_family
  else if String.eqb s "solo_wellness" then solo_wellness
  else corporate_executive.

Definition asSeasonType (s : string) : SeasonType :=
  if String.eqb s "late_september" then late_september
  else if String.eqb s "peak_summer" then peak_summer
  else if String.eqb s "shoulder_apr_may" then shoulder_apr_may
  else low_nov_mar.

Definition asRoleType (s : string) : RoleType :=
  if String.eqb s "reservations" then reservations
  else if String.eqb s "marketing" then marketing
  else if String.eqb s "destination_specialist" then destination_specialist
  else finance.

Definition travelerLabels (t : TravelerType) : string :=
  match t with
  | honeymoon => "Honeymoon"
  | multi_gen_family => "Multi-gen Family"
  | solo_wellness => "Solo / Wellness"
  | corporate_executive => "Corporate / Executive"
  end.

Definition seasonLabels (s : SeasonType) : string :=
  match s with
  | late_september => "Late September"
  | peak_summer => "Peak Summer (Jul-Aug)"
  | shoulder_apr_may => "Shoulder Season (Apr-May)"
  | low_nov_mar => "Low (Nov-Mar)"
  end.

Definition roleLabels (r : RoleType) : string :=
  match r with
  | reservations => "Reservations"
  | marketing => "Marketing"
  | destination_specialist => "Destination Specialist"
  | finance => "Finance"
  end.

Definition sectionKeywords (k : SectionKey) : list string :=
  match k with
  | positioning => ["privacy"; "romantic"; "service"; "design"; "nightlife"]
  | travelerFit => ["traveler"; "fit"; "honeymoon"; "family"; "wellness"; "executive"]
  | risks => ["risk"; "caveat"; "transfer"; "logistics"; "nightlife"]
  | promotions => ["promotion"; "discount"; "offer"; "stack"; "combinable"]
  | ujvPov => ["talk track"; "position"; "qualify"; "value drivers"]
  end.

Definition unstructuredSourceTypes (t : SourceType) : bool :=
  match t with site_visit | post_trip_feedback => true | _ => false end.

(** ** Data model (src/lib/types.ts) *)

Module Source.
Record t := {
  sourceId : string; type : SourceType; title : string; author : string;
  date : string; system : string; reliability : Q; snippet : string;
  ownerTeam : string; version : string; docRef : string;
  lastVerifiedAt : option string }.
End Source.

Module Chunk.
Record t := {
  chunkId : string; hotelId : string; title : string; date : string;
  reliability : Q; text : string;
  ownerTeam : string; version : string; docRef : string }.
(** the field [sourceType] has the single value ["unstructured_chunk"] *)
Definition sourceType (_ : t) : SourceType := unstructured_chunk.
End Chunk.

Module Citation.
Record t := {
  sourceId : string; type : SourceType; title : string; author : string;
  date : string; system : string; reliability : Q; snippet : string;
  docRef : string }.
End Citation.

Module Risk.
Record t := {
  riskId : string; text : string; severity : Severity;
  seasonRelevance : list SeasonType; sourceIds : list string }.
End Risk.

Module Validity.
Record t := {
  bookingFrom : string; bookingTo : string; travelFrom : string; travelTo : string }.
End Validity.

Module Promo.
Record t := {
  promoId : string; name : string; description : string;
  validity : Validity.t; eligibility : list string; sourceIds : list string }.
End Promo.

Module StackingRule.
Record t := {
  ruleId : string; text : string; allowsCombination : bool;
  appliesToPromoIds : list string; sourceIds : list string }.
End StackingRule.

Module Contract.
Record t := { sourceIds : list string; stackingRules : list StackingRule.t }.
End Contract.

Module BookingIntelligence.
Record t := {
  avgBookingValueUsd : Z; qualitativeSummary : string;
  patterns : list string; sourceIds : list string }.
End BookingIntelligence.

Module FeedbackTheme.
Record t := { themeId : string; label : string; text : string; sourceIds : list string }.
End FeedbackTheme.

Module Positioning.
Record t := { strengths : list string; sourceIds : list string }.
End Positioning.

Module TravelerFit.
(** [byType] and the per-type part of [sourceIds] are objects indexed by
    traveler type; a key may be missing, which the code covers with [?? []]. *)
Record t := {
  common : list string;
  byType : TravelerType -> option (list string);
  sourceIds_common : list string;
  sourceIds : TravelerType -> option (list string) }.
End TravelerFit.

Module UjvPov.
Record t := { talkTrack : list string; sourceIds : list string }.
End UjvPov.

Module Policy.
(** a missing key, or a value that is not a number, is [None] *)
Record t := { maxAgeDaysBySourceType : SourceType -> option Z }.
End Policy.

Module Hotel.
Record t := {
  hotelId : string; name : string; country : string; region : string;
  category : string;
  policy : Policy.t;
  positioningTags : list string;
  positioning : Positioning.t;
  travelerFit : TravelerFit.t;
  seasonality : SeasonType -> string;
  risks : list Risk.t;
  promotions : list Promo.t;
  contract : Contract.t;
  bookingIntelligence : BookingIntelligence.t;
  feedbackThemes : list FeedbackTheme.t;
  ujvPov : UjvPov.t }.
End Hotel.

Module Conflict.
Record t := { chunkId : string; reason : string; structuredRuleRef : string }.
End Conflict.

Module Breakdown.
Record t := {
  structuredFactsCount : nat; semanticChunksCount : nat;
  overridesApplied : bool; conflictsIgnoredCount : nat }.
End Breakdown.

Module TextSection.
Record t := {
  status : Status; content : string;
  citations : list Citation.t;
  semanticChunksUsed : list Chunk.t;
  retrievalBreakdown : Breakdown.t;
  conflictsIgnored : list Conflict.t }.
Definition setContent (s : t) (c : string) : t :=
  {| status := status s; content := c; citations := citations s;
     semanticChunksUsed := semanticChunksUsed s;
     retrievalBreakdown := retrievalBreakdown s;
     conflictsIgnored := conflictsIgnored s |}.
End TextSection.

Module PromoOut.
Record t := {
  promoId : string; name : string; description : string;
  validity : Validity.t; eligibility : list string }.
End PromoOut.

Module RuleOut.
Record t := {
  ruleId : string; text : string; allowsCombination : bool;
  appliesToPromoIds : list string }.
End RuleOut.

Module PromotionsSection.
Record t := {
  status : Status;
  promos : list PromoOut.t;
  stackingRules : list RuleOut.t;
  citations : list Citation.t;
  semanticChunksUsed : list Chunk.t;
  retrievalBreakdown : Breakdown.t;
  conflictsIgnored : list Conflict.t }.
End PromotionsSection.

Module QueryInput.
Record t := {
  hotelId : string; travelerType : TravelerType; season : SeasonType;
  includeRisks : bool; includePromotions : bool; includeUjvPov : bool;
  role : RoleType; useLLM : bool }.
End QueryInput.

Module QueryPlan.
Record t := {
  hotelId : string; hotelName : string;
  travelerType : TravelerType; season : SeasonType; role : RoleType;
  sectionsRequested : list SectionKey;
  retrievalMode : RetrievalMode;
  globalTerms : list string;
  perSection : SectionKey -> option (list string);
  createdAt : string }.
Definition setCreatedAt (c : string) (p : t) : t :=
  {| hotelId := hotelId p; hotelName := hotelName p;
     travelerType := travelerType p; season := season p; role := role p;
     sectionsRequested := sectionsRequested p;
     retrievalMode := retrievalMode p;
     globalTerms := globalTerms p; perSection := perSection p;
     createdAt := c |}.
End QueryPlan.

Module Trust.
Record t := {
  evidenceStrengthScore : Num.t;
  evidenceStrengthLabel : Label;
  promotionsLastVerifiedDate : option string;
  mostRecentSiteVisitDate : option string;
  lastFeedbackDate : option string;
  lastSemanticChunkDate : option string;
  structuredSourcesUsed : nat;
  unstructuredSourcesUsed : nat;
  semanticChunksUsed : nat;
  structuredFactsUsed : nat;
  conflictsIgnored : nat;
  canonicalOverridesNotes : bool;
  promotionsFromContractOnly : bool;
  allSectionsBackedByCitations : bool;
  sensitiveDataRestrictedByRole : bool;
  withinFreshnessPolicy : Compliance;
  policyWarnings : list string;
  policyCompliance : Compliance;
  policySnapshot : SourceType -> option Z;
  escalationNeeded : bool;
  escalationReason : string }.
End Trust.

Module Sections.
Record t := {
  positioning : TextSection.t;
  travelerFit : TextSection.t;
  risks : option TextSection.t;
  promotions : option PromotionsSection.t;
  ujvPov : option TextSection.t }.
End Sections.

Module Response.
Record t := { queryPlan : QueryPlan.t; sections : Sections.t; trust : Trust.t }.
Definition setCreatedAt (c : string) (r : t) : t :=
  {| queryPlan := QueryPlan.setCreatedAt c (queryPlan r);
     sections := sections r; trust := trust r |}.
End Response.

(** A text section or the promotions section, as [Object.values(sections)]
    yields them. *)
Inductive AnySection :=
  | TextSec (s : TextSection.t)
  | PromoSec (s : PromotionsSection.t).

Definition sec_status (s : AnySection) : Status :=
  match s with TextSec t => TextSection.status t | PromoSec p => PromotionsSection.status p end.
Definition sec_citations (s : AnySection) : list Citation.t :=
  match s with TextSec t => TextSection.citations t | PromoSec p => PromotionsSection.citations p end.
Definition sec_semanticChunksUsed (s : AnySection) : list Chunk.t :=
  match s with
  | TextSec t => TextSection.semanticChunksUsed t
  | PromoSec p => PromotionsSection.semanticChunksUsed p
  end.
Definition sec_retrievalBreakdown (s : AnySection) : Breakdown.t :=
  match s with
  | TextSec t => TextSection.retrievalBreakdown t
  | PromoSec p => PromotionsSection.retrievalBreakdown p
  end.
Definition sec_conflictsIgnored (s : AnySection) : list Conflict.t :=
  match s with
  | TextSec t => TextSection.conflictsIgnored t
  | PromoSec p => PromotionsSection.conflictsIgnored p
  end.

Definition optList {A} (o : option A) : list A :=
  match o with Some a => [a] | None => [] end.

(** [Object.entries(responseDraft.sections)], in insertion order. *)
Definition sectionEntries (ss : Sections.t) : list (SectionKey * AnySection) :=
  [(positioning, TextSec (Sections.positioning ss));
   (travelerFit, TextSec (Sections.travelerFit ss))]
  ++ optList ((fun s => (risks, TextSec s)) <$> Sections.risks ss)
  ++ optList ((fun s => (promotions, PromoSec s)) <$> Sections.promotions ss)
  ++ optList ((fun s => (ujvPov, TextSec s)) <$> Sections.ujvPov ss).

(** [Object.values(responseDraft.sections)] *)
Definition sectionValues (ss : Sections.t) : list AnySection :=
  snd <$> sectionEntries ss.

(** ** The surroundings of the engine *)

Module Overrides.
(** the object returned by [maybeLlmNarrativeOverride]; a missing key is [None] *)
Record t := {
  positioning : option string; travelerFit : option string;
  risks : option string; ujvPov : option string }.
Definition empty : t :=
  {| positioning := None; travelerFit := None; risks := None; ujvPov := None |}.
End Overrides.

Module Runtime.
Record t := {
  (** [!!process.env.OPENAI_API_KEY] *)
  hasApiKey : bool;
  (** [new Date().toISOString()] when the plan is built *)
  nowISO : string;
  (** [new Date().getTime()] as [daysOld] reads it; one reading serves
    every call of a run *)
  now : Z;
  (** [new Date(s).getTime()], [None] for NaN *)
  getTime : string -> option Z;
  (** [new Date(ms).toISOString().slice(0, 10)] *)
  toISODay : Z -> string;
  (** [n.toLocaleString()] in the locale of the process *)
  toLocaleString : Z -> string;
  (** [s.toLowerCase()], with the case mapping of the platform's Unicode
      tables *)
  toLowerCase : string -> string;
  (** [s.trim()], with the white space and line terminators the platform
      knows *)
  trim : string -> string;
  (** the request to the narrative service and the parsing of its answer;
      any failure is [Overrides.empty] *)
  narrativeService : Response.t -> Hotel.t -> QueryInput.t -> Overrides.t }.
End Runtime.

(** The three collections read from disk. *)
Module Data.
Record t := {
  hotel : Hotel.t; allSources : list Source.t; allChunks : list Chunk.t }.
End Data.

(** A thrown [Error]: its message and the [status] property when set. *)
Module Thrown.
Record t := { message : string; status : option Z }.
End Thrown.

(** ** Small helpers of the engine *)

(** The request body as [req.json()] hands it over. *)
Inductive JSON :=
  | JNull
  | JBool (b : bool)
  | JNum (n : Q)
  | JStr (s : string)
  | JArr (items : list JSON)
  | JObj (fields : list (string * JSON)).

(** [body.k]; [None] is [undefined]. The keys of a parsed object are
    distinct, so the first match is the only one. *)
Definition prop (body : JSON) (k : string) : option JSON :=
  match body with
  | JObj fields => snd <$> find (fun kv => String.eqb (fst kv) k) fields
  | _ => None
  end.

Definition isRecord (value : JSON) : bool :=
  match value with JArr _ | JObj _ => true | _ => false end.

Definition isString (v : option JSON) : bool :=
  match v with Some (JStr _) => true | _ => false end.

Definition strOf (v : option JSON) : string :=
  match v with Some (JStr s) => s | _ => "" end.

(** [arr.includes(s)] on an array of strings *)
Definition includesStr (arr : list string) (s : string) : bool :=
  existsb (String.eqb s) arr.

Definition clampIn (A : Arith.t) (n min max : Arith.num A) : Arith.num A :=
  Arith.min A max (Arith.max A min n).

Definition clamp (n min max : Num.t) : Num.t := clampIn binary64 n min max.

Definition msPerDay : Z := (1000 * 60 * 60 * 24)%Z.

(** [daysOld(date)]; [None] is NaN. *)
Definition daysOld (rt : Runtime.t) (date : string) : option Z :=
  match Runtime.getTime rt date with
  | Some ts => Some ((Runtime.now rt - ts) / msPerDay)%Z
  | None => None
  end.

Definition formatDate (rt : Runtime.t) (date : option string) : option string :=
  match date with
  | None => None
  | Some d =>
      if Str.isEmpty d then None
      else match Runtime.getTime rt d with
           | None => None
           | Some ts => Some (Runtime.toISODay rt ts)
           end
  end.

Definition maxDate (rt : Runtime.t) (dates : list string) : option string :=
  let valid :=
    omap (fun d => if Str.isEmpty d then None else Runtime.getTime rt d) dates in
  match valid with
  | [] => None
  | t :: rest => Some (Runtime.toISODay rt (fold_left Z.max rest t))
  end.

Definition toCitation (source : Source.t) : Citation.t :=
  {| Citation.sourceId := Source.sourceId source;
     Citation.type := Source.type source;
     Citation.title := Source.title source;
     Citation.author := Source.author source;
     Citation.date := Source.date source;
     Citation.system := Source.system source;
     Citation.reliability := Source.reliability source;
     Citation.snippet := Source.snippet source;
     Citation.docRef := Source.docRef source |}.

(** ** Validation *)

Definition validateInput (payload : JSON) : string + QueryInput.t :=
  if negb (isRecord payload) then inl "Invalid request body"
  else
    let body := payload in
    let travelerType := prop body "travelerType" in
    let season := prop body "season" in
    let role := prop body "role" in
    if negb (isString (prop body "hotelId")) || Str.isEmpty (strOf (prop body "hotelId"))
    then inl "hotelId is required"
    else if negb (isString travelerType) || negb (includesStr travelerTypes (strOf travelerType))
    then inl "Invalid travelerType"
    else if negb (isString season) || negb (includesStr seasonTypes (strOf season))
    then inl "Invalid season"
    else if negb (isString role) || negb (includesStr roleTypes (strOf role))
    then inl "Invalid role"
    else
      let bool (v : option JSON) (fallback : bool) :=
        match v with Some (JBool b) => b | _ => fallback end in
      inr {| QueryInput.hotelId := strOf (prop body "hotelId");
             QueryInput.travelerType := asTravelerType (strOf travelerType);
             QueryInput.season := asSeasonType (strOf season);
             QueryInput.includeRisks := bool (prop body "includeRisks") true;
             QueryInput.includePromotions := bool (prop body "includePromotions") true;
             QueryInput.includeUjvPov := bool (prop body "includeUjvPov") true;
             QueryInput.role := asRoleType (strOf role);
             QueryInput.useLLM := bool (prop body "useLLM") false |}.

(** ** Term planner *)

Definition buildQueryPlan (rt : Runtime.t) (hotel : Hotel.t) (input : QueryInput.t)
  : QueryPlan.t :=
  let sectionsRequested :=
    [positioning; travelerFit]
    ++ (if QueryInput.includeRisks input then [risks] else [])
    ++ (if QueryInput.includePromotions input then [promotions] else [])
    ++ (if QueryInput.includeUjvPov input then [ujvPov] else []) in
  let globalTerms :=
    uniq [Hotel.name hotel; Hotel.region hotel;
          travelerLabels (QueryInput.travelerType input);
          seasonLabels (QueryInput.season input);
          roleLabels (QueryInput.role input)] in
  let terms k := uniq (globalTerms ++ sectionKeywords k) in
  let perSection k :=
    match k with
    | positioning => Some (terms positioning)
    | travelerFit => Some (terms travelerFit)
    | risks => if QueryInput.includeRisks input then Some (terms risks) else None
    | promotions =>
        if QueryInput.includePromotions input then Some (terms promotions) else None
    | ujvPov => if QueryInput.includeUjvPov input then Some (terms ujvPov) else None
    end in
  {| QueryPlan.hotelId := Hotel.hotelId hotel;
     QueryPlan.hotelName := Hotel.name hotel;
     QueryPlan.travelerType := QueryInput.travelerType input;
     QueryPlan.season := QueryInput.season input;
     QueryPlan.role := QueryInput.role input;
     QueryPlan.sectionsRequested := sectionsRequested;
     QueryPlan.retrievalMode :=
       if QueryInput.useLLM input && Runtime.hasApiKey rt then llm_assisted
       else mock_synthesis;
     QueryPlan.globalTerms := globalTerms;
     QueryPlan.perSection := perSection;
     QueryPlan.createdAt := Runtime.nowISO rt |}.

(** ** Chunk scorer *)

Definition keywordScore (rt : Runtime.t) (chunk : Chunk.t) (terms : list string) : nat :=
  let text := Runtime.toLowerCase rt (Chunk.title chunk +:+ " " +:+ Chunk.text chunk) in
  fold_left
    (fun score term =>
       let t := Runtime.toLowerCase rt term in
       if Str.isEmpty (Runtime.trim rt t) then score
       else
         let score1 :=
           if Str.includes text t
           then score + (if Str.includes t " " then 2 else 1)
           else score in
         let compact := Str.compact t in
         if negb (Str.isEmpty compact) && negb (String.eqb compact t)
            && Str.includes (Str.compact text) compact
         then score1 + 1
         else score1)
    terms 0.

(** ** Conflict detector *)

Definition nightlifeConflictPhrases : list string :=
  ["nightlife-focused"; "nightlife focused"; "late-night scene"].

Definition detectSemanticConflict (rt : Runtime.t) (chunk : Chunk.t) (section : SectionKey) (hotel : Hotel.t)
  : option Conflict.t :=
  let text := Runtime.toLowerCase rt (Chunk.text chunk) in
  let hasPromoStackClaim :=
    (Str.includes text "stack" || Str.includes text "combine"
     || Str.includes text "combinable")
    && Str.includes text "4th"
    && Str.includes text "early booking" in
  let stacking :=
    if hasPromoStackClaim then
      match
        find (fun r =>
                String.eqb (StackingRule.ruleId r) "sr_nonstack_4nf_eb15"
                || (negb (StackingRule.allowsCombination r)
                    && (0 <? length (StackingRule.appliesToPromoIds r))))
             (Contract.stackingRules (Hotel.contract hotel))
      with
      | Some rule =>
          Some {| Conflict.chunkId := Chunk.chunkId chunk;
                  Conflict.reason :=
                    "Chunk claims promo combinability that conflicts with contract stacking rules.";
                  Conflict.structuredRuleRef :=
                    "contract.stackingRules." +:+ StackingRule.ruleId rule |}
      | None => None
      end
    else None in
  match stacking with
  | Some ev => Some ev
  | None =>
      let claimsNightlife := existsb (fun p => Str.includes text p) nightlifeConflictPhrases in
      let structuredSaysNightlifeLimited :=
        negb (includesStr (Hotel.positioningTags hotel) "nightlife") in
      if claimsNightlife && structuredSaysNightlifeLimited
         && bool_decide (section = positioning)
      then
        Some {| Conflict.chunkId := Chunk.chunkId chunk;
                Conflict.reason :=
                  "Chunk conflicts with canonical positioning tags and site visit notes (privacy-led, not nightlife-led).";
                Conflict.structuredRuleRef := "hotel.positioningTags" |}
      else None
  end.

(** ** Semantic retriever *)

Module Scored.
Record t := { chunk : Chunk.t; score : nat }.
End Scored.

(** The comparator of the sort: [b.score - a.score || b.chunk.reliability -
    a.chunk.reliability]. *)
Definition compareScored (a b : Scored.t) : Q :=
  let d := (Z.of_nat (Scored.score b) - Z.of_nat (Scored.score a))%Z in
  if (d =? 0)%Z
  then (Chunk.reliability (Scored.chunk b) - Chunk.reliability (Scored.chunk a))%Q
  else inject_Z d.

(** [Array.prototype.sort] is stable: an element goes before the first one it
    does not have to follow. *)
Fixpoint insertBy {A} (cmp : A -> A -> Q) (x : A) (l : list A) : list A :=
  match l with
  | [] => [x]
  | y :: l' => if Qle_bool (cmp x y) 0 then x :: l else y :: insertBy cmp x l'
  end.

Definition sortBy {A} (cmp : A -> A -> Q) (l : list A) : list A :=
  foldr (insertBy cmp) [] l.

(** The candidates of a section in the order the loop visits them. *)
Definition scoredCandidates (rt : Runtime.t) (allChunks : list Chunk.t) (hotel : Hotel.t) (terms : list string)
  : list Scored.t :=
  sortBy compareScored
    (List.filter (fun x => 0 <? Scored.score x)
       (List.map (fun c => {| Scored.chunk := c; Scored.score := keywordScore rt c terms |})
          (List.filter (fun c => String.eqb (Chunk.hotelId c) (Hotel.hotelId hotel)) allChunks))).

Module Semantic.
Record t := { used : list Chunk.t; conflictsIgnored : list Conflict.t }.
End Semantic.

(** The [for ... of scored] loop, with its two accumulators. *)
Fixpoint retrieveLoop (rt : Runtime.t) (section : SectionKey) (hotel : Hotel.t) (topN : nat)
    (scored : list Scored.t) (used : list Chunk.t) (conflictsIgnored : list Conflict.t)
  : Semantic.t :=
  match scored with
  | [] => {| Semantic.used := used; Semantic.conflictsIgnored := conflictsIgnored |}
  | item :: rest =>
      match detectSemanticConflict rt (Scored.chunk item) section hotel with
      | Some conflict =>
          retrieveLoop rt section hotel topN rest used (conflictsIgnored ++ [conflict])
      | None =>
          let used' := used ++ [Scored.chunk item] in
          if topN <=? length used'
          then {| Semantic.used := used'; Semantic.conflictsIgnored := conflictsIgnored |}
          else retrieveLoop rt section hotel topN rest used' conflictsIgnored
      end
  end.

Definition retrieveSemanticChunks (rt : Runtime.t) (allChunks : list Chunk.t) (hotel : Hotel.t)
    (section : SectionKey) (terms : list string) (topN : option nat) : Semantic.t :=
  let topN := default 3 topN in
  retrieveLoop rt section hotel topN (scoredCandidates rt allChunks hotel terms) [] [].

Definition collectPromoSemanticConflicts (rt : Runtime.t) (allChunks : list Chunk.t) (hotel : Hotel.t)
  : list Conflict.t :=
  fold_left
    (fun conflicts chunk =>
       match detectSemanticConflict rt chunk promotions hotel with
       | Some event => conflicts ++ [event]
       | None => conflicts
       end)
    (List.filter (fun c => String.eqb (Chunk.hotelId c) (Hotel.hotelId hotel)) allChunks)
    [].

(** ** Section builders *)

(** [new Map(allSources.map((s) => [s.sourceId, s]))]: a later record with
    the same id replaces an earlier one. *)
Definition buildSourceMap (allSources : list Source.t) : gmap string Source.t :=
  fold_left (fun m s => <[Source.sourceId s := s]> m) allSources ∅.

Definition collectCitations (sourceIds : list string) (sourceMap : gmap string Source.t)
  : list Citation.t :=
  List.map toCitation (omap (fun id => sourceMap !! id) (uniq sourceIds)).

Definition buildRetrievalBreakdown
    (structuredFactsCount semanticChunksCount conflictsIgnoredCount : nat) : Breakdown.t :=
  {| Breakdown.structuredFactsCount := structuredFactsCount;
     Breakdown.semanticChunksCount := semanticChunksCount;
     Breakdown.overridesApplied := 0 <? conflictsIgnoredCount;
     Breakdown.conflictsIgnoredCount := conflictsIgnoredCount |}.

Definition insufficientText : string :=
  "Insufficient verified sources to answer this section.".

Definition newline : string := String (ascii_of_nat 10) EmptyString.

Definition renderBulletText (lines : list string) : string :=
  Str.join newline (List.map (fun line => "- " +:+ line) lines).

Definition statusOf (citations : list Citation.t) : Status :=
  if length citations =? 0 then INSUFFICIENT_SOURCES else OK.

(** The optional last bullet of a text section. *)
Definition supportingColor (used : list Chunk.t) : list string :=
  if 0 <? length used
  then ["Supporting color (non-canonical): "
        +:+ Str.join ", " (List.map Chunk.title used) +:+ "."]
  else [].

Definition mkTextSection (status : Status) (contentLines : list string)
    (citations : list Citation.t) (semantic : Semantic.t) (factsCount : nat)
  : TextSection.t :=
  {| TextSection.status := status;
     TextSection.content := renderBulletText contentLines;
     TextSection.citations := citations;
     TextSection.semanticChunksUsed := Semantic.used semantic;
     TextSection.retrievalBreakdown :=
       buildRetrievalBreakdown factsCount
         (length (Semantic.used semantic))
         (length (Semantic.conflictsIgnored semantic));
     TextSection.conflictsIgnored := Semantic.conflictsIgnored semantic |}.

Definition buildPositioningSection (hotel : Hotel.t) (sourceMap : gmap string Source.t)
    (semantic : Semantic.t) (input : QueryInput.t) : TextSection.t :=
  let sourceIds := Positioning.sourceIds (Hotel.positioning hotel) in
  let citations := collectCitations sourceIds sourceMap in
  let facts :=
    [Hotel.name hotel +:+ " is positioned as "
     +:+ Str.join ", " (Hotel.positioningTags hotel) +:+ "."]
    ++ Positioning.strengths (Hotel.positioning hotel)
    ++ [Hotel.seasonality hotel (QueryInput.season input)] in
  let status := statusOf citations in
  let contentLines :=
    match status with
    | OK =>
        [Hotel.name hotel +:+ " is positioned as "
         +:+ Str.join ", " (Hotel.positioningTags hotel) +:+ ".";
         "Core strengths: "
         +:+ Str.join "; " (Positioning.strengths (Hotel.positioning hotel)) +:+ ".";
         Hotel.seasonality hotel (QueryInput.season input)]
        ++ supportingColor (Semantic.used semantic)
    | INSUFFICIENT_SOURCES => [insufficientText]
    end in
  mkTextSection status contentLines citations semantic (length facts).

Definition bookingValueLine (rt : Runtime.t) (hotel : Hotel.t) (input : QueryInput.t) : string :=
  if bool_decide (QueryInput.role input = finance)
  then "Average booking value signal: USD "
       +:+ Runtime.toLocaleString rt
             (BookingIntelligence.avgBookingValueUsd (Hotel.bookingIntelligence hotel))
       +:+ "."
  else "Average booking value signal: "
       +:+ BookingIntelligence.qualitativeSummary (Hotel.bookingIntelligence hotel)
       +:+ ".".

Definition buildTravelerFitSection (rt : Runtime.t) (hotel : Hotel.t)
    (sourceMap : gmap string Source.t) (semantic : Semantic.t) (input : QueryInput.t)
  : TextSection.t :=
  let fit := Hotel.travelerFit hotel in
  let travelerSpecific :=
    default [] (TravelerFit.byType fit (QueryInput.travelerType input)) in
  let travelerSourceIds :=
    TravelerFit.sourceIds_common fit
    ++ default [] (TravelerFit.sourceIds fit (QueryInput.travelerType input))
    ++ flat_map FeedbackTheme.sourceIds (Hotel.feedbackThemes hotel) in
  let citations := collectCitations travelerSourceIds sourceMap in
  let bookingValueLine := bookingValueLine rt hotel input in
  let facts :=
    TravelerFit.common fit
    ++ travelerSpecific
    ++ BookingIntelligence.patterns (Hotel.bookingIntelligence hotel)
    ++ List.map FeedbackTheme.text (Hotel.feedbackThemes hotel)
    ++ [bookingValueLine] in
  let status := statusOf citations in
  let contentLines :=
    match status with
    | OK =>
        ["Traveler type assessed: "
         +:+ travelerLabels (QueryInput.travelerType input) +:+ "."]
        ++ TravelerFit.common fit
        ++ travelerSpecific
        ++ ["Booking intelligence: "
            +:+ Str.join "; " (BookingIntelligence.patterns (Hotel.bookingIntelligence hotel))
            +:+ ".";
            bookingValueLine;
            "Feedback themes: "
            +:+ Str.join ", " (List.map FeedbackTheme.label (Hotel.feedbackThemes hotel))
            +:+ "."]
        ++ supportingColor (Semantic.used semantic)
    | INSUFFICIENT_SOURCES => [insufficientText]
    end in
  mkTextSection status contentLines citations semantic (length facts).

Definition buildRisksSection (hotel : Hotel.t) (sourceMap : gmap string Source.t)
    (semantic : Semantic.t) (input : QueryInput.t) : TextSection.t :=
  let relevantRisks :=
    List.filter
      (fun r => existsb (fun s => bool_decide (s = QueryInput.season input))
                        (Risk.seasonRelevance r))
      (Hotel.risks hotel) in
  let sourceIds := flat_map Risk.sourceIds relevantRisks in
  let citations := collectCitations sourceIds sourceMap in
  let facts :=
    List.map (fun r => Severity_upper (Risk.severity r) +:+ ": " +:+ Risk.text r)
             relevantRisks in
  let status := statusOf citations in
  let contentLines :=
    match status with
    | OK =>
        ["Season assessed: " +:+ seasonLabels (QueryInput.season input) +:+ "."]
        ++ facts
        ++ supportingColor (Semantic.used semantic)
    | INSUFFICIENT_SOURCES => [insufficientText]
    end in
  mkTextSection status contentLines citations semantic (length facts).

Definition buildUjvPovSection (hotel : Hotel.t) (sourceMap : gmap string Source.t)
    (semantic : Semantic.t) : TextSection.t :=
  let citations := collectCitations (UjvPov.sourceIds (Hotel.ujvPov hotel)) sourceMap in
  let facts := UjvPov.talkTrack (Hotel.ujvPov hotel) in
  let status := statusOf citations in
  let contentLines :=
    match status with
    | OK => UjvPov.talkTrack (Hotel.ujvPov hotel) ++ supportingColor (Semantic.used semantic)
    | INSUFFICIENT_SOURCES => [insufficientText]
    end in
  mkTextSection status contentLines citations semantic (length facts).

Definition buildPromotionsSection (hotel : Hotel.t) (sourceMap : gmap string Source.t)
    (promoConflicts : list Conflict.t) : PromotionsSection.t :=
  let sourceIds :=
    flat_map Promo.sourceIds (Hotel.promotions hotel)
    ++ Contract.sourceIds (Hotel.contract hotel)
    ++ flat_map StackingRule.sourceIds (Contract.stackingRules (Hotel.contract hotel)) in
  let citations := collectCitations sourceIds sourceMap in
  let status := statusOf citations in
  {| PromotionsSection.status := status;
     PromotionsSection.promos :=
       match status with
       | OK =>
           List.map
             (fun p => {| PromoOut.promoId := Promo.promoId p;
                          PromoOut.name := Promo.name p;
                          PromoOut.description := Promo.description p;
                          PromoOut.validity := Promo.validity p;
                          PromoOut.eligibility := Promo.eligibility p |})
             (Hotel.promotions hotel)
       | INSUFFICIENT_SOURCES => []
       end;
     PromotionsSection.stackingRules :=
       match status with
       | OK =>
           List.map
             (fun r => {| RuleOut.ruleId := StackingRule.ruleId r;
                          RuleOut.text := StackingRule.text r;
                          RuleOut.allowsCombination := StackingRule.allowsCombination r;
                          RuleOut.appliesToPromoIds := StackingRule.appliesToPromoIds r |})
             (Contract.stackingRules (Hotel.contract hotel))
       | INSUFFICIENT_SOURCES => []
       end;
     PromotionsSection.citations := citations;
     PromotionsSection.semanticChunksUsed := [];
     PromotionsSection.retrievalBreakdown :=
       buildRetrievalBreakdown
         (length (Hotel.promotions hotel)
          + length (Contract.stackingRules (Hotel.contract hotel)))
         0 (length promoConflicts);
     PromotionsSection.conflictsIgnored := promoConflicts |}.

(** ** Narrative override gate *)

Definition maybeLlmNarrativeOverride (rt : Runtime.t) (responseDraft : Response.t)
    (hotel : Hotel.t) (input : QueryInput.t) : Overrides.t :=
  if negb (QueryInput.useLLM input) || negb (Runtime.hasApiKey rt)
  then Overrides.empty
  else Runtime.narrativeService rt responseDraft hotel input.

(** [if (override && section.status === "OK") section.content = override];
    the empty string is falsy. *)
Definition applyOverride (override : option string) (section : TextSection.t)
  : TextSection.t :=
  match override with
  | Some text =>
      if negb (Str.isEmpty text) && bool_decide (TextSection.status section = OK)
      then TextSection.setContent section text
      else section
  | None => section
  end.

Definition applyOverrides (o : Overrides.t) (ss : Sections.t) : Sections.t :=
  {| Sections.positioning := applyOverride (Overrides.positioning o) (Sections.positioning ss);
     Sections.travelerFit := applyOverride (Overrides.travelerFit o) (Sections.travelerFit ss);
     Sections.risks := applyOverride (Overrides.risks o) <$> Sections.risks ss;
     Sections.promotions := Sections.promotions ss;
     Sections.ujvPov := applyOverride (Overrides.ujvPov o) <$> Sections.ujvPov ss |}.

(** ** Freshness evaluator *)

Module SourceItem.
Record t := { date : string; type : SourceType; label : string }.
End SourceItem.

Definition selectSectionSourceItems (section : AnySection) : list SourceItem.t :=
  let citationItems :=
    List.map
      (fun c => {| SourceItem.date := Citation.date c;
                   SourceItem.type := Citation.type c;
                   SourceItem.label :=
                     Citation.sourceId c +:+ " (" +:+ SourceType_name (Citation.type c) +:+ ")" |})
      (sec_citations section) in
  let semanticItems :=
    List.map
      (fun c => {| SourceItem.date := Chunk.date c;
                   SourceItem.type := Chunk.sourceType c;
                   SourceItem.label :=
                     Chunk.chunkId c +:+ " (" +:+ SourceType_name (Chunk.sourceType c) +:+ ")" |})
      (sec_semanticChunksUsed section) in
  citationItems ++ semanticItems.

(** The warnings one section contributes, in the order of its items. *)
Definition sectionWarnings (rt : Runtime.t) (hotel : Hotel.t)
    (entry : SectionKey * AnySection) : list string :=
  flat_map
    (fun item =>
       match Policy.maxAgeDaysBySourceType (Hotel.policy hotel) (SourceItem.type item) with
       | None => []
       | Some maxAge =>
           match daysOld rt (SourceItem.date item) with
           | Some age =>
               if (maxAge <? age)%Z
               then [SectionKey_name (fst entry) +:+ ": " +:+ SourceItem.label item
                     +:+ " exceeds max age " +:+ Str.ofZ maxAge
                     +:+ "d (age " +:+ Str.ofZ age +:+ "d)"]
               else []
           | None => []
           end
       end)
    (selectSectionSourceItems (snd entry)).

Definition policyWarningsOf (rt : Runtime.t) (hotel : Hotel.t) (ss : Sections.t)
  : list string :=
  flat_map (sectionWarnings rt hotel) (sectionEntries ss).

(** ** Evidence scorer and escalation engine *)

(** Lines 790-793. *)
Definition sumReliability (cs : list Citation.t) : Num.t :=
  fold_left (fun sum c => Num.add sum (Num.ofQ (Citation.reliability c))) cs (Num.ofZ 0).

Definition avgReliabilityOf (allCitations : list Citation.t) : Num.t :=
  if 0 <? length allCitations
  then Num.div (sumReliability allCitations) (Num.ofNat (length allCitations))
  else Num.ofZ 0.

Definition anyRecentOf (rt : Runtime.t) (allCitations : list Citation.t) : bool :=
  existsb
    (fun c => match daysOld rt (Citation.date c) with
              | Some age => (age <=? 120)%Z
              | None => false
              end)
    allCitations.

Definition semanticCountOf (requestedSections : list AnySection) : nat :=
  fold_left (fun sum s => sum + length (sec_semanticChunksUsed s)) requestedSections 0.

(** Lines 799-803: the score before it is rounded for the payload, in the
    arithmetic [A]. *)
Definition evidenceStrengthIn (A : Arith.t) (totalCitations : nat)
    (avgReliability : Arith.num A) (anyRecent : bool) (nonConflictingSemanticCount : nat)
  : Arith.num A :=
  let semanticBonus :=
    Arith.min A (Arith.lit A (2 # 100))
      (Arith.mul A (Arith.ofNat A nonConflictingSemanticCount) (Arith.lit A (1 # 100))) in
  let base :=
    Arith.min A (Arith.lit A 1)
      (Arith.div A (Arith.ofNat A totalCitations) (Arith.lit A 8)) in
  let recencyBonus := if anyRecent then Arith.lit A (5 # 100) else Arith.lit A 0 in
  let reliabilityFactor := Arith.mul A avgReliability (Arith.lit A (9 # 10)) in
  clampIn A
    (Arith.add A (Arith.add A (Arith.mul A base reliabilityFactor) recencyBonus)
       semanticBonus)
    (Arith.lit A 0) (Arith.lit A 1).

(** The score as the engine computes it. *)
Definition evidenceStrengthScoreOf (totalCitations : nat) (avgReliability : Num.t)
    (anyRecent : bool) (nonConflictingSemanticCount : nat) : Num.t :=
  evidenceStrengthIn binary64 totalCitations avgReliability anyRecent
    nonConflictingSemanticCount.


Definition labelOf (evidenceStrengthScore : Num.t) : Label :=
  if Num.leb (Num.ofQ (75 # 100)) evidenceStrengthScore then High
  else if Num.leb (Num.ofQ (6 # 10)) evidenceStrengthScore then Medium
  else Low.

Definition belowThreshold (evidenceStrengthScore : Num.t) : bool :=
  Num.ltb evidenceStrengthScore (Num.ofQ (6 # 10)).

Definition escalationReasonOf (evidenceStrengthScore : Num.t)
    (promotionsMissingSources travelerFitInsufficient policyWarn : bool) : string :=
  if belowThreshold evidenceStrengthScore
  then "Reason: Evidence Strength below threshold (0.6). Current score "
       +:+ Num.toFixed2 evidenceStrengthScore
  else if promotionsMissingSources
  then "Reason: Promotions requested but no verified promotions/contract sources were found."
  else if travelerFitInsufficient
  then "Reason: Traveler Fit section lacks sufficient verified evidence."
  else if policyWarn
  then "Reason: Policy freshness WARN."
  else "".

(** The trust payload the draft carries before aggregation. *)
Definition draftTrust (hotel : Hotel.t) : Trust.t :=
  {| Trust.evidenceStrengthScore := Num.ofZ 0;
     Trust.evidenceStrengthLabel := Low;
     Trust.promotionsLastVerifiedDate := None;
     Trust.mostRecentSiteVisitDate := None;
     Trust.lastFeedbackDate := None;
     Trust.lastSemanticChunkDate := None;
     Trust.structuredSourcesUsed := 0;
     Trust.unstructuredSourcesUsed := 0;
     Trust.semanticChunksUsed := 0;
     Trust.structuredFactsUsed := 0;
     Trust.conflictsIgnored := 0;
     Trust.canonicalOverridesNotes := false;
     Trust.promotionsFromContractOnly := true;
     Trust.allSectionsBackedByCitations := false;
     Trust.sensitiveDataRestrictedByRole := true;
     Trust.withinFreshnessPolicy := PASS;
     Trust.policyWarnings := [];
     Trust.policyCompliance := PASS;
     Trust.policySnapshot := Policy.maxAgeDaysBySourceType (Hotel.policy hotel);
     Trust.escalationNeeded := false;
     Trust.escalationReason := "" |}.

(** Lines 787-896: aggregation over the sections of the draft, after the
    overrides were applied. *)
Definition aggregateTrust (rt : Runtime.t) (hotel : Hotel.t)
    (sourceMap : gmap string Source.t) (input : QueryInput.t) (ss : Sections.t)
  : Trust.t :=
  let promotions := Sections.promotions ss in
  let requestedSections := sectionValues ss in
  let allCitations := flat_map sec_citations requestedSections in
  let totalCitations := length allCitations in
  let avgReliability := avgReliabilityOf allCitations in
  let anyRecent := anyRecentOf rt allCitations in
  let nonConflictingSemanticCount := semanticCountOf requestedSections in
  let evidenceStrengthScore :=
    evidenceStrengthScoreOf totalCitations avgReliability anyRecent
      nonConflictingSemanticCount in
  let evidenceStrengthLabel := labelOf evidenceStrengthScore in
  let uniqueCitationSources :=
    omap (fun id => sourceMap !! id) (uniq (List.map Citation.sourceId allCitations)) in
  let structuredSourcesUsed :=
    length (List.filter (fun s => negb (unstructuredSourceTypes (Source.type s)))
                        uniqueCitationSources) in
  let unstructuredSourcesUsed :=
    length (List.filter (fun s => unstructuredSourceTypes (Source.type s))
                        uniqueCitationSources) in
  let structuredFactsUsed :=
    fold_left (fun sum s => sum + Breakdown.structuredFactsCount (sec_retrievalBreakdown s))
              requestedSections 0 in
  let conflictsIgnored :=
    fold_left (fun sum s => sum + length (sec_conflictsIgnored s)) requestedSections 0 in
  let promotionsDates :=
    match promotions with
    | Some p =>
        List.map
          (fun c =>
             match sourceMap !! Citation.sourceId c with
             | Some s => default (Citation.date c) (Source.lastVerifiedAt s)
             | None => Citation.date c
             end)
          (List.filter
             (fun c => bool_decide (Citation.type c = promotion)
                       || bool_decide (Citation.type c = contract))
             (PromotionsSection.citations p))
    | None => []
    end in
  let siteVisitDates :=
    List.map Source.date
      (List.filter (fun s => bool_decide (Source.type s = site_visit)) uniqueCitationSources) in
  let feedbackDates :=
    List.map Source.date
      (List.filter (fun s => bool_decide (Source.type s = post_trip_feedback))
                   uniqueCitationSources) in
  let semanticDates :=
    flat_map (fun s => List.map Chunk.date (sec_semanticChunksUsed s)) requestedSections in
  let policyWarnings := policyWarningsOf rt hotel ss in
  let withinFreshnessPolicy := if 0 <? length policyWarnings then WARN else PASS in
  let allSectionsBackedByCitations :=
    forallb (fun s => (0 <? length (sec_citations s)) && bool_decide (sec_status s = OK))
            requestedSections in
  let sensitiveDataRestrictedByRole :=
    bool_decide (QueryInput.role input = finance)
    || negb (Str.includes
               (TextSection.content (Sections.travelerFit ss))
               (Str.ofZ (BookingIntelligence.avgBookingValueUsd
                           (Hotel.bookingIntelligence hotel)))) in
  let travelerFitInsufficient :=
    bool_decide (TextSection.status (Sections.travelerFit ss) = INSUFFICIENT_SOURCES) in
  let promotionsMissingSources :=
    QueryInput.includePromotions input
    && (match promotions with
        | Some p => length (PromotionsSection.citations p)
        | None => 0
        end =? 0) in
  let policyWarn := bool_decide (withinFreshnessPolicy = WARN) in
  let escalationNeeded :=
    belowThreshold evidenceStrengthScore || promotionsMissingSources
    || travelerFitInsufficient || policyWarn in
  let escalationReason :=
    escalationReasonOf evidenceStrengthScore promotionsMissingSources
                       travelerFitInsufficient policyWarn in
  {| Trust.evidenceStrengthScore := Num.round2 evidenceStrengthScore;
     Trust.evidenceStrengthLabel := evidenceStrengthLabel;
     Trust.promotionsLastVerifiedDate := formatDate rt (maxDate rt promotionsDates);
     Trust.mostRecentSiteVisitDate := formatDate rt (maxDate rt siteVisitDates);
     Trust.lastFeedbackDate := formatDate rt (maxDate rt feedbackDates);
     Trust.lastSemanticChunkDate := formatDate rt (maxDate rt semanticDates);
     Trust.structuredSourcesUsed := structuredSourcesUsed;
     Trust.unstructuredSourcesUsed := unstructuredSourcesUsed;
     Trust.semanticChunksUsed := nonConflictingSemanticCount;
     Trust.structuredFactsUsed := structuredFactsUsed;
     Trust.conflictsIgnored := conflictsIgnored;
     Trust.canonicalOverridesNotes := 0 <? conflictsIgnored;
     Trust.promotionsFromContractOnly := true;
     Trust.allSectionsBackedByCitations := allSectionsBackedByCitations;
     Trust.sensitiveDataRestrictedByRole := sensitiveDataRestrictedByRole;
     Trust.withinFreshnessPolicy := withinFreshnessPolicy;
     Trust.policyWarnings := policyWarnings;
     Trust.policyCompliance := withinFreshnessPolicy;
     Trust.policySnapshot := Policy.maxAgeDaysBySourceType (Hotel.policy hotel);
     Trust.escalationNeeded := escalationNeeded;
     Trust.escalationReason := escalationReason |}.

(** ** The query *)

(** The sections as the builders produce them (lines 673-714). *)
Definition buildSections (rt : Runtime.t) (data : Data.t) (input : QueryInput.t)
    (queryPlan : QueryPlan.t) : Sections.t :=
  let hotel := Data.hotel data in
  let allChunks := Data.allChunks data in
  let sourceMap := buildSourceMap (Data.allSources data) in
  let retrieve section :=
    retrieveSemanticChunks rt allChunks hotel section
      (default [] (QueryPlan.perSection queryPlan section)) None in
  let positioningSemantic := retrieve positioning in
  let travelerSemantic := retrieve travelerFit in
  let risksSemantic :=
    if QueryInput.includeRisks input then Some (retrieve risks) else None in
  let ujvSemantic :=
    if QueryInput.includeUjvPov input then Some (retrieve ujvPov) else None in
  let promoConflicts :=
    if QueryInput.includePromotions input
    then collectPromoSemanticConflicts rt allChunks hotel else [] in
  {| Sections.positioning :=
       buildPositioningSection hotel sourceMap positioningSemantic input;
     Sections.travelerFit :=
       buildTravelerFitSection rt hotel sourceMap travelerSemantic input;
     Sections.risks :=
       (fun semantic => buildRisksSection hotel sourceMap semantic input) <$> risksSemantic;
     Sections.promotions :=
       if QueryInput.includePromotions input
       then Some (buildPromotionsSection hotel sourceMap promoConflicts) else None;
     Sections.ujvPov :=
       (fun semantic => buildUjvPovSection hotel sourceMap semantic) <$> ujvSemantic |}.

Definition hotelNotFound (hotelId : string) : Thrown.t :=
  {| Thrown.message := "Hotel not found: " +:+ hotelId; Thrown.status := Some 404%Z |}.

(** Lines 670-898: what the query does once the hotel was found. *)
Definition respond (rt : Runtime.t) (data : Data.t) (input : QueryInput.t) : Response.t :=
  let hotel := Data.hotel data in
  let sourceMap := buildSourceMap (Data.allSources data) in
  let queryPlan := buildQueryPlan rt hotel input in
  let drafted := buildSections rt data input queryPlan in
  let responseDraft :=
    {| Response.queryPlan := queryPlan;
       Response.sections := drafted;
       Response.trust := draftTrust hotel |} in
  let llmOverrides := maybeLlmNarrativeOverride rt responseDraft hotel input in
  let final := applyOverrides llmOverrides drafted in
  {| Response.queryPlan := queryPlan;
     Response.sections := final;
     Response.trust := aggregateTrust rt hotel sourceMap input final |}.

(** [loaded] is the outcome of the three [readJson] calls: the collections,
    or the error one of them threw. *)
Definition runKnowledgeSpineQuery (rt : Runtime.t) (rawPayload : JSON)
    (loaded : Thrown.t + Data.t) : Thrown.t + Response.t :=
  match validateInput rawPayload with
  | inl message => inl {| Thrown.message := message; Thrown.status := None |}
  | inr input =>
      match loaded with
      | inl error => inl error
      | inr data =>
          if negb (String.eqb (Hotel.hotelId (Data.hotel data)) (QueryInput.hotelId input))
          then inl (hotelNotFound (QueryInput.hotelId input))
          else inr (respond rt data input)
      end
  end.

(** The hotel record with another average booking value. *)
Definition withAvgBookingValueUsd (v : Z) (hotel : Hotel.t) : Hotel.t :=
  let bi := Hotel.bookingIntelligence hotel in
  {| Hotel.hotelId := Hotel.hotelId hotel; Hotel.name := Hotel.name hotel;
     Hotel.country := Hotel.country hotel; Hotel.region := Hotel.region hotel;
     Hotel.category := Hotel.category hotel; Hotel.policy := Hotel.policy hotel;
     Hotel.positioningTags := Hotel.positioningTags hotel;
     Hotel.positioning := Hotel.positioning hotel;
     Hotel.travelerFit := Hotel.travelerFit hotel;
     Hotel.seasonality := Hotel.seasonality hotel;
     Hotel.risks := Hotel.risks hotel;
     Hotel.promotions := Hotel.promotions hotel;
     Hotel.contract := Hotel.contract hotel;
     Hotel.bookingIntelligence :=
       {| BookingIntelligence.avgBookingValueUsd := v;
          BookingIntelligence.qualitativeSummary := BookingIntelligence.qualitativeSummary bi;
          BookingIntelligence.patterns := BookingIntelligence.patterns bi;
          BookingIntelligence.sourceIds := BookingIntelligence.sourceIds bi |};
     Hotel.feedbackThemes := Hotel.feedbackThemes hotel;
     Hotel.ujvPov := Hotel.ujvPov hotel |}.

Definition withHotel (hotel : Hotel.t) (data : Data.t) : Data.t :=
  {| Data.hotel := hotel; Data.allSources := Data.allSources data;
     Data.allChunks := Data.allChunks data |}.

(** ** Observables of a response, as the properties below name them *)

(** All citations of the produced sections, one entry per section citing. *)
Definition allCitationsOf (r : Response.t) : list Citation.t :=
  flat_map sec_citations (sectionValues (Response.sections r)).

(** The score of a response before rounding, from its own sections. *)
Definition rawScoreOf (rt : Runtime.t) (r : Response.t) : Num.t :=
  evidenceStrengthScoreOf (length (allCitationsOf r)) (avgReliabilityOf (allCitationsOf r))
    (anyRecentOf rt (allCitationsOf r))
    (semanticCountOf (sectionValues (Response.sections r))).

(** Promotions were requested and the section came back without citations. *)
Definition promotionsMissingSourcesOf (r : Response.t) : bool :=
  match Sections.promotions (Response.sections r) with
  | Some p => length (PromotionsSection.citations p) =? 0
  | None => false
  end.

Definition travelerFitInsufficientOf (r : Response.t) : bool :=
  bool_decide
    (TextSection.status (Sections.travelerFit (Response.sections r)) = INSUFFICIENT_SOURCES).

Definition policyWarnOf (r : Response.t) : bool :=
  bool_decide (Trust.policyCompliance (Response.trust r) = WARN).

(** The number of clean candidates in a stretch of the ranked list. *)
Definition cleanCount (rt : Runtime.t) (section : SectionKey) (hotel : Hotel.t) (l : list Scored.t) : nat :=
  length
    (List.filter
       (fun x => bool_decide (detectSemanticConflict rt (Scored.chunk x) section hotel = None))
       l).

(** The reading of the claim about citation counts: unique citations across
    all produced sections, told apart by source id. *)
Definition uniqueCitationCount (r : Response.t) : nat :=
  length (uniq (List.map Citation.sourceId (allCitationsOf r))).

(** ** A sample data set *)

Module Demo.

Definition dateTable : list (string * Z) :=
  [("2026-01-15", 1768435200000%Z); ("2025-06-01", 1748736000000%Z);
   ("2025-11-20", 1763596800000%Z); ("2024-01-10", 1704844800000%Z);
   ("2026-02-01", 1769904000000%Z); ("2025-12-05", 1764892800000%Z)].

Definition getTime (s : string) : option Z :=
  snd <$> find (fun kv => String.eqb (fst kv) s) dateTable.

Definition toISODay (ms : Z) : string :=
  match find (fun kv => (snd kv / msPerDay =? ms / msPerDay)%Z) dateTable with
  | Some kv => fst kv
  | None => "1970-01-01"
  end.

(** en-US grouping of a number that is not negative *)
Fixpoint groupThousands (fuel : nat) (n : Z) : string :=
  match fuel with
  | O => Str.ofZ n
  | S fuel' =>
      if (n <? 1000)%Z then Str.ofZ n
      else
        let r := (n mod 1000)%Z in
        groupThousands fuel' (n / 1000)%Z +:+ ","
        +:+ (if (r <? 10)%Z then "00" else if (r <? 100)%Z then "0" else "")
        +:+ Str.ofZ r
  end.

Definition toLocaleString (n : Z) : string := groupThousands 8 n.

(** Lower-casing and trimming as they act on ASCII text, which the sample
    data is. *)
Definition lowerAscii (a : ascii) : ascii :=
  let n := nat_of_ascii a in
  if (65 <=? n)%nat && (n <=? 90)%nat then ascii_of_nat (n + 32) else a.

Fixpoint toLowerCase (s : string) : string :=
  match s with
  | EmptyString => EmptyString
  | String a s' => String (lowerAscii a) (toLowerCase s')
  end.

Definition isSpace (a : ascii) : bool :=
  let n := nat_of_ascii a in
  ((9 <=? n)%nat && (n <=? 13)%nat) || (n =? 32)%nat.

Fixpoint trimStart (s : string) : string :=
  match s with
  | EmptyString => EmptyString
  | String a s' => if isSpace a then trimStart s' else s
  end.

Definition trim (s : string) : string :=
  String.rev (trimStart (String.rev (trimStart s))).

Definition rewrites : Overrides.t :=
  {| Overrides.positioning := Some "- Rewritten positioning.";
     Overrides.travelerFit := Some "- Rewritten traveler fit.";
     Overrides.risks := Some "- Rewritten risks.";
     Overrides.ujvPov := Some "- Rewritten point of view." |}.

(** 2026-03-01T12:00:00Z, with a flag for the credential *)
Definition runtime (hasApiKey : bool) (nowISO : string) : Runtime.t :=
  {| Runtime.hasApiKey := hasApiKey;
     Runtime.nowISO := nowISO;
     Runtime.now := 1772366400000%Z;
     Runtime.getTime := getTime;
     Runtime.toISODay := toISODay;
     Runtime.toLocaleString := toLocaleString;
     Runtime.toLowerCase := toLowerCase;
     Runtime.trim := trim;
     Runtime.narrativeService := fun _ _ _ => rewrites |}.

Definition rt : Runtime.t := runtime false "2026-03-01T12:00:00.000Z".

Definition source (id : string) (type : SourceType) (date : string) (reliability : Q)
    (lastVerifiedAt : option string) : Source.t :=
  {| Source.sourceId := id; Source.type := type; Source.title := "Title of " +:+ id;
     Source.author := "UJV"; Source.date := date; Source.system := "atlas";
     Source.reliability := reliability; Source.snippet := "Snippet of " +:+ id;
     Source.ownerTeam := "curation"; Source.version := "v1";
     Source.docRef := "doc/" +:+ id; Source.lastVerifiedAt := lastVerifiedAt |}.

Definition allSources : list Source.t :=
  [source "src_site_2026" site_visit "2026-01-15" (9 # 10) None;
   source "src_feedback_2025" post_trip_feedback "2025-11-20" (8 # 10) None;
   source "src_bi_2025" booking_intelligence "2025-12-05" (85 # 100) None;
   source "src_contract_2025" contract "2025-06-01" (95 # 100) (Some "2026-02-01");
   source "src_promo_2026" promotion "2026-02-01" (9 # 10) None;
   source "src_pov_2024" ujv_pov "2024-01-10" (7 # 10) None].

Definition chunk (id hotelId title text : string) (reliability : Q) : Chunk.t :=
  {| Chunk.chunkId := id; Chunk.hotelId := hotelId; Chunk.title := title;
     Chunk.date := "2025-12-05"; Chunk.reliability := reliability; Chunk.text := text;
     Chunk.ownerTeam := "curation"; Chunk.version := "v1"; Chunk.docRef := "doc/" +:+ id |}.

Definition chunkStack : Chunk.t :=
  chunk "chunk_promo_stack" "amanzoe_gr" "Advisor email on offers"
    "Heard the 4th night free offer can stack with the early booking discount." (4 # 10).

Definition chunkNightlife : Chunk.t :=
  chunk "chunk_nightlife" "amanzoe_gr" "Web blurb"
    "Amanzoe is a nightlife-focused resort." (3 # 10).

Definition chunkPrivacy : Chunk.t :=
  chunk "chunk_privacy" "amanzoe_gr" "Advisor brief"
    "Guests praise privacy and romantic service at Amanzoe." (6 # 10).

(** claims a late-night scene and matches no positioning term *)
Definition chunkLateNight : Chunk.t :=
  chunk "chunk_late_night" "amanzoe_gr" "Forum post"
    "Known for its late-night scene." (2 # 10).

(** a stacking claim filed under another hotel *)
Definition chunkOtherHotel : Chunk.t :=
  chunk "chunk_other_hotel" "other_hotel" "Advisor email"
    "You can combine the 4th night free with early booking." (5 # 10).

Definition allChunks : list Chunk.t :=
  [chunkStack; chunkNightlife; chunkPrivacy; chunkLateNight; chunkOtherHotel].

Definition policy : Policy.t :=
  {| Policy.maxAgeDaysBySourceType :=
       fun t => match t with
                | site_visit => Some 365%Z
                | ujv_pov => Some 540%Z
                | promotion => Some 180%Z
                | _ => None
                end |}.

Definition noPolicy : Policy.t := {| Policy.maxAgeDaysBySourceType := fun _ => None |}.

Definition mkHotel (avg : Z) (patterns positioningIds fitIds : list string)
    (policy : Policy.t) : Hotel.t :=
  {| Hotel.hotelId := "amanzoe_gr"; Hotel.name := "Amanzoe"; Hotel.country := "Greece";
     Hotel.region := "Peloponnese"; Hotel.category := "luxury resort";
     Hotel.policy := policy;
     Hotel.positioningTags := ["privacy-led"; "design-forward"];
     Hotel.positioning :=
       {| Positioning.strengths := ["Hilltop pavilions with private pools"; "Discreet service"];
          Positioning.sourceIds := positioningIds |};
     Hotel.travelerFit :=
       {| TravelerFit.common := ["Suits couples seeking seclusion"];
          TravelerFit.byType :=
            fun t => match t with
                     | honeymoon => Some ["Private dining can be arranged"]
                     | _ => None
                     end;
          TravelerFit.sourceIds_common := fitIds;
          TravelerFit.sourceIds :=
            fun t => match t with
                     | honeymoon => Some ["src_feedback_2025"]
                     | _ => None
                     end |};
     Hotel.seasonality := fun _ => "Warm sea and thinner crowds";
     Hotel.risks :=
       [{| Risk.riskId := "risk_transfer"; Risk.text := "Long transfer from Athens";
           Risk.severity := medium; Risk.seasonRelevance := [late_september; peak_summer];
           Risk.sourceIds := ["src_site_2026"] |}];
     Hotel.promotions :=
       [{| Promo.promoId := "promo_4nf"; Promo.name := "4th Night Free";
           Promo.description := "Stay four nights, pay three";
           Promo.validity :=
             {| Validity.bookingFrom := "2026-01-01"; Validity.bookingTo := "2026-06-30";
                Validity.travelFrom := "2026-09-01"; Validity.travelTo := "2026-10-31" |};
           Promo.eligibility := ["Minimum four nights"];
           Promo.sourceIds := ["src_promo_2026"] |}];
     Hotel.contract :=
       {| Contract.sourceIds := ["src_contract_2025"];
          Contract.stackingRules :=
            [{| StackingRule.ruleId := "sr_nonstack_4nf_eb15";
                StackingRule.text := "4th Night Free cannot be combined with Early Booking";
                StackingRule.allowsCombination := false;
                StackingRule.appliesToPromoIds := ["promo_4nf"; "promo_eb15"];
                StackingRule.sourceIds := ["src_contract_2025"] |}] |};
     Hotel.bookingIntelligence :=
       {| BookingIntelligence.avgBookingValueUsd := avg;
          BookingIntelligence.qualitativeSummary := "upper-tier spend";
          BookingIntelligence.patterns := patterns;
          BookingIntelligence.sourceIds := ["src_bi_2025"] |};
     Hotel.feedbackThemes :=
       [{| FeedbackTheme.themeId := "theme_privacy"; FeedbackTheme.label := "Privacy";
           FeedbackTheme.text := "Guests value the seclusion";
           FeedbackTheme.sourceIds := ["src_feedback_2025"] |}];
     Hotel.ujvPov :=
       {| UjvPov.talkTrack := ["Lead with privacy and design"];
          UjvPov.sourceIds := ["src_pov_2024"] |} |}.

Definition hotel : Hotel.t :=
  mkHotel 18500 ["Booked well ahead"] ["src_site_2026"] ["src_site_2026"; "src_bi_2025"] policy.

Definition data : Data.t :=
  {| Data.hotel := hotel; Data.allSources := allSources; Data.allChunks := allChunks |}.

(** the same hotel with no source record on file *)
Definition dataNoSources : Data.t :=
  {| Data.hotel := hotel; Data.allSources := []; Data.allChunks := allChunks |}.

(** a booking value whose digits also stand in a canonical pattern *)
Definition dataDigits : Data.t :=
  {| Data.hotel :=
       mkHotel 950 ["Typical spend 950 per night"] ["src_site_2026"]
               ["src_site_2026"; "src_bi_2025"] policy;
     Data.allSources := allSources; Data.allChunks := allChunks |}.

(** four sources of reliability 0.61, each cited by both mandatory sections *)
Definition evenSources : list Source.t :=
  [source "s1" site_visit "2026-01-15" (61 # 100) None;
   source "s2" site_visit "2026-01-15" (61 # 100) None;
   source "s3" booking_intelligence "2026-01-15" (61 # 100) None;
   source "s4" booking_intelligence "2026-01-15" (61 # 100) None].

Definition dataEven : Data.t :=
  {| Data.hotel :=
       mkHotel 18500 ["Booked well ahead"] ["s1"; "s2"; "s3"; "s4"]
               ["s1"; "s2"; "s3"; "s4"] noPolicy;
     Data.allSources := evenSources; Data.allChunks := [] |}.

Definition payload (travelerType role : string) (risks promotions ujvPov useLLM : bool)
  : JSON :=
  JObj [("hotelId", JStr "amanzoe_gr"); ("travelerType", JStr travelerType);
        ("season", JStr "late_september"); ("includeRisks", JBool risks);
        ("includePromotions", JBool promotions); ("includeUjvPov", JBool ujvPov);
        ("role", JStr role); ("useLLM", JBool useLLM)].

(** the request of the README *)
Definition request : JSON := payload "honeymoon" "reservations" true true true false.

Definition requestFinance : JSON := payload "honeymoon" "finance" true true true false.

(** only the two mandatory sections *)
Definition requestMinimal : JSON :=
  payload "multi_gen_family" "reservations" false false false false.

(** the flags left out *)
Definition requestBare : JSON :=
  JObj [("hotelId", JStr "amanzoe_gr"); ("travelerType", JStr "honeymoon");
        ("season", JStr "late_september"); ("role", JStr "marketing");
        ("useLLM", JStr "yes")].

Definition input : QueryInput.t :=
  {| QueryInput.hotelId := "amanzoe_gr"; QueryInput.travelerType := honeymoon;
     QueryInput.season := late_september; QueryInput.includeRisks := true;
     QueryInput.includePromotions := true; QueryInput.includeUjvPov := true;
     QueryInput.role := reservations; QueryInput.useLLM := false |}.

End Demo.

(** ** The request contract, as the interface states it *)

(** [hotelId] must be a non-empty string. *)
Definition nonEmptyString (v : option JSON) : Prop :=
  exists s, v = Some (JStr s) /\ s <> "".

(** A field must be a member of its fixed enumeration. *)
Definition memberOf (enum : list string) (v : option JSON) : Prop :=
  exists s, v = Some (JStr s) /\ In s enum.

(** A field is absent or not a boolean. *)
Definition notBoolean (v : option JSON) : Prop :=
  forall b, v <> Some (JBool b).

(** The value of a flag: the field when it is a boolean, else the fallback. *)
Definition flagOr (fallback : bool) (v : option JSON) : bool :=
  match v with Some (JBool b) => b | _ => fallback end.

(** What validation makes of [Demo.requestBare]. *)
Definition demoInputBare : QueryInput.t :=
  {| QueryInput.hotelId := "amanzoe_gr"; QueryInput.travelerType := honeymoon;
     QueryInput.season := late_september; QueryInput.includeRisks := true;
     QueryInput.includePromotions := true; QueryInput.includeUjvPov := true;
     QueryInput.role := marketing; QueryInput.useLLM := false |}.

(** The other reading of the average: over the citations told apart by
    source id, the first occurrence of each. *)
Fixpoint uniqueCitationsAcc (seen : list string) (cs : list Citation.t) : list Citation.t :=
  match cs with
  | [] => []
  | c :: rest =>
      if includesStr seen (Citation.sourceId c) then uniqueCitationsAcc seen rest
      else c :: uniqueCitationsAcc (Citation.sourceId c :: seen) rest
  end.

Definition uniqueCitations (cs : list Citation.t) : list Citation.t :=
  uniqueCitationsAcc [] cs.

(** The formula of the score as the interface text writes it, evaluated
    from left to right in the arithmetic of the engine. *)
Definition scoreFormula (totalCitations : nat) (avgReliability : Num.t) (recent : bool)
    (semanticChunkCount : nat) : Num.t :=
  Num.min (Num.ofQ 1)
    (Num.max (Num.ofQ 0)
       (Num.add
          (Num.add
             (Num.mul (Num.min (Num.ofQ 1) (Num.div (Num.ofNat totalCitations) (Num.ofQ 8)))
                      (Num.mul avgReliability (Num.ofQ (9 # 10))))
             (if recent then Num.ofQ (5 # 100) else Num.ofQ 0))
          (Num.min (Num.ofQ (2 # 100))
                   (Num.mul (Num.ofNat semanticChunkCount) (Num.ofQ (1 # 100)))))).

(** Two runs see the same clock and the same platform: the same reading of
    "now" for ages, the same [Date], the same locale and the same string
    functions. *)
Definition sameWorld (rt1 rt2 : Runtime.t) : Prop :=
  Runtime.now rt1 = Runtime.now rt2
  /\ Runtime.getTime rt1 = Runtime.getTime rt2
  /\ Runtime.toISODay rt1 = Runtime.toISODay rt2
  /\ Runtime.toLocaleString rt1 = Runtime.toLocaleString rt2
  /\ Runtime.toLowerCase rt1 = Runtime.toLowerCase rt2
  /\ Runtime.trim rt1 = Runtime.trim rt2.

(** A request runs in deterministic mode: it did not opt in, or no
    credential is configured. *)
Definition deterministicMode (rt : Runtime.t) (p : JSON) : Prop :=
  forall input, validateInput p = inr input ->
                QueryInput.useLLM input && Runtime.hasApiKey rt = false.

(** The outcome of a run with the [createdAt] stamp blanked. *)
Definition eraseCreatedAt (o : Thrown.t + Response.t) : Thrown.t + Response.t :=
  match o with
  | inl e => inl e
  | inr r => inr (Response.setCreatedAt "" r)
  end.

(** The response to the minimal request over the four even sources. *)
Definition demoInputMinimal : QueryInput.t :=
  {| QueryInput.hotelId := "amanzoe_gr"; QueryInput.travelerType := multi_gen_family;
     QueryInput.season := late_september; QueryInput.includeRisks := false;
     QueryInput.includePromotions := false; QueryInput.includeUjvPov := false;
     QueryInput.role := reservations; QueryInput.useLLM := false |}.

Definition demoResponseEven : Response.t := respond Demo.rt Demo.dataEven demoInputMinimal.

(** A second run of the sample request: five seconds later, with a
    credential configured. *)
Definition demoRuntimeLater : Runtime.t := Demo.runtime true "2026-03-01T12:00:05.000Z".

(** [y] stands somewhere inside [text]. *)
Definition occursIn (y text : string) : Prop :=
  exists a b, text = a +:+ (y +:+ b).

(** The conflict the detector emits for the nightlife chunk of the sample. *)
Definition demoNightlifeConflict : Conflict.t :=
  {| Conflict.chunkId := "chunk_nightlife";
     Conflict.reason :=
       "Chunk conflicts with canonical positioning tags and site visit notes (privacy-led, not nightlife-led).";
     Conflict.structuredRuleRef := "hotel.positioningTags" |}.

Definition demoInputFinance : QueryInput.t :=
  {| QueryInput.hotelId := "amanzoe_gr"; QueryInput.travelerType := honeymoon;
     QueryInput.season := late_september; QueryInput.includeRisks := true;
     QueryInput.includePromotions := true; QueryInput.includeUjvPov := true;
     QueryInput.role := finance; QueryInput.useLLM := false |}.

Definition demoResponseFinance : Response.t := respond Demo.rt Demo.data demoInputFinance.

(** What an override may change in a section: nothing, or the content of a
    text section whose status is [OK]. *)
Definition overridden (s0 s : AnySection) : Prop :=
  s = s0
  \/ exists t0 text,
       s0 = TextSec t0 /\ TextSection.status t0 = OK
       /\ s = TextSec (TextSection.setContent t0 text).

(** The sections a run builds, by key. *)
Definition termsFor (plan : QueryPlan.t) (k : SectionKey) : list string :=
  default [] (QueryPlan.perSection plan k).

Definition retrievalFor (rt : Runtime.t) (data : Data.t) (plan : QueryPlan.t) (k : SectionKey) : Semantic.t :=
  retrieveSemanticChunks rt (Data.allChunks data) (Data.hotel data) k (termsFor plan k) None.

(** Every record of the map sits under its own id. *)
Definition keyedById (m : gmap string Source.t) : Prop :=
  forall id s, m !! id = Some s -> Source.sourceId s = id.

(** The responses of the sample requests. *)
Definition demoResponse : Response.t := respond Demo.rt Demo.data Demo.input.

(** ** The route handler (src/app/api/query/route.ts) *)

Module ApiError.
Record t := { error : string; details : string }.
End ApiError.

Module Http.
(** [NextResponse.json(body, { status })] *)
Record t := { status : Z; body : ApiError.t + Response.t }.
End Http.

(** The [catch] branch of [POST]: the status of the error when it has a
    numeric one, else 500. *)
Definition errorResponse (error : Thrown.t) : Http.t :=
  let status := default 500%Z (Thrown.status error) in
  {| Http.status := status;
     Http.body :=
       inl {| ApiError.error := if (status =? 404)%Z then "NOT_FOUND" else "QUERY_FAILED";
              ApiError.details := Thrown.message error |} |}.

(** [reqJson] is the outcome of [req.json()]: the parsed body, or the error
    thrown on a body that is not JSON. *)
Definition POST (rt : Runtime.t) (reqJson : Thrown.t + JSON) (loaded : Thrown.t + Data.t)
  : Http.t :=
  match reqJson with
  | inl error => errorResponse error
  | inr body =>
      match runKnowledgeSpineQuery rt body loaded with
      | inr result => {| Http.status := 200%Z; Http.body := inr result |}
      | inl error => errorResponse error
      end
  end.

(** ** The query form (src/app/page.tsx) *)

Definition TravelerType_name (t : TravelerType) : string :=
  match t with
  | honeymoon => "honeymoon"
  | multi_gen_family => "multi_gen_family"
  | solo_wellness => "solo_wellness"
  | corporate_executive => "corporate_executive"
  end.

Definition SeasonType_name (s : SeasonType) : string :=
  match s with
  | late_september => "late_september"
  | peak_summer => "peak_summer"
  | shoulder_apr_may => "shoulder_apr_may"
  | low_nov_mar => "low_nov_mar"
  end.

Definition RoleType_name (r : RoleType) : string :=
  match r with
  | reservations => "reservations"
  | marketing => "marketing"
  | destination_specialist => "destination_specialist"
  | finance => "finance"
  end.

(** What [submitQuery] posts: [JSON.stringify(form)], as the handler parses
    it back. *)
Definition formPayload (form : QueryInput.t) : JSON :=
  JObj [("hotelId", JStr (QueryInput.hotelId form));
        ("travelerType", JStr (TravelerType_name (QueryInput.travelerType form)));
        ("season", JStr (SeasonType_name (QueryInput.season form)));
        ("includeRisks", JBool (QueryInput.includeRisks form));
        ("includePromotions", JBool (QueryInput.includePromotions form));
        ("includeUjvPov", JBool (QueryInput.includeUjvPov form));
        ("role", JStr (RoleType_name (QueryInput.role form)));
        ("useLLM", JBool (QueryInput.useLLM form))].

(** [s.split("\n")] *)
Fixpoint splitNewline (s : string) : list string :=
  match s with
  | EmptyString => [EmptyString]
  | String a s' =>
      if (nat_of_ascii a =? 10)%nat then EmptyString :: splitNewline s'
      else match splitNewline s' with
           | [] => [String a EmptyString]
           | line :: rest => String a line :: rest
           end
  end.

(** [TextSectionCard]: [section.content.split("\n").filter(Boolean)] *)
Definition cardLines (section : TextSection.t) : list string :=
  List.filter (fun line => negb (Str.isEmpty line)) (splitNewline (TextSection.content section)).

(** A string without a line break. *)
Fixpoint singleLine (s : string) : bool :=
  match s with
  | EmptyString => true
  | String a s' => negb (nat_of_ascii a =? 10)%nat && singleLine s'
  end.

(** The record a source id resolves to: the last one of the list with
    that id. *)
Definition lastWithId (allSources : list Source.t) (id : string) : option Source.t :=
  find (fun s => String.eqb (Source.sourceId s) id) (rev allSources).

(** The risks of the hotel that matter in a season. *)
Definition relevantRisksOf (hotel : Hotel.t) (season : SeasonType) : list Risk.t :=
  List.filter
    (fun r => existsb (fun s => bool_decide (s = season)) (Risk.seasonRelevance r))
    (Hotel.risks hotel).

(** A narrative-assisted run of the sample request. *)
Definition demoInputLlm : QueryInput.t :=
  {| QueryInput.hotelId := "amanzoe_gr"; QueryInput.travelerType := honeymoon;
     QueryInput.season := late_september; QueryInput.includeRisks := true;
     QueryInput.includePromotions := true; QueryInput.includeUjvPov := true;
     QueryInput.role := reservations; QueryInput.useLLM := true |}.

Definition demoResponseLlm : Response.t := respond demoRuntimeLater Demo.data demoInputLlm.

(** The sample data with an empty chunk pool. *)
Definition demoDataNoChunks : Data.t :=
  {| Data.hotel := Demo.hotel; Data.allSources := Demo.allSources; Data.allChunks := [] |}.

(** ** More sample data *)

(** a body that names a hotel the data do not hold *)
Definition demoRequestElsewhere : JSON :=
  JObj [("hotelId", JStr "elsewhere"); ("travelerType", JStr "honeymoon");
        ("season", JStr "peak_summer"); ("role", JStr "finance")].

Definition demoInputElsewhere : QueryInput.t :=
  {| QueryInput.hotelId := "elsewhere"; QueryInput.travelerType := honeymoon;
     QueryInput.season := peak_summer; QueryInput.includeRisks := true;
     QueryInput.includePromotions := true; QueryInput.includeUjvPov := true;
     QueryInput.role := finance; QueryInput.useLLM := false |}.

(** Four sources of one reliability, none of them recent, each cited by the
    positioning and by the traveler-fit section. *)
Definition demoDataOfReliability (reliability : Q) : Data.t :=
  {| Data.hotel :=
       Demo.mkHotel 18500 ["Booked well ahead"] ["s1"; "s2"; "s3"; "s4"]
                    ["s1"; "s2"; "s3"; "s4"] Demo.noPolicy;
     Data.allSources :=
       [Demo.source "s1" site_visit "2024-01-10" reliability None;
        Demo.source "s2" site_visit "2024-01-10" reliability None;
        Demo.source "s3" booking_intelligence "2024-01-10" reliability None;
        Demo.source "s4" booking_intelligence "2024-01-10" reliability None];
     Data.allChunks := [] |}.

(** Citations of the given reliabilities, none of them recent. *)
Definition demoCitations (reliabilities : list Q) : list Citation.t :=
  List.map (fun q => toCitation (Demo.source "s" site_visit "2024-01-10" q None))
           reliabilities.

(** ** The order of the ranking *)

(** [a] may stand before [b]: a higher score, or the same score and a
    reliability that is not lower. *)
Definition rankedBefore (a b : Scored.t) : Prop :=
  Scored.score b < Scored.score a
  \/ (Scored.score a = Scored.score b
      /\ (Chunk.reliability (Scored.chunk b) <= Chunk.reliability (Scored.chunk a))%Q).

(** The clean candidates of a section, in rank order. *)
Definition cleanChunks (rt : Runtime.t) (section : SectionKey) (hotel : Hotel.t) (scored : list Scored.t)
  : list Chunk.t :=
  List.map Scored.chunk
    (List.filter
       (fun x => bool_decide (detectSemanticConflict rt (Scored.chunk x) section hotel = None))
       scored).

(** * Properties *)

(** ** The model on the sample data *)

Example keywordScore_punctuation :
  keywordScore Demo.rt (Demo.chunk "c" "h" "Offer" "Book the 4thnightfree deal" (1 # 2))
               ["4th night free"; "offer"; "  "] = 2.
Proof. reflexivity. Qed.

(** Eight citations of reliability 0.55: the product 0.55 * 0.9 is the
    double just under 0.495, so the score is written 0.49. *)
Example sample_score_rounds_the_double :
  let r := respond Demo.rt (demoDataOfReliability (55 # 100)) demoInputMinimal in
  length (allCitationsOf r) = 8
  /\ Num.toFixed2 (Trust.evidenceStrengthScore (Response.trust r)) = "0.49"
  /\ Trust.escalationReason (Response.trust r)
     = "Reason: Evidence Strength below threshold (0.6). Current score 0.49".
Proof. vm_compute. repeat split. Qed.

(** Nine citations whose reliabilities average 0.6666...: the score is the
    double just under 0.6, below the threshold though written 0.60. *)
Example sample_score_just_under_threshold :
  let cs := demoCitations [1 # 2; 1 # 2; 1 # 2; 1 # 2; 1 # 2;
                           8 # 10; 85 # 100; 85 # 100; 1]%Q in
  let raw := evidenceStrengthScoreOf (length cs) (avgReliabilityOf cs)
               (anyRecentOf Demo.rt cs) 0 in
  belowThreshold raw = true /\ labelOf raw = Low /\ Num.toFixed2 raw = "0.60".
Proof. vm_compute. repeat split. Qed.

(** Reliabilities far outside the range of the data model, 1e400 and its
    opposite, are read as the two infinities: the average is not a number,
    the label is [Low] and the score does not count as below the threshold. *)
Example sample_score_not_a_number :
  let cs := demoCitations [inject_Z (10 ^ 400); inject_Z (- 10 ^ 400)] in
  let raw := evidenceStrengthScoreOf (length cs) (avgReliabilityOf cs)
               (anyRecentOf Demo.rt cs) 0 in
  Num.isNaN raw = true /\ labelOf raw = Low /\ belowThreshold raw = false
  /\ Num.toFixed2 raw = "NaN".
Proof. vm_compute. repeat split. Qed.

Example sample_candidates_positioning :
  List.map (fun x => (Chunk.chunkId (Scored.chunk x), Scored.score x))
    (scoredCandidates Demo.rt Demo.allChunks Demo.hotel
       (termsFor (Response.queryPlan demoResponse) positioning))
  = [("chunk_privacy", 4); ("chunk_nightlife", 2)].
Proof. vm_compute. reflexivity. Qed.

Example sample_conflicts :
  List.map Conflict.structuredRuleRef
    (TextSection.conflictsIgnored (Sections.positioning (Response.sections demoResponse)))
  = ["hotel.positioningTags"]
  /\ (List.map Conflict.structuredRuleRef
        <$> (PromotionsSection.conflictsIgnored
               <$> Sections.promotions (Response.sections demoResponse)))
     = Some ["contract.stackingRules.sr_nonstack_4nf_eb15"]
  /\ Trust.canonicalOverridesNotes (Response.trust demoResponse) = true.
Proof. vm_compute. auto. Qed.

Example sample_not_found :
  runKnowledgeSpineQuery Demo.rt
    (JObj [("hotelId", JStr "elsewhere"); ("travelerType", JStr "honeymoon");
           ("season", JStr "peak_summer"); ("role", JStr "finance")])
    (inr Demo.data)
  = inl {| Thrown.message := "Hotel not found: elsewhere"; Thrown.status := Some 404%Z |}.
Proof. reflexivity. Qed.

Example sample_policy_warning :
  Trust.policyWarnings (Response.trust demoResponse)
  = ["ujvPov: src_pov_2024 (ujv_pov) exceeds max age 540d (age 781d)"]
  /\ Trust.policyCompliance (Response.trust demoResponse) = WARN.
Proof. vm_compute. auto. Qed.

(** ** The shape of a successful run *)

Lemma run_inr rt p loaded r :
  runKnowledgeSpineQuery rt p loaded = inr r ->
  exists input data,
    validateInput p = inr input /\ loaded = inr data
    /\ Hotel.hotelId (Data.hotel data) = QueryInput.hotelId input
    /\ r = respond rt data input.
Proof.
  unfold runKnowledgeSpineQuery.
  destruct (validateInput p) as [msg|input]; [discriminate|].
  destruct loaded as [e|data]; [discriminate|].
  destruct (String.eqb _ _) eqn:E; simpl; [|discriminate].
  intros [= <-]. apply String.eqb_eq in E. eauto 10.
Qed.

Lemma run_found rt p data input :
  validateInput p = inr input ->
  Hotel.hotelId (Data.hotel data) = QueryInput.hotelId input ->
  runKnowledgeSpineQuery rt p (inr data) = inr (respond rt data input).
Proof.
  intros Hv Hh. unfold runKnowledgeSpineQuery. rewrite Hv, Hh.
  by rewrite String.eqb_refl.
Qed.

Lemma overridden_fields s0 s :
  overridden s0 s ->
  sec_status s = sec_status s0 /\ sec_citations s = sec_citations s0
  /\ sec_semanticChunksUsed s = sec_semanticChunksUsed s0
  /\ sec_conflictsIgnored s = sec_conflictsIgnored s0
  /\ sec_retrievalBreakdown s = sec_retrievalBreakdown s0.
Proof. intros [->|(t0 & text & -> & _ & ->)]; done. Qed.

Lemma applyOverride_overridden o t :
  overridden (TextSec t) (TextSec (applyOverride o t)).
Proof.
  unfold applyOverride. destruct o as [text|]; [|by left].
  destruct (negb _ && _) eqn:E; [|by left].
  apply andb_prop in E as [_ E]. apply bool_decide_eq_true in E.
  right. eauto.
Qed.

Lemma entries_applyOverrides o ss k s :
  In (k, s) (sectionEntries (applyOverrides o ss)) ->
  exists s0, In (k, s0) (sectionEntries ss) /\ overridden s0 s.
Proof.
  unfold sectionEntries, applyOverrides. simpl.
  destruct (Sections.risks ss) as [r|], (Sections.promotions ss) as [p|],
    (Sections.ujvPov ss) as [u|]; simpl;
    intros H; repeat (destruct H as [[= <- <-]|H]); try done;
    eauto 12 using applyOverride_overridden;
    (eexists; split; [|by left]); eauto 12.
Qed.

Lemma entries_buildSections rt data input plan k s :
  In (k, s) (sectionEntries (buildSections rt data input plan)) ->
  let hotel := Data.hotel data in
  let sourceMap := buildSourceMap (Data.allSources data) in
  (k = positioning
   /\ s = TextSec (buildPositioningSection hotel sourceMap (retrievalFor rt data plan k) input))
  \/ (k = travelerFit
      /\ s = TextSec (buildTravelerFitSection rt hotel sourceMap (retrievalFor rt data plan k) input))
  \/ (k = risks
      /\ s = TextSec (buildRisksSection hotel sourceMap (retrievalFor rt data plan k) input))
  \/ (k = promotions
      /\ s = PromoSec (buildPromotionsSection hotel sourceMap
                         (collectPromoSemanticConflicts rt (Data.allChunks data) hotel)))
  \/ (k = ujvPov
      /\ s = TextSec (buildUjvPovSection hotel sourceMap (retrievalFor rt data plan k))).
Proof.
  unfold sectionEntries, buildSections, retrievalFor, termsFor. simpl.
  destruct (QueryInput.includeRisks input), (QueryInput.includePromotions input),
    (QueryInput.includeUjvPov input); simpl;
    intros H; repeat (destruct H as [[= <- <-]|H]); try done; tauto.
Qed.

(** Every entry of a response comes from a builder, up to an override. *)
Lemma entries_respond rt data input k s :
  In (k, s) (sectionEntries (Response.sections (respond rt data input))) ->
  exists s0,
    In (k, s0) (sectionEntries
                  (buildSections rt data input (buildQueryPlan rt (Data.hotel data) input)))
    /\ overridden s0 s.
Proof. intros H. exact (entries_applyOverrides _ _ _ _ H). Qed.

Lemma values_entries ss s :
  In s (sectionValues ss) <-> exists k, In (k, s) (sectionEntries ss).
Proof.
  unfold sectionValues. rewrite in_map_iff. split.
  - intros ([k s'] & <- & H). eauto.
  - intros [k H]. exists (k, s). auto.
Qed.

(** ** Status and citations *)

Lemma statusOf_OK cs : statusOf cs = OK <-> cs <> [].
Proof. unfold statusOf. destruct cs; simpl; split; congruence. Qed.

Lemma statusOf_INSUFFICIENT cs : statusOf cs = INSUFFICIENT_SOURCES <-> cs = [].
Proof. unfold statusOf. destruct cs; simpl; split; congruence. Qed.

Lemma built_status rt data input plan k s :
  In (k, s) (sectionEntries (buildSections rt data input plan)) ->
  sec_status s = statusOf (sec_citations s).
Proof.
  intros H. apply entries_buildSections in H.
  destruct H as [[_ ->]|[[_ ->]|[[_ ->]|[[_ ->]|[_ ->]]]]]; reflexivity.
Qed.

Lemma respond_status rt data input k s :
  In (k, s) (sectionEntries (Response.sections (respond rt data input))) ->
  sec_status s = statusOf (sec_citations s).
Proof.
  intros H. apply entries_respond in H as (s0 & H0 & Ho).
  apply overridden_fields in Ho as (-> & -> & _).
  eapply built_status; eauto.
Qed.

(** C1. In every response, each produced section has status [OK] exactly
    when its citation list is not empty, and [INSUFFICIENT_SOURCES] exactly
    when it is empty. *)
Theorem C1_status_iff_citations rt p loaded r s :
  runKnowledgeSpineQuery rt p loaded = inr r ->
  In s (sectionValues (Response.sections r)) ->
  (sec_status s = OK <-> sec_citations s <> [])
  /\ (sec_status s = INSUFFICIENT_SOURCES <-> sec_citations s = []).
Proof.
  intros Hrun Hin.
  apply run_inr in Hrun as (input & data & _ & _ & _ & ->).
  apply values_entries in Hin as [k Hin].
  rewrite (respond_status _ _ _ _ _ Hin).
  split; [apply statusOf_OK | apply statusOf_INSUFFICIENT].
Qed.

(** C10. In every successful response the guardrail flag
    [promotionsFromContractOnly] is [true], whatever the request and the
    data are, whether or not promotions were requested. *)
Theorem C10_promotionsFromContractOnly_constant rt p loaded r :
  runKnowledgeSpineQuery rt p loaded = inr r ->
  Trust.promotionsFromContractOnly (Response.trust r) = true.
Proof.
  intros Hrun. apply run_inr in Hrun as (input & data & _ & _ & _ & ->).
  reflexivity.
Qed.

Lemma C1_witness :
  In (TextSec (Sections.positioning (Response.sections demoResponse)))
     (sectionValues (Response.sections demoResponse))
  /\ (sec_status (TextSec (Sections.positioning (Response.sections demoResponse))) = OK
      <-> sec_citations (TextSec (Sections.positioning (Response.sections demoResponse))) <> []).
Proof.
  assert (Hin : In (TextSec (Sections.positioning (Response.sections demoResponse)))
                   (sectionValues (Response.sections demoResponse))) by (left; reflexivity).
  split; [exact Hin|].
  apply (C1_status_iff_citations Demo.rt Demo.request (inr Demo.data) demoResponse);
    [vm_compute; reflexivity | exact Hin].
Defined.

Lemma C10_witness :
  runKnowledgeSpineQuery Demo.rt Demo.request (inr Demo.data) = inr demoResponse
  /\ Trust.promotionsFromContractOnly (Response.trust demoResponse) = true.
Proof.
  assert (H : runKnowledgeSpineQuery Demo.rt Demo.request (inr Demo.data) = inr demoResponse)
    by (vm_compute; reflexivity).
  split; [exact H|].
  exact (C10_promotionsFromContractOnly_constant _ _ _ _ H).
Defined.

(** ** The insufficient state *)

Lemma built_insufficient_content rt data input plan k t :
  In (k, TextSec t) (sectionEntries (buildSections rt data input plan)) ->
  TextSection.status t = INSUFFICIENT_SOURCES ->
  TextSection.content t = renderBulletText [insufficientText].
Proof.
  intros H. apply entries_buildSections in H.
  destruct H as [[_ [= ->]]|[[_ [= ->]]|[[_ [= ->]]|[[_ [=]]|[_ [= ->]]]]]];
    unfold buildPositioningSection, buildTravelerFitSection, buildRisksSection,
      buildUjvPovSection, mkTextSection; simpl; intros ->; reflexivity.
Qed.

Lemma built_insufficient_promotions hotel sourceMap promoConflicts :
  let p := buildPromotionsSection hotel sourceMap promoConflicts in
  PromotionsSection.status p = INSUFFICIENT_SOURCES ->
  PromotionsSection.promos p = [] /\ PromotionsSection.stackingRules p = [].
Proof. unfold buildPromotionsSection. simpl. intros ->. done. Qed.

Lemma overridden_insufficient s0 s :
  overridden s0 s -> sec_status s = INSUFFICIENT_SOURCES -> s = s0.
Proof.
  intros [->|(t0 & text & -> & Hok & ->)]; [done|].
  simpl. congruence.
Qed.

(** C4, as the code has it. A text section whose status is
    [INSUFFICIENT_SOURCES] has for content the fixed sentence rendered as
    one bullet, that is ["- "] followed by the sentence, a constant that
    carries no fact, no chunk and no citation; the narrative override never
    replaces it. A promotions section in that state has empty [promos] and
    [stackingRules]. *)
Theorem C4_insufficient_is_fixed_bullet rt p loaded r :
  runKnowledgeSpineQuery rt p loaded = inr r ->
  (forall k t,
      In (k, TextSec t) (sectionEntries (Response.sections r)) ->
      TextSection.status t = INSUFFICIENT_SOURCES ->
      TextSection.content t = "- " +:+ insufficientText)
  /\ (forall k q,
         In (k, PromoSec q) (sectionEntries (Response.sections r)) ->
         PromotionsSection.status q = INSUFFICIENT_SOURCES ->
         PromotionsSection.promos q = [] /\ PromotionsSection.stackingRules q = []).
Proof.
  intros Hrun. apply run_inr in Hrun as (input & data & _ & _ & _ & ->).
  split.
  - intros k t Hin Hst.
    apply entries_respond in Hin as (s0 & H0 & Ho).
    apply overridden_insufficient in Ho; [subst s0|exact Hst].
    change ("- " +:+ insufficientText) with (renderBulletText [insufficientText]).
    eapply built_insufficient_content; eauto.
  - intros k q Hin Hst.
    apply entries_respond in Hin as (s0 & H0 & Ho).
    apply overridden_insufficient in Ho; [subst s0|exact Hst].
    apply entries_buildSections in H0.
    destruct H0 as [[_ [=]]|[[_ [=]]|[[_ [=]]|[[_ [= ->]]|[_ [=]]]]]].
    by apply built_insufficient_promotions.
Qed.

Lemma C4_witness :
  let r := respond Demo.rt Demo.dataNoSources Demo.input in
  TextSection.status (Sections.positioning (Response.sections r)) = INSUFFICIENT_SOURCES
  /\ TextSection.content (Sections.positioning (Response.sections r))
     = "- Insufficient verified sources to answer this section.".
Proof.
  intros r.
  assert (Hst : TextSection.status (Sections.positioning (Response.sections r))
                = INSUFFICIENT_SOURCES) by (vm_compute; reflexivity).
  split; [exact Hst|].
  refine (proj1 (C4_insufficient_is_fixed_bullet Demo.rt Demo.request
                   (inr Demo.dataNoSources) r _) positioning _ _ Hst);
    [vm_compute; reflexivity | left; reflexivity].
Defined.

(** C4 as stated fails: with no source record on file the positioning
    section is insufficient, its content is not the bare sentence, and the
    section still lists the chunk retrieved for it. *)
Lemma C4_counterexample :
  exists r,
    runKnowledgeSpineQuery Demo.rt Demo.request (inr Demo.dataNoSources) = inr r
    /\ TextSection.status (Sections.positioning (Response.sections r)) = INSUFFICIENT_SOURCES
    /\ TextSection.content (Sections.positioning (Response.sections r)) <> insufficientText
    /\ TextSection.semanticChunksUsed (Sections.positioning (Response.sections r))
       = [Demo.chunkPrivacy].
Proof.
  exists (respond Demo.rt Demo.dataNoSources Demo.input).
  split; [vm_compute; reflexivity|].
  split; [vm_compute; reflexivity|].
  split; [vm_compute; discriminate|].
  vm_compute. reflexivity.
Qed.

(** ** Validation *)

Lemma includesStr_In enum s : includesStr enum s = true <-> In s enum.
Proof.
  unfold includesStr. rewrite existsb_exists. split.
  - intros (x & Hx & E). apply String.eqb_eq in E. by subst.
  - intros H. exists s. split; [done|]. apply String.eqb_refl.
Qed.

Lemma isEmpty_true s : Str.isEmpty s = true <-> s = "".
Proof. destruct s; simpl; split; congruence. Qed.

Lemma hotelId_check v :
  negb (isString v) || Str.isEmpty (strOf v) = false <-> nonEmptyString v.
Proof.
  unfold nonEmptyString. split.
  - destruct v as [[| | |s| |]|]; simpl; try discriminate.
    intros E. exists s. split; [done|]. intros ->. discriminate.
  - intros (s & -> & Hs). simpl. destruct s; [done|reflexivity].
Qed.

Lemma enum_check enum v :
  negb (isString v) || negb (includesStr enum (strOf v)) = false <-> memberOf enum v.
Proof.
  unfold memberOf. split.
  - destruct v as [[| | |s| |]|]; simpl; try discriminate.
    intros E. apply negb_false_iff, includesStr_In in E. eauto.
  - intros (s & -> & Hs). simpl. apply negb_false_iff. by apply includesStr_In.
Qed.

Lemma prop_not_record p k : isRecord p = false -> prop p k = None.
Proof. destruct p; simpl; congruence. Qed.

(** What [validateInput] returns on acceptance. *)
Lemma validateInput_inr p input :
  validateInput p = inr input ->
  nonEmptyString (prop p "hotelId")
  /\ memberOf travelerTypes (prop p "travelerType")
  /\ memberOf seasonTypes (prop p "season")
  /\ memberOf roleTypes (prop p "role")
  /\ QueryInput.includeRisks input = flagOr true (prop p "includeRisks")
  /\ QueryInput.includePromotions input = flagOr true (prop p "includePromotions")
  /\ QueryInput.includeUjvPov input = flagOr true (prop p "includeUjvPov")
  /\ QueryInput.useLLM input = flagOr false (prop p "useLLM").
Proof.
  unfold validateInput.
  destruct (negb (isRecord p)); [discriminate|].
  destruct (negb (isString (prop p "hotelId")) || _) eqn:E1; [discriminate|].
  destruct (negb (isString (prop p "travelerType")) || _) eqn:E2; [discriminate|].
  destruct (negb (isString (prop p "season")) || _) eqn:E3; [discriminate|].
  destruct (negb (isString (prop p "role")) || _) eqn:E4; [discriminate|].
  intros [= <-]. simpl.
  apply hotelId_check in E1. apply enum_check in E2, E3, E4. done.
Qed.

Lemma validateInput_inl p msg :
  validateInput p = inl msg ->
  ~ nonEmptyString (prop p "hotelId")
  \/ ~ memberOf travelerTypes (prop p "travelerType")
  \/ ~ memberOf seasonTypes (prop p "season")
  \/ ~ memberOf roleTypes (prop p "role").
Proof.
  unfold validateInput.
  destruct (negb (isRecord p)) eqn:E0.
  { intros _. left. apply negb_true_iff in E0.
    rewrite (prop_not_record _ _ E0). intros (s & [=] & _). }
  destruct (negb (isString (prop p "hotelId")) || _) eqn:E1.
  { intros _. left. rewrite <- hotelId_check. congruence. }
  destruct (negb (isString (prop p "travelerType")) || _) eqn:E2.
  { intros _. right; left. rewrite <- enum_check. congruence. }
  destruct (negb (isString (prop p "season")) || _) eqn:E3.
  { intros _. right; right; left. rewrite <- enum_check. congruence. }
  destruct (negb (isString (prop p "role")) || _) eqn:E4.
  { intros _. right; right; right. rewrite <- enum_check. congruence. }
  discriminate.
Qed.

Lemma flagOr_notBoolean fallback v : notBoolean v -> flagOr fallback v = fallback.
Proof.
  unfold notBoolean. destruct v as [[|b| | | |]|]; simpl; try done.
  intros H. by destruct (H b).
Qed.

(** C8. A request is rejected exactly when [hotelId] is missing or not a
    non-empty string, or [travelerType], [season] or [role] is not a member
    of its enumeration; a rejected request fails with the validation
    message whatever the data are, even when loading them fails; on
    acceptance each [include*] flag that is absent or not a boolean is
    [true] and [useLLM] is [false] in that case. *)
Theorem C8_validation p :
  ((exists msg, validateInput p = inl msg)
   <-> (~ nonEmptyString (prop p "hotelId")
        \/ ~ memberOf travelerTypes (prop p "travelerType")
        \/ ~ memberOf seasonTypes (prop p "season")
        \/ ~ memberOf roleTypes (prop p "role")))
  /\ (forall msg,
         validateInput p = inl msg ->
         forall rt loaded,
           runKnowledgeSpineQuery rt p loaded
           = inl {| Thrown.message := msg; Thrown.status := None |})
  /\ (forall input,
         validateInput p = inr input ->
         (notBoolean (prop p "includeRisks") -> QueryInput.includeRisks input = true)
         /\ (notBoolean (prop p "includePromotions")
             -> QueryInput.includePromotions input = true)
         /\ (notBoolean (prop p "includeUjvPov") -> QueryInput.includeUjvPov input = true)
         /\ (notBoolean (prop p "useLLM") -> QueryInput.useLLM input = false)).
Proof.
  split; [|split].
  - split.
    + intros [msg H]. by apply validateInput_inl in H.
    + intros H. destruct (validateInput p) as [msg|input] eqn:E; [eauto|].
      apply validateInput_inr in E as (H1 & H2 & H3 & H4 & _). tauto.
  - intros msg H rt loaded. unfold runKnowledgeSpineQuery. by rewrite H.
  - intros input H.
    apply validateInput_inr in H as (_ & _ & _ & _ & -> & -> & -> & ->).
    repeat split; apply flagOr_notBoolean.
Qed.

Lemma C8_witness :
  runKnowledgeSpineQuery Demo.rt (JObj [("hotelId", JStr "")]) (inr Demo.data)
  = inl {| Thrown.message := "hotelId is required"; Thrown.status := None |}
  /\ QueryInput.includeRisks demoInputBare = true
  /\ QueryInput.useLLM demoInputBare = false.
Proof.
  pose proof (C8_validation (JObj [("hotelId", JStr "")])) as (_ & Hreject & _).
  pose proof (C8_validation Demo.requestBare) as (_ & _ & Hdefault).
  destruct (Hdefault demoInputBare eq_refl) as (Hrisks & _ & _ & Hllm).
  split; [exact (Hreject "hotelId is required" eq_refl Demo.rt (inr Demo.data))|].
  split; [apply Hrisks | apply Hllm]; intros b; discriminate.
Defined.

(** ** The evidence score *)










(** *** Counting *)

Lemma fold_left_sum {A} (f : A -> nat) l a :
  fold_left (fun sum s => sum + f s) l a = a + list_sum (List.map f l).
Proof.
  revert a. induction l as [|x l IH]; intros a; simpl; [lia|].
  rewrite IH. lia.
Qed.

Lemma length_flat_map_sum {A B} (f : A -> list B) l :
  length (flat_map f l) = list_sum (List.map (fun x => length (f x)) l).
Proof.
  induction l as [|x l IH]; simpl; [done|].
  by rewrite length_app, IH.
Qed.

Lemma uniqAcc_spec seen l :
  NoDup (uniqAcc seen l) /\ forall x, In x (uniqAcc seen l) -> ~ In x seen.
Proof.
  revert seen. induction l as [|x l IH]; intros seen; simpl.
  - split; [constructor|tauto].
  - destruct (existsb (String.eqb x) seen) eqn:E; [apply IH|].
    destruct (IH (x :: seen)) as [Hnd Hout]. split.
    + constructor; [|exact Hnd]. intros Hin. apply list_elem_of_In in Hin.
      apply (Hout x Hin). by left.
    + intros y [<-|Hy].
      * intros Hin. apply not_true_iff_false in E. apply E.
        apply existsb_exists. exists x. split; [done|]. apply String.eqb_refl.
      * intros Hin. apply (Hout y Hy). by right.
Qed.

Lemma uniq_NoDup l : NoDup (uniq l).
Proof. apply uniqAcc_spec. Qed.

Lemma buildSourceMap_keyed allSources : keyedById (buildSourceMap allSources).
Proof.
  unfold buildSourceMap.
  assert (G : forall l (m : gmap string Source.t),
             keyedById m ->
             keyedById (fold_left (fun m s => <[Source.sourceId s := s]> m) l m)).
  { induction l as [|x l IH]; intros m Hm; simpl; [done|].
    apply IH. intros id s. rewrite lookup_insert. case_decide.
    - intros [= <-]. done.
    - apply Hm. }
  apply G. intros id s. by rewrite lookup_empty.
Qed.

Lemma collectCitations_ids ids (m : gmap string Source.t) c :
  keyedById m ->
  In c (collectCitations ids m) -> In (Citation.sourceId c) (uniq ids).
Proof.
  intros Hm. unfold collectCitations. rewrite in_map_iff.
  intros (s & <- & Hs). apply list_elem_of_In, list_elem_of_omap in Hs.
  destruct Hs as (id & Hid & Hlook). apply Hm in Hlook. simpl.
  rewrite Hlook. by apply list_elem_of_In.
Qed.

Lemma collectCitations_NoDup ids (m : gmap string Source.t) :
  keyedById m -> NoDup (List.map Citation.sourceId (collectCitations ids m)).
Proof.
  intros Hm. unfold collectCitations.
  pose proof (uniq_NoDup ids) as Hnd. revert Hnd.
  generalize (uniq ids) as u. induction u as [|x u IH]; intros Hnd; simpl.
  - constructor.
  - inversion Hnd as [|? ? Hx Hu]; subst.
    destruct (m !! x) as [s|] eqn:E; simpl; [|by apply IH].
    constructor; [|by apply IH].
    rewrite (Hm _ _ E). intros Hin.
    apply list_elem_of_In, in_map_iff in Hin as (c & Hc & Hin).
    apply in_map_iff in Hin as (s' & <- & Hs').
    apply list_elem_of_In, list_elem_of_omap in Hs' as (y & Hy & Hlook).
    apply Hm in Hlook. simpl in Hc. subst. by apply Hx.
Qed.

Lemma built_citations_NoDup rt data input plan k s :
  In (k, s) (sectionEntries (buildSections rt data input plan)) ->
  NoDup (List.map Citation.sourceId (sec_citations s)).
Proof.
  intros H. apply entries_buildSections in H.
  destruct H as [[_ ->]|[[_ ->]|[[_ ->]|[[_ ->]|[_ ->]]]]];
    apply collectCitations_NoDup, buildSourceMap_keyed.
Qed.

Lemma evidenceStrength_formula n avg recent sem :
  evidenceStrengthScoreOf n avg recent sem = scoreFormula n avg recent sem.
Proof. reflexivity. Qed.

(** C3, as the code has it. The score of a response is the formula
    [clamp(min(1, totalCitations/8) * (avgReliability * 0.9) + (0.05 if
    recent) + min(0.02, semanticChunkCount * 0.01), 0, 1)], evaluated in
    doubles and then rounded to two decimals as [toFixed(2)] does, where
    [totalCitations] is the number of citations summed over the produced
    sections, a source counting once for each section that cites it (inside
    one section the cited sources are distinct), the average and the recency
    flag range over those same entries, and [semanticChunkCount] is the
    number of chunks used summed over the sections. *)
Theorem C3_score_counts_citations_per_section rt p loaded r :
  runKnowledgeSpineQuery rt p loaded = inr r ->
  let values := sectionValues (Response.sections r) in
  let totalCitations := list_sum (List.map (fun s => length (sec_citations s)) values) in
  let semanticChunkCount :=
    list_sum (List.map (fun s => length (sec_semanticChunksUsed s)) values) in
  Trust.evidenceStrengthScore (Response.trust r)
  = Num.round2 (scoreFormula totalCitations (avgReliabilityOf (allCitationsOf r))
                  (anyRecentOf rt (allCitationsOf r)) semanticChunkCount)
  /\ length (allCitationsOf r) = totalCitations
  /\ (forall s, In s values -> NoDup (List.map Citation.sourceId (sec_citations s))).
Proof.
  intros Hrun. apply run_inr in Hrun as (input & data & _ & _ & _ & ->).
  intros values totalCitations semanticChunkCount.
  assert (Hlen : length (allCitationsOf (respond rt data input)) = totalCitations)
    by apply length_flat_map_sum.
  split; [|split; [exact Hlen|]].
  - assert (Hsem : semanticCountOf values = semanticChunkCount)
      by (unfold semanticCountOf; by rewrite fold_left_sum).
    rewrite <- Hlen, <- Hsem, <- evidenceStrength_formula. reflexivity.
  - intros s Hs. apply values_entries in Hs as [k Hs].
    apply entries_respond in Hs as (s0 & H0 & Ho).
    apply overridden_fields in Ho as (_ & -> & _).
    eapply built_citations_NoDup; eauto.
Qed.

Lemma C3_witness :
  runKnowledgeSpineQuery Demo.rt Demo.request (inr Demo.data) = inr demoResponse
  /\ Trust.evidenceStrengthScore (Response.trust demoResponse)
     = Num.round2 (scoreFormula 8 (avgReliabilityOf (allCitationsOf demoResponse)) true 3).
Proof.
  assert (H : runKnowledgeSpineQuery Demo.rt Demo.request (inr Demo.data) = inr demoResponse)
    by (vm_compute; reflexivity).
  split; [exact H|].
  exact (proj1 (C3_score_counts_citations_per_section _ _ _ _ H)).
Defined.

(** C3 as stated fails: in the sample response eight citations stand for six
    distinct sources, and the reported score, 0.85, is not what the formula
    gives for six, whichever average is taken. *)
Lemma C3_counterexample :
  exists r,
    runKnowledgeSpineQuery Demo.rt Demo.request (inr Demo.data) = inr r
    /\ length (allCitationsOf r) = 8 /\ uniqueCitationCount r = 6
    /\ Num.toFixed2 (Trust.evidenceStrengthScore (Response.trust r)) = "0.85"
    /\ Num.eqb (Trust.evidenceStrengthScore (Response.trust r))
               (Num.round2 (scoreFormula (uniqueCitationCount r)
                              (avgReliabilityOf (allCitationsOf r))
                              (anyRecentOf Demo.rt (allCitationsOf r))
                              (semanticCountOf (sectionValues (Response.sections r)))))
       = false
    /\ Num.eqb (Trust.evidenceStrengthScore (Response.trust r))
               (Num.round2 (scoreFormula (uniqueCitationCount r)
                              (avgReliabilityOf (uniqueCitations (allCitationsOf r)))
                              (anyRecentOf Demo.rt (allCitationsOf r))
                              (semanticCountOf (sectionValues (Response.sections r)))))
       = false.
Proof.
  exists demoResponse. repeat split; vm_compute; reflexivity.
Qed.

(** ** Escalation *)

Lemma respond_promotionsMissing rt data input :
  let r := respond rt data input in
  QueryInput.includePromotions input
  && (match Sections.promotions (Response.sections r) with
      | Some q => length (PromotionsSection.citations q)
      | None => 0
      end =? 0)
  = promotionsMissingSourcesOf r.
Proof.
  unfold promotionsMissingSourcesOf, respond, applyOverrides, buildSections.
  cbn [Response.sections Sections.promotions].
  by destruct (QueryInput.includePromotions input).
Qed.

Lemma respond_escalationNeeded rt data input :
  let r := respond rt data input in
  Trust.escalationNeeded (Response.trust r)
  = belowThreshold (rawScoreOf rt r) || promotionsMissingSourcesOf r
    || travelerFitInsufficientOf r || policyWarnOf r.
Proof.
  intros r. subst r. rewrite <- (respond_promotionsMissing rt data input). reflexivity.
Qed.

Lemma respond_escalationReason rt data input :
  let r := respond rt data input in
  Trust.escalationReason (Response.trust r)
  = escalationReasonOf (rawScoreOf rt r) (promotionsMissingSourcesOf r)
      (travelerFitInsufficientOf r) (policyWarnOf r).
Proof.
  intros r. subst r. rewrite <- (respond_promotionsMissing rt data input). reflexivity.
Qed.

(** C6, as the code has it. Escalation is flagged exactly when the score
    before rounding is below 0.60, or promotions were requested and came
    back without citations, or the traveler-fit section is insufficient, or
    the freshness policy result is WARN; the reason reported is that of the
    first of these that holds, in this order, and is empty when none holds.
    The score the response reports is the rounded one. *)
Theorem C6_escalation_on_unrounded_score rt p loaded r :
  runKnowledgeSpineQuery rt p loaded = inr r ->
  let raw := rawScoreOf rt r in
  (Trust.escalationNeeded (Response.trust r) = true
   <-> (Num.ltb raw (Num.ofQ (6 # 10)) = true \/ promotionsMissingSourcesOf r = true
        \/ travelerFitInsufficientOf r = true \/ policyWarnOf r = true))
  /\ Trust.escalationReason (Response.trust r)
     = (if Num.ltb raw (Num.ofQ (6 # 10))
        then "Reason: Evidence Strength below threshold (0.6). Current score "
             +:+ Num.toFixed2 raw
        else if promotionsMissingSourcesOf r
        then "Reason: Promotions requested but no verified promotions/contract sources were found."
        else if travelerFitInsufficientOf r
        then "Reason: Traveler Fit section lacks sufficient verified evidence."
        else if policyWarnOf r
        then "Reason: Policy freshness WARN."
        else "")
  /\ Trust.evidenceStrengthScore (Response.trust r) = Num.round2 raw.
Proof.
  intros Hrun. apply run_inr in Hrun as (input & data & _ & _ & _ & ->).
  intros raw. split; [|split].
  - rewrite respond_escalationNeeded. fold raw.
    rewrite !orb_true_iff. unfold belowThreshold. tauto.
  - rewrite respond_escalationReason. reflexivity.
  - reflexivity.
Qed.

Lemma C6_witness :
  runKnowledgeSpineQuery Demo.rt Demo.request (inr Demo.data) = inr demoResponse
  /\ Trust.escalationReason (Response.trust demoResponse) = "Reason: Policy freshness WARN.".
Proof.
  assert (H : runKnowledgeSpineQuery Demo.rt Demo.request (inr Demo.data) = inr demoResponse)
    by (vm_compute; reflexivity).
  split; [exact H|].
  rewrite (proj1 (proj2 (C6_escalation_on_unrounded_score _ _ _ _ H))).
  vm_compute. reflexivity.
Defined.

(** C6 as stated fails: eight citations of reliability 0.61, one of them
    recent, give a score of about 0.599 before rounding. The response
    reports the score 0.6, which is not below 0.6, promotions were not
    requested, traveler fit is [OK] and the policy passes, and yet
    escalation is flagged. *)
Lemma C6_counterexample :
  exists r,
    runKnowledgeSpineQuery Demo.rt Demo.requestMinimal (inr Demo.dataEven) = inr r
    /\ Num.eqb (Trust.evidenceStrengthScore (Response.trust r)) (Num.ofQ (6 # 10)) = true
    /\ Num.ltb (Trust.evidenceStrengthScore (Response.trust r)) (Num.ofQ (6 # 10)) = false
    /\ promotionsMissingSourcesOf r = false
    /\ TextSection.status (Sections.travelerFit (Response.sections r)) = OK
    /\ Trust.policyCompliance (Response.trust r) = PASS
    /\ Trust.escalationNeeded (Response.trust r) = true
    /\ Trust.escalationReason (Response.trust r)
       = "Reason: Evidence Strength below threshold (0.6). Current score 0.60".
Proof.
  exists demoResponseEven. repeat split; vm_compute; reflexivity.
Qed.

(** ** Determinism *)

(** The retrieval loop reads the platform through its lower-casing alone. *)
Lemma retrieveLoop_platform rt1 rt2 section hotel topN scored used conf :
  Runtime.toLowerCase rt1 = Runtime.toLowerCase rt2 ->
  retrieveLoop rt1 section hotel topN scored used conf
  = retrieveLoop rt2 section hotel topN scored used conf.
Proof.
  intros Hlower. revert used conf.
  induction scored as [|item rest IH]; intros used conf; simpl; [done|].
  replace (detectSemanticConflict rt1 (Scored.chunk item) section hotel)
    with (detectSemanticConflict rt2 (Scored.chunk item) section hotel)
    by (unfold detectSemanticConflict; by rewrite Hlower).
  destruct (detectSemanticConflict rt2 _ _ _); [apply IH|].
  destruct (_ <=? _); [done|apply IH].
Qed.

Lemma buildSections_platform rt1 rt2 data input plan :
  sameWorld rt1 rt2 ->
  buildSections rt1 data input plan = buildSections rt2 data input plan.
Proof.
  intros (Hnow & Htime & Hiso & Hloc & Hlower & Htrim).
  unfold buildSections, retrieveSemanticChunks.
  assert (HL : forall k hotel topN scored,
             retrieveLoop rt1 k hotel topN scored [] []
             = retrieveLoop rt2 k hotel topN scored [] [])
    by (intros; by apply retrieveLoop_platform).
  rewrite !HL.
  destruct rt1 as [k1 iso1 now1 time1 day1 loc1 lower1 trim1 svc1],
    rt2 as [k2 iso2 now2 time2 day2 loc2 lower2 trim2 svc2].
  simpl in *. subst. reflexivity.
Qed.

Lemma respond_deterministic rt1 rt2 data input :
  sameWorld rt1 rt2 ->
  QueryInput.useLLM input && Runtime.hasApiKey rt1 = false ->
  QueryInput.useLLM input && Runtime.hasApiKey rt2 = false ->
  Response.setCreatedAt "" (respond rt1 data input)
  = Response.setCreatedAt "" (respond rt2 data input).
Proof.
  intros Hw H1 H2.
  pose proof (fun plan => buildSections_platform rt1 rt2 data input plan Hw) as HS.
  destruct Hw as (Hnow & Htime & Hiso & Hloc & Hlower & Htrim).
  unfold respond. cbv zeta. rewrite !HS.
  destruct rt1 as [k1 iso1 now1 time1 day1 loc1 lower1 trim1 svc1],
    rt2 as [k2 iso2 now2 time2 day2 loc2 lower2 trim2 svc2].
  simpl in *. subst.
  unfold maybeLlmNarrativeOverride, buildQueryPlan, Response.setCreatedAt,
    QueryPlan.setCreatedAt.
  cbn [Runtime.hasApiKey Runtime.nowISO Response.queryPlan Response.sections
       Response.trust QueryPlan.hotelId QueryPlan.hotelName QueryPlan.travelerType
       QueryPlan.season QueryPlan.role QueryPlan.sectionsRequested
       QueryPlan.retrievalMode QueryPlan.globalTerms QueryPlan.perSection].
  rewrite H1, H2.
  replace (negb (QueryInput.useLLM input) || negb k1) with true
    by (destruct (QueryInput.useLLM input), k1; done).
  replace (negb (QueryInput.useLLM input) || negb k2) with true
    by (destruct (QueryInput.useLLM input), k2; done).
  reflexivity.
Qed.

(** C9. Two runs of the same request over the same data, both in
    deterministic mode and with the same reading of "now" and the same
    platform ([Date], locale, string functions), give the same outcome once
    the [createdAt] stamp is left out; the wall-clock stamp, the presence of
    a credential and the behaviour of the narrative service play no part. *)
Theorem C9_idempotent_except_createdAt rt1 rt2 p loaded :
  sameWorld rt1 rt2 ->
  deterministicMode rt1 p ->
  deterministicMode rt2 p ->
  eraseCreatedAt (runKnowledgeSpineQuery rt1 p loaded)
  = eraseCreatedAt (runKnowledgeSpineQuery rt2 p loaded).
Proof.
  intros Hw H1 H2. unfold runKnowledgeSpineQuery.
  destruct (validateInput p) as [msg|input] eqn:E; [reflexivity|].
  destruct loaded as [e|data]; [reflexivity|].
  destruct (negb _); [reflexivity|]. simpl. f_equal.
  apply respond_deterministic; auto.
Qed.

Lemma C9_witness :
  eraseCreatedAt (runKnowledgeSpineQuery Demo.rt Demo.request (inr Demo.data))
  = eraseCreatedAt (runKnowledgeSpineQuery demoRuntimeLater Demo.request (inr Demo.data)).
Proof.
  apply C9_idempotent_except_createdAt.
  - repeat split.
  - intros input H. vm_compute in H. injection H as <-. reflexivity.
  - intros input H. vm_compute in H. injection H as <-. reflexivity.
Defined.

(** ** Conflicting chunks *)

Lemma retrieveLoop_used_clean rt section hotel topN scored used conf c :
  In c (Semantic.used (retrieveLoop rt section hotel topN scored used conf)) ->
  In c used \/ detectSemanticConflict rt c section hotel = None.
Proof.
  revert used conf. induction scored as [|item rest IH]; intros used conf; simpl.
  - auto.
  - destruct (detectSemanticConflict rt (Scored.chunk item) section hotel) eqn:E.
    + apply IH.
    + assert (G : In c (used ++ [Scored.chunk item]) ->
                  In c used \/ detectSemanticConflict rt c section hotel = None).
      { rewrite in_app_iff. simpl. intros [H|[<-|[]]]; auto. }
      destruct (topN <=? _); simpl; [exact G|].
      intros H. apply IH in H as [H|H]; auto.
Qed.

Lemma retrieveLoop_keeps rt section hotel topN scored used conf ev :
  In ev conf ->
  In ev (Semantic.conflictsIgnored (retrieveLoop rt section hotel topN scored used conf)).
Proof.
  revert used conf. induction scored as [|item rest IH]; intros used conf H; simpl.
  - exact H.
  - destruct (detectSemanticConflict rt (Scored.chunk item) section hotel).
    + apply IH. apply in_app_iff. auto.
    + destruct (topN <=? _); simpl; [exact H|]. by apply IH.
Qed.

Lemma retrieveLoop_logs rt section hotel topN l1 item l2 used conf ev :
  detectSemanticConflict rt (Scored.chunk item) section hotel = Some ev ->
  length used + cleanCount rt section hotel l1 < topN ->
  In ev (Semantic.conflictsIgnored
           (retrieveLoop rt section hotel topN (l1 ++ item :: l2) used conf)).
Proof.
  intros Hev. revert used conf.
  induction l1 as [|x l1 IH]; intros used conf Hlt; simpl.
  - rewrite Hev. apply retrieveLoop_keeps. apply in_app_iff. simpl. auto.
  - unfold cleanCount in Hlt. simpl in Hlt.
    destruct (detectSemanticConflict rt (Scored.chunk x) section hotel) eqn:E.
    + rewrite bool_decide_eq_false_2 in Hlt by done. by apply IH.
    + rewrite bool_decide_eq_true_2 in Hlt by done. simpl in Hlt.
      destruct (topN <=? length (used ++ [Scored.chunk x])) eqn:L.
      * apply Nat.leb_le in L. rewrite length_app in L. simpl in L. lia.
      * apply IH. rewrite length_app. simpl. unfold cleanCount. lia.
Qed.

Lemma collectPromo_logs rt allChunks hotel c ev :
  In c allChunks ->
  Chunk.hotelId c = Hotel.hotelId hotel ->
  detectSemanticConflict rt c promotions hotel = Some ev ->
  In ev (collectPromoSemanticConflicts rt allChunks hotel).
Proof.
  intros Hin Hid Hev. unfold collectPromoSemanticConflicts.
  assert (G : forall l acc,
             In ev acc \/ In c l ->
             In ev (fold_left
                      (fun conflicts chunk =>
                         match detectSemanticConflict rt chunk promotions hotel with
                         | Some event => conflicts ++ [event]
                         | None => conflicts
                         end) l acc)).
  { induction l as [|x l IH]; intros acc; simpl.
    - tauto.
    - intros [H|[->|H]]; apply IH; auto.
      + left. destruct (detectSemanticConflict rt x promotions hotel); [|done].
        apply in_app_iff. auto.
      + left. rewrite Hev. apply in_app_iff. simpl. auto. }
  apply G. right. apply filter_In. split; [done|]. rewrite Hid. apply String.eqb_refl.
Qed.

Lemma insertBy_In {A} (cmp : A -> A -> Q) x y l :
  In y (insertBy cmp x l) <-> y = x \/ In y l.
Proof.
  induction l as [|z l IH]; simpl.
  - split; intros [H|H]; auto.
  - destruct (Qle_bool (cmp x z) 0); simpl; [split; intros [H|H]; auto|].
    rewrite IH. tauto.
Qed.

Lemma sortBy_In {A} (cmp : A -> A -> Q) y l : In y (sortBy cmp l) <-> In y l.
Proof.
  unfold sortBy. induction l as [|x l IH]; simpl; [done|].
  rewrite insertBy_In, IH. split; intros [H|H]; auto.
Qed.

(** Every chunk of the hotel with a positive score is a candidate. *)
Lemma scoredCandidates_positive rt allChunks hotel terms c :
  In c allChunks ->
  Chunk.hotelId c = Hotel.hotelId hotel ->
  0 < keywordScore rt c terms ->
  exists l1 l2,
    scoredCandidates rt allChunks hotel terms
    = l1 ++ {| Scored.chunk := c; Scored.score := keywordScore rt c terms |} :: l2.
Proof.
  intros Hin Hid Hpos. apply in_split. unfold scoredCandidates.
  apply sortBy_In, filter_In. split.
  - apply in_map_iff. exists c. split; [done|]. apply filter_In. split; [done|].
    rewrite Hid. apply String.eqb_refl.
  - simpl. by apply Nat.ltb_lt.
Qed.

Lemma built_semantic rt data input plan k s :
  In (k, s) (sectionEntries (buildSections rt data input plan)) ->
  (k <> promotions
   /\ sec_semanticChunksUsed s = Semantic.used (retrievalFor rt data plan k)
   /\ sec_conflictsIgnored s = Semantic.conflictsIgnored (retrievalFor rt data plan k))
  \/ (k = promotions
      /\ sec_semanticChunksUsed s = []
      /\ sec_conflictsIgnored s
         = collectPromoSemanticConflicts rt (Data.allChunks data) (Data.hotel data)).
Proof.
  intros H. apply entries_buildSections in H.
  destruct H as [[-> ->]|[[-> ->]|[[-> ->]|[[-> ->]|[-> ->]]]]];
    solve [left; done | right; done].
Qed.

(** C2, as the code has it. A chunk for which the detector emits a conflict
    in a section is never among that section's [semanticChunksUsed]. It is
    in the section's [conflictsIgnored] when the retrieval loop reaches it:
    it is a candidate (a chunk of the queried hotel with a positive keyword
    score is one) and fewer than three clean candidates rank before it. For
    promotions it is in [conflictsIgnored] when it belongs to the queried
    hotel. *)
Theorem C2_conflicting_chunk_excluded_and_logged_when_reached rt p data r k s c ev :
  runKnowledgeSpineQuery rt p (inr data) = inr r ->
  In (k, s) (sectionEntries (Response.sections r)) ->
  detectSemanticConflict rt c k (Data.hotel data) = Some ev ->
  let hotel := Data.hotel data in
  let terms := termsFor (Response.queryPlan r) k in
  let candidates := scoredCandidates rt (Data.allChunks data) hotel terms in
  ~ In c (sec_semanticChunksUsed s)
  /\ (k <> promotions ->
      forall l1 l2 score,
        candidates = l1 ++ {| Scored.chunk := c; Scored.score := score |} :: l2 ->
        cleanCount rt k hotel l1 < 3 ->
        In ev (sec_conflictsIgnored s))
  /\ (k <> promotions ->
      In c (Data.allChunks data) -> Chunk.hotelId c = Hotel.hotelId hotel ->
      0 < keywordScore rt c terms ->
      exists l1 l2,
        candidates = l1 ++ {| Scored.chunk := c; Scored.score := keywordScore rt c terms |} :: l2)
  /\ (k = promotions ->
      In c (Data.allChunks data) -> Chunk.hotelId c = Hotel.hotelId hotel ->
      In ev (sec_conflictsIgnored s)).
Proof.
  intros Hrun Hin Hev hotel terms candidates.
  apply run_inr in Hrun as (input & data' & _ & [= <-] & _ & ->).
  apply entries_respond in Hin as (s0 & H0 & Ho).
  apply overridden_fields in Ho as (_ & _ & -> & -> & _).
  apply built_semantic in H0.
  split; [|split; [|split]].
  - destruct H0 as [(_ & -> & _)|(_ & -> & _)]; [|simpl; tauto].
    intros Hc. apply retrieveLoop_used_clean in Hc as [[]|Hc]. congruence.
  - intros Hk l1 l2 score Hsplit Hlt.
    destruct H0 as [(_ & _ & ->)|(Hk' & _)]; [|done].
    unfold retrievalFor, retrieveSemanticChunks.
    change (scoredCandidates rt _ _ _) with candidates. rewrite Hsplit.
    by apply retrieveLoop_logs.
  - intros _ Hc Hid Hpos. by apply scoredCandidates_positive.
  - intros Hk Hc Hid. destruct H0 as [(Hk' & _)|(_ & _ & ->)]; [done|].
    subst k. by apply (collectPromo_logs _ _ _ c).
Qed.

Lemma C2_witness :
  let s := TextSec (Sections.positioning (Response.sections demoResponse)) in
  detectSemanticConflict Demo.rt Demo.chunkNightlife positioning Demo.hotel
  = Some demoNightlifeConflict
  /\ ~ In Demo.chunkNightlife (sec_semanticChunksUsed s)
  /\ In demoNightlifeConflict (sec_conflictsIgnored s).
Proof.
  intros s.
  assert (Hev : detectSemanticConflict Demo.rt Demo.chunkNightlife positioning Demo.hotel
                = Some demoNightlifeConflict) by (vm_compute; reflexivity).
  assert (Hrun : runKnowledgeSpineQuery Demo.rt Demo.request (inr Demo.data)
                 = inr demoResponse) by (vm_compute; reflexivity).
  assert (Hin : In (positioning, s) (sectionEntries (Response.sections demoResponse)))
    by (left; reflexivity).
  destruct (C2_conflicting_chunk_excluded_and_logged_when_reached
              Demo.rt Demo.request Demo.data demoResponse positioning s
              Demo.chunkNightlife demoNightlifeConflict Hrun Hin Hev)
    as (Hnot & Hlog & _).
  split; [exact Hev|]. split; [exact Hnot|].
  apply (Hlog ltac:(discriminate)
              [{| Scored.chunk := Demo.chunkPrivacy; Scored.score := 4 |}] [] 2).
  - vm_compute. reflexivity.
  - vm_compute. lia.
Defined.

(** C2 as stated fails. The chunk about a late-night scene belongs to the
    queried hotel and trips the positioning rule, yet it matches no
    positioning term, is never a candidate, and is absent from the
    section's [conflictsIgnored]. The stacking claim filed under another
    hotel trips the stacking rule and is absent from the promotions-wide
    list. *)
Lemma C2_counterexample :
  exists r q,
    runKnowledgeSpineQuery Demo.rt Demo.request (inr Demo.data) = inr r
    /\ Sections.promotions (Response.sections r) = Some q
    /\ In Demo.chunkLateNight (Data.allChunks Demo.data)
    /\ Chunk.hotelId Demo.chunkLateNight = Hotel.hotelId Demo.hotel
    /\ detectSemanticConflict Demo.rt Demo.chunkLateNight positioning Demo.hotel <> None
    /\ ~ In (Chunk.chunkId Demo.chunkLateNight)
            (List.map Conflict.chunkId
               (TextSection.conflictsIgnored (Sections.positioning (Response.sections r))))
    /\ In Demo.chunkOtherHotel (Data.allChunks Demo.data)
    /\ detectSemanticConflict Demo.rt Demo.chunkOtherHotel promotions Demo.hotel <> None
    /\ ~ In (Chunk.chunkId Demo.chunkOtherHotel)
            (List.map Conflict.chunkId (PromotionsSection.conflictsIgnored q)).
Proof.
  exists demoResponse.
  eexists. split; [vm_compute; reflexivity|].
  split; [vm_compute; reflexivity|].
  split; [simpl; tauto|].
  split; [reflexivity|].
  split; [vm_compute; discriminate|].
  split; [vm_compute; intros [H|[]]; discriminate H|].
  split; [simpl; tauto|].
  split; [vm_compute; discriminate|].
  vm_compute. intros [H|[]]. discriminate H.
Qed.

(** ** The booking value *)

Lemma append_cons x (a b : string) : String x a +:+ b = String x (a +:+ b).
Proof. reflexivity. Qed.

Lemma append_nil_l (b : string) : "" +:+ b = b.
Proof. reflexivity. Qed.

Lemma append_nil_r (a : string) : a +:+ "" = a.
Proof. induction a as [|x a IH]; [done|]. by rewrite append_cons, IH. Qed.

Lemma append_assoc_s (a b c : string) : (a +:+ b) +:+ c = a +:+ (b +:+ c).
Proof.
  induction a as [|x a IH]; [done|]. by rewrite !append_cons, IH.
Qed.

Lemma prefix_append t b : String.prefix t (t +:+ b) = true.
Proof.
  induction t as [|x t IH]; [by destruct b|].
  rewrite append_cons. simpl. destruct (ascii_dec x x); [exact IH|done].
Qed.

Lemma includes_here text t : String.prefix t text = true -> Str.includes text t = true.
Proof. intros H. destruct text; cbn [Str.includes]; by rewrite H. Qed.

Lemma includes_skip a text t :
  Str.includes text t = true -> Str.includes (a +:+ text) t = true.
Proof.
  intros H. induction a as [|x a IH]; [exact H|].
  rewrite append_cons. cbn [Str.includes].
  destruct (String.prefix t (String x (a +:+ text))); [done|exact IH].
Qed.

Lemma occursIn_includes y text : occursIn y text -> Str.includes text y = true.
Proof.
  intros (a & b & ->). apply includes_skip, includes_here, prefix_append.
Qed.

Lemma occursIn_trans x y z : occursIn x y -> occursIn y z -> occursIn x z.
Proof.
  intros (a & b & ->) (c & d & ->). exists (c +:+ a), (b +:+ d).
  by rewrite !append_assoc_s.
Qed.

Lemma join_occurs sep x l : In x l -> occursIn x (Str.join sep l).
Proof.
  unfold Str.join. induction l as [|y l IH]; [done|].
  intros [->|H].
  - destruct l as [|z l].
    + exists "", "". by rewrite append_nil_l, append_nil_r.
    + by exists "", (sep +:+ String.concat sep (z :: l)).
  - destruct l as [|z l]; [done|].
    destruct (IH H) as (a & b & E).
    exists (y +:+ sep +:+ a), b.
    change (String.concat sep (y :: z :: l))
      with (y +:+ sep +:+ String.concat sep (z :: l)).
    rewrite E. by rewrite !append_assoc_s.
Qed.

Lemma renderBulletText_occurs line lines :
  In line lines -> occursIn line (renderBulletText lines).
Proof.
  intros H. unfold renderBulletText.
  apply occursIn_trans with ("- " +:+ line).
  - exists "- ", "". by rewrite append_nil_r.
  - apply join_occurs. apply in_map_iff. eauto.
Qed.

Lemma travelerFit_finance_figure rt hotel sourceMap semantic input :
  QueryInput.role input = finance ->
  let fit := buildTravelerFitSection rt hotel sourceMap semantic input in
  TextSection.status fit = OK ->
  occursIn ("USD " +:+ Runtime.toLocaleString rt
                         (BookingIntelligence.avgBookingValueUsd
                            (Hotel.bookingIntelligence hotel)))
           (TextSection.content fit).
Proof.
  intros Hrole. unfold buildTravelerFitSection, mkTextSection. simpl. intros ->.
  apply occursIn_trans with (bookingValueLine rt hotel input).
  - unfold bookingValueLine. rewrite Hrole. simpl.
    by exists "Average booking value signal: ", ".".
  - apply renderBulletText_occurs.
    right. rewrite !in_app_iff. simpl. tauto.
Qed.

(** For a role other than finance the line carries the qualitative summary. *)
Lemma travelerFit_summary_line rt hotel sourceMap semantic input :
  QueryInput.role input <> finance ->
  let fit := buildTravelerFitSection rt hotel sourceMap semantic input in
  TextSection.status fit = OK ->
  occursIn ("Average booking value signal: "
            +:+ BookingIntelligence.qualitativeSummary (Hotel.bookingIntelligence hotel)
            +:+ ".")
           (TextSection.content fit).
Proof.
  intros Hrole. unfold buildTravelerFitSection, mkTextSection. simpl. intros ->.
  apply occursIn_trans with (bookingValueLine rt hotel input).
  - unfold bookingValueLine. rewrite bool_decide_eq_false_2 by done.
    exists "", "". by rewrite append_nil_r.
  - apply renderBulletText_occurs.
    right. rewrite !in_app_iff. simpl. tauto.
Qed.

(** For a role other than finance the section does not read the figure. *)
Lemma travelerFit_ignores_figure rt hotel sourceMap semantic input v :
  QueryInput.role input <> finance ->
  buildTravelerFitSection rt (withAvgBookingValueUsd v hotel) sourceMap semantic input
  = buildTravelerFitSection rt hotel sourceMap semantic input.
Proof.
  intros Hrole. unfold buildTravelerFitSection, bookingValueLine.
  rewrite bool_decide_eq_false_2 by done. reflexivity.
Qed.

Lemma detect_ignores_figure rt c k hotel v :
  detectSemanticConflict rt c k (withAvgBookingValueUsd v hotel)
  = detectSemanticConflict rt c k hotel.
Proof. reflexivity. Qed.

Lemma retrieve_ignores_figure rt allChunks hotel k terms topN v :
  retrieveSemanticChunks rt allChunks (withAvgBookingValueUsd v hotel) k terms topN
  = retrieveSemanticChunks rt allChunks hotel k terms topN.
Proof.
  unfold retrieveSemanticChunks.
  change (scoredCandidates rt allChunks (withAvgBookingValueUsd v hotel) terms)
    with (scoredCandidates rt allChunks hotel terms).
  generalize (scoredCandidates rt allChunks hotel terms) as scored.
  generalize (@nil Chunk.t) as used. generalize (@nil Conflict.t) as conf.
  intros conf used scored. revert used conf.
  induction scored as [|item rest IH]; intros used conf; simpl; [done|].
  rewrite detect_ignores_figure.
  destruct (detectSemanticConflict rt _ _ _); [apply IH|].
  destruct (_ <=? _); [done|apply IH].
Qed.

Lemma deterministic_no_override rt draft hotel input :
  QueryInput.useLLM input && Runtime.hasApiKey rt = false ->
  maybeLlmNarrativeOverride rt draft hotel input = Overrides.empty.
Proof.
  unfold maybeLlmNarrativeOverride.
  destruct (QueryInput.useLLM input), (Runtime.hasApiKey rt); simpl; done.
Qed.

Lemma respond_travelerFit_deterministic rt data input :
  QueryInput.useLLM input && Runtime.hasApiKey rt = false ->
  Sections.travelerFit (Response.sections (respond rt data input))
  = buildTravelerFitSection rt (Data.hotel data) (buildSourceMap (Data.allSources data))
      (retrievalFor rt data (buildQueryPlan rt (Data.hotel data) input) travelerFit) input.
Proof.
  intros Hdet. unfold respond. cbv zeta.
  rewrite (deterministic_no_override _ _ _ _ Hdet). reflexivity.
Qed.

Lemma travelerFit_insufficient_content rt hotel sourceMap semantic input :
  let fit := buildTravelerFitSection rt hotel sourceMap semantic input in
  TextSection.status fit = INSUFFICIENT_SOURCES ->
  TextSection.content fit = "- " +:+ insufficientText.
Proof.
  unfold buildTravelerFitSection, mkTextSection. simpl. intros ->. reflexivity.
Qed.

Lemma respond_travelerFit_ignores_figure rt data input v :
  QueryInput.useLLM input && Runtime.hasApiKey rt = false ->
  QueryInput.role input <> finance ->
  Sections.travelerFit
    (Response.sections
       (respond rt (withHotel (withAvgBookingValueUsd v (Data.hotel data)) data) input))
  = Sections.travelerFit (Response.sections (respond rt data input)).
Proof.
  intros Hdet Hrole. rewrite !respond_travelerFit_deterministic by exact Hdet.
  unfold retrievalFor.
  change (Data.hotel (withHotel (withAvgBookingValueUsd v (Data.hotel data)) data))
    with (withAvgBookingValueUsd v (Data.hotel data)).
  change (Data.allChunks (withHotel (withAvgBookingValueUsd v (Data.hotel data)) data))
    with (Data.allChunks data).
  change (Data.allSources (withHotel (withAvgBookingValueUsd v (Data.hotel data)) data))
    with (Data.allSources data).
  change (termsFor (buildQueryPlan rt (withAvgBookingValueUsd v (Data.hotel data)) input)
                   travelerFit)
    with (termsFor (buildQueryPlan rt (Data.hotel data) input) travelerFit).
  rewrite retrieve_ignores_figure.
  by apply travelerFit_ignores_figure.
Qed.

(** C5, as the code has it, for a run in deterministic mode. With role
    finance and a traveler-fit section of status [OK], the content carries
    ["USD "] followed by the figure as the locale writes it. With any other
    role and status [OK] the content carries the line ["Average booking
    value signal: "] followed by the qualitative summary and a full stop,
    and the section is built without reading the figure: another figure in
    the hotel record leaves the section as it is (the same digits may still
    stand in canonical text or chunk titles). With status
    [INSUFFICIENT_SOURCES] the content is the fixed bullet for every role. *)
Theorem C5_booking_value_by_role rt p data input r :
  validateInput p = inr input ->
  runKnowledgeSpineQuery rt p (inr data) = inr r ->
  deterministicMode rt p ->
  let hotel := Data.hotel data in
  let fit := Sections.travelerFit (Response.sections r) in
  (QueryInput.role input = finance ->
   TextSection.status fit = OK ->
   Str.includes (TextSection.content fit)
     ("USD " +:+ Runtime.toLocaleString rt
                   (BookingIntelligence.avgBookingValueUsd (Hotel.bookingIntelligence hotel)))
   = true)
  /\ (QueryInput.role input <> finance ->
      (TextSection.status fit = OK ->
       Str.includes (TextSection.content fit)
         ("Average booking value signal: "
          +:+ BookingIntelligence.qualitativeSummary (Hotel.bookingIntelligence hotel)
          +:+ ".")
       = true)
      /\ forall v, exists r',
          runKnowledgeSpineQuery rt p (inr (withHotel (withAvgBookingValueUsd v hotel) data))
          = inr r'
          /\ Sections.travelerFit (Response.sections r') = fit)
  /\ (TextSection.status fit = INSUFFICIENT_SOURCES ->
      TextSection.content fit = "- " +:+ insufficientText).
Proof.
  intros Hv Hrun Hdet hotel fit. specialize (Hdet input Hv).
  apply run_inr in Hrun as (input' & data' & Hv' & [= <-] & Hid & ->).
  rewrite Hv in Hv'. injection Hv' as <-.
  subst fit. rewrite respond_travelerFit_deterministic by exact Hdet.
  split; [|split].
  - intros Hrole Hok. by apply occursIn_includes, travelerFit_finance_figure.
  - intros Hrole. split.
    + intros Hok. by apply occursIn_includes, travelerFit_summary_line.
    + intros v.
      exists (respond rt (withHotel (withAvgBookingValueUsd v hotel) data) input).
      split; [by apply run_found|].
      rewrite <- (respond_travelerFit_deterministic rt data input Hdet).
      by apply respond_travelerFit_ignores_figure.
  - apply travelerFit_insufficient_content.
Qed.

Lemma C5_witness :
  (TextSection.status (Sections.travelerFit (Response.sections demoResponseFinance)) = OK
   /\ Str.includes
        (TextSection.content (Sections.travelerFit (Response.sections demoResponseFinance)))
        "USD 18,500"
      = true)
  /\ Str.includes
       (TextSection.content (Sections.travelerFit (Response.sections demoResponse)))
       "Average booking value signal: upper-tier spend."
     = true.
Proof.
  assert (Hok : TextSection.status
                  (Sections.travelerFit (Response.sections demoResponseFinance)) = OK)
    by (vm_compute; reflexivity).
  split; [split; [exact Hok|]|].
  - refine (proj1 (C5_booking_value_by_role Demo.rt Demo.requestFinance Demo.data
                     demoInputFinance demoResponseFinance _ _ _) _ Hok).
    + vm_compute. reflexivity.
    + vm_compute. reflexivity.
    + intros input H. vm_compute in H. injection H as <-. reflexivity.
    + reflexivity.
  - refine (proj1 (proj1 (proj2 (C5_booking_value_by_role Demo.rt Demo.request Demo.data
                                   Demo.input demoResponse _ _ _)) _) _).
    + vm_compute. reflexivity.
    + vm_compute. reflexivity.
    + intros input H. vm_compute in H. injection H as <-. reflexivity.
    + discriminate.
    + vm_compute. reflexivity.
Defined.

(** C5 as stated fails on both sides. For a reservations request the
    content carries the figure 950 because a canonical booking pattern
    spells it; for a finance request with no source record on file the
    content is the fixed bullet and carries no figure. *)
Lemma C5_counterexample :
  (exists r,
      runKnowledgeSpineQuery Demo.rt Demo.request (inr Demo.dataDigits) = inr r
      /\ QueryPlan.role (Response.queryPlan r) = reservations
      /\ BookingIntelligence.avgBookingValueUsd
           (Hotel.bookingIntelligence (Data.hotel Demo.dataDigits)) = 950%Z
      /\ Str.includes (TextSection.content (Sections.travelerFit (Response.sections r)))
                      (Str.ofZ 950) = true
      /\ Str.includes (TextSection.content (Sections.travelerFit (Response.sections r)))
                      (Demo.toLocaleString 950) = true)
  /\ (exists r,
         runKnowledgeSpineQuery Demo.rt Demo.requestFinance (inr Demo.dataNoSources) = inr r
         /\ QueryPlan.role (Response.queryPlan r) = finance
         /\ BookingIntelligence.avgBookingValueUsd
              (Hotel.bookingIntelligence (Data.hotel Demo.dataNoSources)) = 18500%Z
         /\ Str.includes (TextSection.content (Sections.travelerFit (Response.sections r)))
                         (Str.ofZ 18500) = false
         /\ Str.includes (TextSection.content (Sections.travelerFit (Response.sections r)))
                         (Demo.toLocaleString 18500) = false).
Proof.
  split.
  - exists (respond Demo.rt Demo.dataDigits Demo.input).
    repeat split; vm_compute; reflexivity.
  - exists (respond Demo.rt Demo.dataNoSources demoInputFinance).
    repeat split; vm_compute; reflexivity.
Qed.

(** * Further properties of the code *)

(** ** The route handler *)

(** X1. The handler answers 200 with the response when the query
    succeeds. A validation failure carries no status and is answered 500
    with error [QUERY_FAILED] and the validation message as details, as is a
    body that is not JSON; an unknown hotel is answered 404 with error
    [NOT_FOUND]. The error field is [NOT_FOUND] exactly when the status is
    404. *)
Theorem X1_route_status_mapping rt body loaded :
  (forall r, runKnowledgeSpineQuery rt body loaded = inr r ->
             POST rt (inr body) loaded = {| Http.status := 200%Z; Http.body := inr r |})
  /\ (forall msg, validateInput body = inl msg ->
        POST rt (inr body) loaded
        = {| Http.status := 500%Z;
             Http.body := inl {| ApiError.error := "QUERY_FAILED";
                                 ApiError.details := msg |} |})
  /\ (forall input data,
        validateInput body = inr input -> loaded = inr data ->
        Hotel.hotelId (Data.hotel data) <> QueryInput.hotelId input ->
        POST rt (inr body) loaded
        = {| Http.status := 404%Z;
             Http.body :=
               inl {| ApiError.error := "NOT_FOUND";
                      ApiError.details :=
                        "Hotel not found: " +:+ QueryInput.hotelId input |} |})
  /\ (forall msg,
        POST rt (inl {| Thrown.message := msg; Thrown.status := None |}) loaded
        = {| Http.status := 500%Z;
             Http.body := inl {| ApiError.error := "QUERY_FAILED";
                                 ApiError.details := msg |} |})
  /\ (forall reqJson e,
        Http.body (POST rt reqJson loaded) = inl e ->
        (ApiError.error e = "NOT_FOUND" <-> Http.status (POST rt reqJson loaded) = 404%Z)).
Proof.
  split; [|split; [|split; [|split]]].
  - intros r H. unfold POST. by rewrite H.
  - intros msg H. unfold POST, runKnowledgeSpineQuery. by rewrite H.
  - intros input data Hv -> Hne. unfold POST, runKnowledgeSpineQuery. rewrite Hv.
    apply String.eqb_neq in Hne. by rewrite Hne.
  - reflexivity.
  - intros reqJson e. unfold POST.
    assert (G : forall err,
               Http.body (errorResponse err) = inl e ->
               ApiError.error e = "NOT_FOUND" <-> Http.status (errorResponse err) = 404%Z).
    { intros err. unfold errorResponse. simpl. intros [= <-]. simpl.
      destruct (default 500%Z (Thrown.status err) =? 404)%Z eqn:E.
      - apply Z.eqb_eq in E. done.
      - apply Z.eqb_neq in E. split; [discriminate|done]. }
    destruct reqJson as [err|body']; [apply G|].
    destruct (runKnowledgeSpineQuery rt body' loaded) as [err|r]; [apply G|].
    discriminate.
Qed.

Lemma X1_witness :
  POST Demo.rt (inr demoRequestElsewhere) (inr Demo.data)
  = {| Http.status := 404%Z;
       Http.body := inl {| ApiError.error := "NOT_FOUND";
                           ApiError.details := "Hotel not found: elsewhere" |} |}.
Proof.
  refine (proj1 (proj2 (proj2 (X1_route_status_mapping Demo.rt demoRequestElsewhere
                                 (inr Demo.data))))
            demoInputElsewhere Demo.data _ eq_refl _).
  - reflexivity.
  - discriminate.
Defined.

(** ** Sections and the plan *)

Lemma respond_section_keys rt data input :
  List.map fst (sectionEntries (Response.sections (respond rt data input)))
  = QueryPlan.sectionsRequested (Response.queryPlan (respond rt data input)).
Proof.
  unfold respond, sectionEntries, applyOverrides, buildSections, buildQueryPlan.
  cbn [Response.sections Response.queryPlan QueryPlan.sectionsRequested
       Sections.positioning Sections.travelerFit Sections.risks Sections.promotions
       Sections.ujvPov].
  destruct (QueryInput.includeRisks input), (QueryInput.includePromotions input),
    (QueryInput.includeUjvPov input); reflexivity.
Qed.

(** X2. A response holds the positioning and traveler-fit sections and each
    optional section exactly when its flag is set; the keys of the sections,
    in order, are the plan's [sectionsRequested], and the plan holds terms
    for exactly those keys. *)
Theorem X2_sections_follow_flags rt p loaded r input :
  runKnowledgeSpineQuery rt p loaded = inr r ->
  validateInput p = inr input ->
  List.map fst (sectionEntries (Response.sections r))
  = QueryPlan.sectionsRequested (Response.queryPlan r)
  /\ (is_Some (Sections.risks (Response.sections r))
      <-> QueryInput.includeRisks input = true)
  /\ (is_Some (Sections.promotions (Response.sections r))
      <-> QueryInput.includePromotions input = true)
  /\ (is_Some (Sections.ujvPov (Response.sections r))
      <-> QueryInput.includeUjvPov input = true)
  /\ (forall k, is_Some (QueryPlan.perSection (Response.queryPlan r) k)
                <-> In k (QueryPlan.sectionsRequested (Response.queryPlan r))).
Proof.
  intros Hrun Hv.
  apply run_inr in Hrun as (input' & data & Hv' & _ & _ & ->).
  rewrite Hv in Hv'. injection Hv' as <-.
  split; [apply respond_section_keys|].
  unfold respond, applyOverrides, buildSections, buildQueryPlan.
  cbn [Response.sections Response.queryPlan QueryPlan.sectionsRequested
       QueryPlan.perSection Sections.risks Sections.promotions Sections.ujvPov].
  assert (Hsome : forall A (x : A), is_Some (Some x) <-> true = true)
    by (intros; split; eauto).
  assert (Hnone : forall A, is_Some (@None A) <-> false = true)
    by (intros; split; [intros [? [=]]|discriminate]).
  destruct (QueryInput.includeRisks input), (QueryInput.includePromotions input),
    (QueryInput.includeUjvPov input); simpl;
    (split; [auto|]; split; [auto|]; split; [auto|]);
    intros k; destruct k; simpl; rewrite ?Hsome, ?Hnone;
    split; intros H; try done; try tauto;
    repeat (destruct H as [H|H]; try discriminate H); done.
Qed.

Lemma X2_witness :
  List.map fst (sectionEntries (Response.sections demoResponseEven))
  = [positioning; travelerFit]
  /\ ~ is_Some (Sections.risks (Response.sections demoResponseEven)).
Proof.
  destruct (X2_sections_follow_flags Demo.rt Demo.requestMinimal (inr Demo.dataEven)
              demoResponseEven demoInputMinimal)
    as (Hkeys & Hrisks & _).
  - vm_compute. reflexivity.
  - reflexivity.
  - split; [exact Hkeys|]. intros H. apply Hrisks in H. discriminate H.
Defined.

(** ** Validation *)

Lemma cast_TravelerType t : asTravelerType (TravelerType_name t) = t.
Proof. by destruct t. Qed.

Lemma cast_SeasonType s : asSeasonType (SeasonType_name s) = s.
Proof. by destruct s. Qed.

Lemma cast_RoleType r : asRoleType (RoleType_name r) = r.
Proof. by destruct r. Qed.

(** X3. What the query form posts is accepted and read back as the same
    form, whenever the hotel id is not empty; with an empty hotel id it is
    rejected. *)
Theorem X3_form_round_trip form :
  (QueryInput.hotelId form <> "" -> validateInput (formPayload form) = inr form)
  /\ (QueryInput.hotelId form = "" ->
      validateInput (formPayload form) = inl "hotelId is required").
Proof.
  destruct form as [h t s r1 r2 r3 ro llm]. simpl. split.
  - intros Hh. unfold validateInput, formPayload. simpl.
    destruct h as [|c h]; [done|]. simpl.
    destruct t, s, ro; reflexivity.
  - intros ->. reflexivity.
Qed.

Lemma X3_witness : validateInput (formPayload Demo.input) = inr Demo.input.
Proof. apply (proj1 (X3_form_round_trip Demo.input)). discriminate. Defined.

(** X4. The message of a rejection names the first check that fails, in the
    order body, hotel id, traveler type, season, role. *)
Theorem X4_first_failing_check p msg :
  validateInput p = inl msg ->
  (isRecord p = false /\ msg = "Invalid request body")
  \/ (isRecord p = true /\ ~ nonEmptyString (prop p "hotelId")
      /\ msg = "hotelId is required")
  \/ (nonEmptyString (prop p "hotelId")
      /\ ~ memberOf travelerTypes (prop p "travelerType")
      /\ msg = "Invalid travelerType")
  \/ (nonEmptyString (prop p "hotelId")
      /\ memberOf travelerTypes (prop p "travelerType")
      /\ ~ memberOf seasonTypes (prop p "season")
      /\ msg = "Invalid season")
  \/ (nonEmptyString (prop p "hotelId")
      /\ memberOf travelerTypes (prop p "travelerType")
      /\ memberOf seasonTypes (prop p "season")
      /\ ~ memberOf roleTypes (prop p "role")
      /\ msg = "Invalid role").
Proof.
  unfold validateInput.
  destruct (isRecord p) eqn:E0; cbn [negb]; [|intros [= <-]; auto].
  destruct (negb (isString (prop p "hotelId")) || _) eqn:E1.
  { intros [= <-]. right; left. split; [done|]. split; [|done].
    intros H. apply hotelId_check in H. congruence. }
  apply hotelId_check in E1.
  destruct (negb (isString (prop p "travelerType")) || _) eqn:E2.
  { intros [= <-]. right; right; left. split; [done|]. split; [|done].
    intros H. apply enum_check in H. congruence. }
  apply enum_check in E2.
  destruct (negb (isString (prop p "season")) || _) eqn:E3.
  { intros [= <-]. right; right; right; left.
    split; [done|]. split; [done|]. split; [|done].
    intros H. apply enum_check in H. congruence. }
  apply enum_check in E3.
  destruct (negb (isString (prop p "role")) || _) eqn:E4; [|discriminate].
  intros [= <-]. right; right; right; right.
  split; [done|]. split; [done|]. split; [done|]. split; [|done].
  intros H. apply enum_check in H. congruence.
Qed.

Lemma X4_witness :
  nonEmptyString (prop (JObj [("hotelId", JStr "amanzoe_gr"); ("season", JNum 3)]) "hotelId")
  /\ validateInput (JObj [("hotelId", JStr "amanzoe_gr"); ("season", JNum 3)])
     = inl "Invalid travelerType".
Proof.
  destruct (X4_first_failing_check
              (JObj [("hotelId", JStr "amanzoe_gr"); ("season", JNum 3)])
              "Invalid travelerType" eq_refl)
    as [[H _]|[(_ & H & _)|[(H & _)|[(H & _)|(H & _)]]]];
    try (split; [exact H|reflexivity]).
  - discriminate H.
  - exfalso. apply H. exists "amanzoe_gr". split; [reflexivity|discriminate].
Defined.

(** ** De-duplication and the terms of the plan *)

Lemma seen_In seen x : existsb (String.eqb x) seen = true <-> In x seen.
Proof.
  rewrite existsb_exists. split.
  - intros (y & Hy & E). apply String.eqb_eq in E. by subst.
  - intros H. exists x. split; [done|]. apply String.eqb_refl.
Qed.

Lemma uniqAcc_In seen l x : In x (uniqAcc seen l) <-> In x l /\ ~ In x seen.
Proof.
  revert seen. induction l as [|y l IH]; intros seen; simpl; [tauto|].
  destruct (existsb (String.eqb y) seen) eqn:E.
  - apply seen_In in E. rewrite IH. split; [tauto|].
    intros [[->|H] Hn]; tauto.
  - apply not_true_iff_false in E. rewrite seen_In in E. simpl. rewrite IH. simpl.
    split.
    + intros [->|[H Hn]]; tauto.
    + intros [[->|H] Hn]; [tauto|].
      destruct (String.eqb_spec y x) as [->|Hne]; tauto.
Qed.

Lemma uniqAcc_fixed seen l :
  NoDup l -> (forall x, In x l -> ~ In x seen) -> uniqAcc seen l = l.
Proof.
  revert seen. induction l as [|y l IH]; intros seen Hnd Hout; simpl; [done|].
  inversion Hnd as [|? ? Hy Hl]; subst.
  destruct (existsb (String.eqb y) seen) eqn:E.
  - apply seen_In in E. destruct (Hout y); simpl; auto.
  - f_equal. apply IH; [done|]. intros x Hx [<-|Hs].
    + apply Hy. by apply list_elem_of_In.
    + apply (Hout x); simpl; auto.
Qed.

Lemma uniqAcc_app seen l1 l2 :
  uniqAcc seen (l1 ++ l2)
  = uniqAcc seen l1 ++ uniqAcc (rev (uniqAcc seen l1) ++ seen) l2.
Proof.
  revert seen. induction l1 as [|x l1 IH]; intros seen; simpl; [done|].
  destruct (existsb (String.eqb x) seen); [apply IH|].
  simpl. f_equal. rewrite IH. by rewrite <- app_assoc.
Qed.

Lemma uniqAcc_seen_ext s1 s2 r :
  (forall z, In z s1 <-> In z s2) -> uniqAcc s1 r = uniqAcc s2 r.
Proof.
  revert s1 s2. induction r as [|z r IH]; intros s1 s2 Hs; [done|].
  simpl. destruct (existsb (String.eqb z) s1) eqn:E1.
  - apply seen_In, Hs, seen_In in E1. rewrite E1. by apply IH.
  - destruct (existsb (String.eqb z) s2) eqn:E2.
    + apply seen_In, Hs, seen_In in E2. congruence.
    + f_equal. apply IH. intros w. simpl. rewrite Hs. tauto.
Qed.

Lemma uniqAcc_cons_seen x seen rest :
  uniqAcc (x :: seen) rest
  = List.filter (fun y => negb (String.eqb y x)) (uniqAcc seen rest).
Proof.
  revert seen. induction rest as [|y rest IH]; intros seen; [done|].
  simpl. destruct (String.eqb_spec y x) as [->|Hne]; simpl.
  - destruct (existsb (String.eqb x) seen); [apply IH|].
    simpl. rewrite String.eqb_refl. simpl. rewrite <- IH.
    apply uniqAcc_seen_ext. intros z. simpl. tauto.
  - destruct (existsb (String.eqb y) seen); [apply IH|].
    simpl. destruct (String.eqb_spec y x) as [->|_]; [done|]. simpl. f_equal.
    rewrite <- IH. apply uniqAcc_seen_ext. intros z. simpl. tauto.
Qed.

(** X5. [uniq] keeps the first occurrence of each string: its result has no
    duplicate, has the members of its argument, leaves a list without
    duplicates as it is, and so changes nothing when applied twice; the
    head of a list stays in front and its later copies are dropped. *)
Theorem X5_uniq_first_occurrences l :
  NoDup (uniq l)
  /\ (forall x, In x (uniq l) <-> In x l)
  /\ (NoDup l -> uniq l = l)
  /\ uniq (uniq l) = uniq l
  /\ (forall x rest, uniq (x :: rest) = x :: List.filter (fun y => negb (String.eqb y x))
                                                     (uniq rest)).
Proof.
  assert (Hfix : forall l', NoDup l' -> uniq l' = l').
  { intros l' H. apply uniqAcc_fixed; [done|]. intros x _ []. }
  split; [apply uniq_NoDup|]. split; [|split; [apply Hfix|split]].
  - intros x. unfold uniq. rewrite uniqAcc_In. simpl. tauto.
  - apply Hfix, uniq_NoDup.
  - intros x rest. unfold uniq. simpl. f_equal. apply uniqAcc_cons_seen.
Qed.

Lemma X5_witness : uniq ["a"; "b"; "c"] = ["a"; "b"; "c"].
Proof.
  apply (proj1 (proj2 (proj2 (X5_uniq_first_occurrences ["a"; "b"; "c"])))).
  repeat constructor; intros H; apply list_elem_of_In in H; simpl in H;
    repeat (destruct H as [H|H]; try discriminate H); done.
Defined.

Lemma buildQueryPlan_terms rt hotel input k terms :
  QueryPlan.perSection (buildQueryPlan rt hotel input) k = Some terms ->
  terms = uniq (QueryPlan.globalTerms (buildQueryPlan rt hotel input) ++ sectionKeywords k).
Proof.
  unfold buildQueryPlan. cbn [QueryPlan.perSection QueryPlan.globalTerms].
  destruct k; [| |destruct (QueryInput.includeRisks input)
                |destruct (QueryInput.includePromotions input)
                |destruct (QueryInput.includeUjvPov input)]; congruence.
Qed.

(** X6. The terms the plan holds for a section start with the global terms
    (hotel name, region and the three labels, without duplicates), go on
    with the section's keywords that are not global terms already, and hold
    no duplicate. *)
Theorem X6_section_terms rt hotel input k terms :
  QueryPlan.perSection (buildQueryPlan rt hotel input) k = Some terms ->
  let globalTerms := QueryPlan.globalTerms (buildQueryPlan rt hotel input) in
  NoDup globalTerms
  /\ (forall x, In x globalTerms <->
                In x [Hotel.name hotel; Hotel.region hotel;
                      travelerLabels (QueryInput.travelerType input);
                      seasonLabels (QueryInput.season input);
                      roleLabels (QueryInput.role input)])
  /\ NoDup terms
  /\ exists rest,
       terms = globalTerms ++ rest
       /\ forall x, In x rest <-> In x (sectionKeywords k) /\ ~ In x globalTerms.
Proof.
  intros H globalTerms. apply buildQueryPlan_terms in H. fold globalTerms in H. subst terms.
  assert (Hg : NoDup globalTerms) by apply uniq_NoDup.
  split; [exact Hg|]. split; [|split; [apply uniq_NoDup|]].
  - intros x. unfold globalTerms, buildQueryPlan. cbn [QueryPlan.globalTerms].
    unfold uniq. rewrite uniqAcc_In. simpl. tauto.
  - unfold uniq at 1. rewrite uniqAcc_app.
    assert (E : uniqAcc [] globalTerms = globalTerms).
    { apply uniqAcc_fixed; [done|]. intros x _ []. }
    rewrite E. eexists. split; [reflexivity|].
    intros x. rewrite uniqAcc_In, in_app_iff, <- in_rev. simpl. tauto.
Qed.

Lemma X6_witness :
  exists rest,
    termsFor (Response.queryPlan demoResponse) risks
    = ["Amanzoe"; "Peloponnese"; "Honeymoon"; "Late September"; "Reservations"] ++ rest.
Proof.
  destruct (X6_section_terms Demo.rt Demo.hotel Demo.input risks
              (termsFor (Response.queryPlan demoResponse) risks) eq_refl)
    as (_ & _ & _ & rest & E & _).
  exists rest. exact E.
Defined.

(** ** The chunk scorer *)

(** What one term adds to the score of a text. *)
Lemma keywordScore_step rt chunk terms acc :
  fold_left
    (fun score term =>
       let t := Runtime.toLowerCase rt term in
       if Str.isEmpty (Runtime.trim rt t) then score
       else
         let score1 :=
           if Str.includes
                (Runtime.toLowerCase rt (Chunk.title chunk +:+ " " +:+ Chunk.text chunk)) t
           then score + (if Str.includes t " " then 2 else 1)
           else score in
         let compact := Str.compact t in
         if negb (Str.isEmpty compact) && negb (String.eqb compact t)
            && Str.includes
                 (Str.compact
                    (Runtime.toLowerCase rt
                       (Chunk.title chunk +:+ " " +:+ Chunk.text chunk)))
                 compact
         then score1 + 1
         else score1)
    terms acc
  = acc + keywordScore rt chunk terms
  /\ keywordScore rt chunk terms <= 3 * length terms.
Proof.
  unfold keywordScore. revert acc.
  induction terms as [|t terms IH]; intros acc; simpl; [lia|].
  destruct (IH 0) as [_ Hb].
  split.
  - rewrite (proj1 (IH _)).
    rewrite (proj1 (IH (if Str.isEmpty _ then 0 else _))).
    repeat match goal with |- context [if ?b then _ else _] => destruct b end; lia.
  - rewrite (proj1 (IH (if Str.isEmpty _ then 0 else _))).
    repeat match goal with |- context [if ?b then _ else _] => destruct b end; lia.
Qed.

Lemma keywordScore_app rt chunk terms1 terms2 :
  keywordScore rt chunk (terms1 ++ terms2)
  = keywordScore rt chunk terms1 + keywordScore rt chunk terms2.
Proof.
  unfold keywordScore at 1. rewrite fold_left_app.
  fold (keywordScore rt chunk terms1).
  apply (proj1 (keywordScore_step rt chunk terms2 (keywordScore rt chunk terms1))).
Qed.

(** X7. The score is a sum over the terms, whatever the platform's
    lower-casing and trimming are: the score for two term lists put together
    is the sum of their scores, a term that is blank once lower-cased and
    trimmed adds nothing, and a term adds at most 3, so the score is at most
    three times the number of terms. *)
Theorem X7_keywordScore_additive rt chunk terms1 terms2 :
  keywordScore rt chunk (terms1 ++ terms2)
  = keywordScore rt chunk terms1 + keywordScore rt chunk terms2
  /\ keywordScore rt chunk terms1 <= 3 * length terms1
  /\ (forall term, Runtime.trim rt (Runtime.toLowerCase rt term) = "" ->
                   keywordScore rt chunk (term :: terms1) = keywordScore rt chunk terms1).
Proof.
  split; [|split].
  - apply keywordScore_app.
  - apply (keywordScore_step rt chunk terms1 0).
  - intros term Hblank. unfold keywordScore. simpl. by rewrite Hblank.
Qed.

Lemma X7_witness :
  keywordScore Demo.rt Demo.chunkPrivacy ("   " :: ["privacy"; "romantic"])
  = keywordScore Demo.rt Demo.chunkPrivacy ["privacy"; "romantic"].
Proof.
  apply (proj2 (proj2 (X7_keywordScore_additive Demo.rt Demo.chunkPrivacy
                         ["privacy"; "romantic"] []))).
  reflexivity.
Defined.

Lemma lowerAscii_idem a : Demo.lowerAscii (Demo.lowerAscii a) = Demo.lowerAscii a.
Proof. destruct a as [[] [] [] [] [] [] [] []]; reflexivity. Qed.

Lemma toLowerCase_idem s : Demo.toLowerCase (Demo.toLowerCase s) = Demo.toLowerCase s.
Proof.
  induction s as [|a s IH]; simpl; [done|]. by rewrite lowerAscii_idem, IH.
Qed.

(** X8. Matching ignores the letter case of the terms: on a platform whose
    lower-casing leaves lower-cased text as it is, lower-casing the terms
    beforehand leaves the score of every chunk as it is. *)
Theorem X8_keywordScore_ignores_case rt chunk terms :
  (forall s, Runtime.toLowerCase rt (Runtime.toLowerCase rt s) = Runtime.toLowerCase rt s) ->
  keywordScore rt chunk (List.map (Runtime.toLowerCase rt) terms)
  = keywordScore rt chunk terms.
Proof.
  intros Hidem. induction terms as [|t terms IH]; [done|].
  change (List.map (Runtime.toLowerCase rt) (t :: terms))
    with ([Runtime.toLowerCase rt t] ++ List.map (Runtime.toLowerCase rt) terms).
  change (t :: terms) with ([t] ++ terms).
  rewrite !keywordScore_app, IH. f_equal.
  unfold keywordScore. cbn [fold_left]. by rewrite Hidem.
Qed.

Lemma X8_witness :
  keywordScore Demo.rt Demo.chunkPrivacy (List.map Demo.toLowerCase ["PRIVACY"; "Romantic"])
  = keywordScore Demo.rt Demo.chunkPrivacy ["PRIVACY"; "Romantic"].
Proof.
  apply (X8_keywordScore_ignores_case Demo.rt Demo.chunkPrivacy ["PRIVACY"; "Romantic"]).
  intros s. apply toLowerCase_idem.
Defined.

(** ** Ranking and retrieval *)

Lemma compareScored_rankedBefore a b :
  Qle_bool (compareScored a b) 0 = true <-> rankedBefore a b.
Proof.
  unfold compareScored, rankedBefore. rewrite Qle_bool_iff.
  destruct (Z.eqb_spec (Z.of_nat (Scored.score b) - Z.of_nat (Scored.score a)) 0) as [E|E].
  - split.
    + intros H. right. split; [lia|].
      apply Qplus_le_l with (z := (- Chunk.reliability (Scored.chunk a))%Q).
      rewrite Qplus_opp_r. exact H.
    + intros [H|[_ H]]; [lia|].
      apply Qplus_le_l with (z := (- Chunk.reliability (Scored.chunk a))%Q) in H.
      rewrite Qplus_opp_r in H. exact H.
  - change 0%Q with (inject_Z 0). rewrite <- Zle_Qle. split.
    + intros H. left. lia.
    + intros [H|[H _]]; lia.
Qed.

Lemma rankedBefore_total a b : rankedBefore a b \/ rankedBefore b a.
Proof.
  unfold rankedBefore.
  destruct (lt_eq_lt_dec (Scored.score a) (Scored.score b)) as [[H|H]|H]; auto.
  destruct (Qlt_le_dec (Chunk.reliability (Scored.chunk a))
                       (Chunk.reliability (Scored.chunk b))) as [L|L].
  - right. right. split; [done|]. by apply Qlt_le_weak.
  - left. right. done.
Qed.

Lemma rankedBefore_trans a b c : rankedBefore a b -> rankedBefore b c -> rankedBefore a c.
Proof.
  unfold rankedBefore. intros [H1|[E1 L1]] [H2|[E2 L2]]; try (left; lia).
  right. split; [lia|]. by eapply Qle_trans.
Qed.

Lemma insertBy_sorted x l :
  StronglySorted rankedBefore l ->
  StronglySorted rankedBefore (insertBy compareScored x l).
Proof.
  induction l as [|y l IH]; intros Hs; simpl.
  - repeat constructor.
  - inversion Hs as [|? ? Hl Hy]; subst.
    destruct (Qle_bool (compareScored x y) 0) eqn:E.
    + apply compareScored_rankedBefore in E. constructor; [done|].
      constructor; [done|]. rewrite List.Forall_forall in Hy |- *.
      intros z Hz. eapply rankedBefore_trans; eauto.
    + assert (Hyx : rankedBefore y x).
      { destruct (rankedBefore_total x y) as [H|H]; [|done].
        apply compareScored_rankedBefore in H. congruence. }
      constructor; [by apply IH|]. rewrite List.Forall_forall in Hy |- *.
      intros z Hz. apply insertBy_In in Hz as [->|Hz]; auto.
Qed.

Lemma sortBy_sorted l : StronglySorted rankedBefore (sortBy compareScored l).
Proof.
  unfold sortBy. induction l as [|x l IH]; simpl; [constructor|].
  by apply insertBy_sorted.
Qed.

Lemma scoredCandidates_In rt allChunks hotel terms x :
  In x (scoredCandidates rt allChunks hotel terms)
  <-> In (Scored.chunk x) allChunks
      /\ Chunk.hotelId (Scored.chunk x) = Hotel.hotelId hotel
      /\ Scored.score x = keywordScore rt (Scored.chunk x) terms
      /\ 0 < Scored.score x.
Proof.
  unfold scoredCandidates. rewrite sortBy_In, filter_In, in_map_iff, Nat.ltb_lt.
  split.
  - intros [(c & <- & Hc) Hpos]. apply filter_In in Hc as [Hc Hid].
    apply String.eqb_eq in Hid. simpl in *. done.
  - intros (Hc & Hid & Hs & Hpos). split; [|done].
    exists (Scored.chunk x). split.
    + destruct x as [c sc]. simpl in *. by subst.
    + apply filter_In. split; [done|]. rewrite Hid. apply String.eqb_refl.
Qed.

(** X9. The candidates of a section are the chunks of the queried hotel
    with a positive keyword score, each with its score, ranked by score
    from high to low and, at equal score, by reliability from high to
    low. *)
Theorem X9_candidates_ranked rt allChunks hotel terms :
  StronglySorted rankedBefore (scoredCandidates rt allChunks hotel terms)
  /\ (forall x,
        In x (scoredCandidates rt allChunks hotel terms)
        <-> In (Scored.chunk x) allChunks
            /\ Chunk.hotelId (Scored.chunk x) = Hotel.hotelId hotel
            /\ Scored.score x = keywordScore rt (Scored.chunk x) terms
            /\ 0 < Scored.score x)
  /\ (forall l1 a l2 b l3,
        scoredCandidates rt allChunks hotel terms = l1 ++ a :: l2 ++ b :: l3 ->
        Scored.score b <= Scored.score a).
Proof.
  split; [apply sortBy_sorted|]. split; [apply scoredCandidates_In|].
  intros l1 a l2 b l3 E.
  pose proof (sortBy_sorted
                (List.filter (fun x => 0 <? Scored.score x)
                   (List.map (fun c => {| Scored.chunk := c;
                                          Scored.score := keywordScore rt c terms |})
                      (List.filter
                         (fun c => String.eqb (Chunk.hotelId c) (Hotel.hotelId hotel))
                         allChunks)))) as Hs.
  fold (scoredCandidates rt allChunks hotel terms) in Hs. rewrite E in Hs.
  clear E. induction l1 as [|z l1 IH]; simpl in Hs.
  - inversion Hs as [|? ? _ Hf]; subst. rewrite List.Forall_forall in Hf.
    assert (Hb : rankedBefore a b) by (apply Hf, in_app_iff; simpl; auto).
    destruct Hb as [H|[H _]]; lia.
  - inversion Hs; subst. by apply IH.
Qed.

Lemma X9_witness :
  Scored.score {| Scored.chunk := Demo.chunkNightlife; Scored.score := 2 |}
  <= Scored.score {| Scored.chunk := Demo.chunkPrivacy; Scored.score := 4 |}.
Proof.
  refine (proj2 (proj2 (X9_candidates_ranked Demo.rt Demo.allChunks Demo.hotel
                          (termsFor (Response.queryPlan demoResponse) positioning)))
            [] _ [] _ [] _).
  vm_compute. reflexivity.
Defined.

Lemma retrieveLoop_used_take rt section hotel topN scored used conf :
  length used < Nat.max 1 topN ->
  Semantic.used (retrieveLoop rt section hotel topN scored used conf)
  = used ++ take (Nat.max 1 topN - length used) (cleanChunks rt section hotel scored).
Proof.
  unfold cleanChunks. revert used conf.
  induction scored as [|item rest IH]; intros used conf Hlt; simpl.
  - by rewrite take_nil, app_nil_r.
  - destruct (detectSemanticConflict rt (Scored.chunk item) section hotel) eqn:E.
    + rewrite bool_decide_eq_false_2 by done. by apply IH.
    + rewrite bool_decide_eq_true_2 by done. simpl.
      destruct (topN <=? length (used ++ [Scored.chunk item])) eqn:L.
      * apply Nat.leb_le in L. rewrite length_app in L. simpl in L. simpl.
        replace (Nat.max 1 topN - length used) with 1 by lia. simpl.
        by rewrite take_0.
      * apply Nat.leb_gt in L. rewrite length_app in L. simpl in L.
        rewrite IH by (rewrite length_app; simpl; lia).
        rewrite length_app. simpl. rewrite <- app_assoc. simpl.
        replace (Nat.max 1 topN - length used)
          with (S (Nat.max 1 topN - (length used + 1))) by lia.
        reflexivity.
Qed.

(** X10. The chunks a retrieval uses are the first clean candidates in rank
    order, up to [topN] of them (3 when none is given); with [topN] 0 the
    loop still takes one chunk before it stops. *)
Theorem X10_used_are_first_clean_candidates rt allChunks hotel section terms topN :
  Semantic.used (retrieveSemanticChunks rt allChunks hotel section terms topN)
  = take (Nat.max 1 (default 3 topN))
         (cleanChunks rt section hotel (scoredCandidates rt allChunks hotel terms))
  /\ length (Semantic.used (retrieveSemanticChunks rt allChunks hotel section terms None)) <= 3.
Proof.
  assert (E : forall n,
             Semantic.used (retrieveSemanticChunks rt allChunks hotel section terms n)
             = take (Nat.max 1 (default 3 n))
                    (cleanChunks rt section hotel (scoredCandidates rt allChunks hotel terms))).
  { intros n. unfold retrieveSemanticChunks.
    rewrite retrieveLoop_used_take by (simpl; lia).
    simpl. by rewrite Nat.sub_0_r. }
  split; [apply E|]. rewrite E. rewrite length_take.
  change (Nat.max 1 (default 3 None)) with 3. lia.
Qed.

Example retrieve_topN_zero :
  List.map Chunk.chunkId
    (Semantic.used
       (retrieveSemanticChunks Demo.rt Demo.allChunks Demo.hotel travelerFit
          ["privacy"; "nightlife"] (Some 0)))
  = ["chunk_privacy"].
Proof. vm_compute. reflexivity. Qed.

Lemma retrieveLoop_conflicts_sound rt section hotel topN scored used conf ev :
  In ev (Semantic.conflictsIgnored (retrieveLoop rt section hotel topN scored used conf)) ->
  In ev conf
  \/ exists item, In item scored
                  /\ detectSemanticConflict rt (Scored.chunk item) section hotel = Some ev.
Proof.
  revert used conf. induction scored as [|item rest IH]; intros used conf; simpl; [auto|].
  destruct (detectSemanticConflict rt (Scored.chunk item) section hotel) as [e|] eqn:E.
  - intros H. apply IH in H as [H|(it & Hit & Hd)]; [|eauto].
    apply in_app_iff in H as [H|[<-|[]]]; eauto.
  - destruct (topN <=? _); simpl; [auto|].
    intros H. apply IH in H as [H|(it & Hit & Hd)]; eauto.
Qed.

Lemma collectPromo_sound rt allChunks hotel ev :
  In ev (collectPromoSemanticConflicts rt allChunks hotel) ->
  exists c, In c allChunks /\ Chunk.hotelId c = Hotel.hotelId hotel
            /\ detectSemanticConflict rt c promotions hotel = Some ev.
Proof.
  unfold collectPromoSemanticConflicts.
  assert (G : forall l acc,
             In ev (fold_left
                      (fun conflicts chunk =>
                         match detectSemanticConflict rt chunk promotions hotel with
                         | Some event => conflicts ++ [event]
                         | None => conflicts
                         end) l acc) ->
             In ev acc
             \/ exists c, In c l /\ detectSemanticConflict rt c promotions hotel = Some ev).
  { induction l as [|x l IH]; intros acc; simpl; [auto|].
    intros H. apply IH in H as [H|(c & Hc & Hd)]; [|eauto].
    destruct (detectSemanticConflict rt x promotions hotel) as [e|] eqn:E; [|auto].
    apply in_app_iff in H as [H|[<-|[]]]; eauto. }
  intros H. apply G in H as [[]|(c & Hc & Hd)].
  apply filter_In in Hc as [Hc Hid]. apply String.eqb_eq in Hid. eauto.
Qed.

Lemma detect_chunkId rt c k hotel ev :
  detectSemanticConflict rt c k hotel = Some ev -> Conflict.chunkId ev = Chunk.chunkId c.
Proof.
  unfold detectSemanticConflict.
  destruct (_ && _ && _); [destruct (find _ _)|];
    try (intros [= <-]; reflexivity);
    destruct (_ && _ && _); try discriminate; intros [= <-]; reflexivity.
Qed.

(** X11. Every entry of a section's [conflictsIgnored] is the event the
    detector emits, for that section, for a chunk of the pool that belongs
    to the queried hotel, and it carries that chunk's id; outside the
    promotions section the chunk has a positive keyword score for the
    section's terms. *)
Theorem X11_logged_conflicts_come_from_the_pool rt p data r k s ev :
  runKnowledgeSpineQuery rt p (inr data) = inr r ->
  In (k, s) (sectionEntries (Response.sections r)) ->
  In ev (sec_conflictsIgnored s) ->
  exists c,
    In c (Data.allChunks data)
    /\ Chunk.hotelId c = Hotel.hotelId (Data.hotel data)
    /\ detectSemanticConflict rt c k (Data.hotel data) = Some ev
    /\ Conflict.chunkId ev = Chunk.chunkId c
    /\ (k <> promotions -> 0 < keywordScore rt c (termsFor (Response.queryPlan r) k)).
Proof.
  intros Hrun Hin Hev.
  apply run_inr in Hrun as (input & data' & _ & [= <-] & _ & ->).
  apply entries_respond in Hin as (s0 & H0 & Ho).
  apply overridden_fields in Ho as (_ & _ & _ & Hc & _). rewrite Hc in Hev.
  apply built_semantic in H0 as [(Hk & _ & E)|(Hk & _ & E)]; rewrite E in Hev.
  - unfold retrievalFor, retrieveSemanticChunks in Hev.
    apply retrieveLoop_conflicts_sound in Hev as [[]|(item & Hit & Hd)].
    apply scoredCandidates_In in Hit as (Hc' & Hid & Hs & Hpos).
    exists (Scored.chunk item). repeat split; try done.
    + by eapply detect_chunkId.
    + intros _. rewrite Hs in Hpos. exact Hpos.
  - apply collectPromo_sound in Hev as (c & Hc' & Hid & Hd). subst k.
    exists c. repeat split; try done. by eapply detect_chunkId.
Qed.

Lemma X11_witness :
  exists c,
    In c (Data.allChunks Demo.data)
    /\ Chunk.hotelId c = Hotel.hotelId (Data.hotel Demo.data)
    /\ detectSemanticConflict Demo.rt c positioning (Data.hotel Demo.data)
       = Some demoNightlifeConflict
    /\ Conflict.chunkId demoNightlifeConflict = Chunk.chunkId c
    /\ (positioning <> promotions ->
        0 < keywordScore Demo.rt c (termsFor (Response.queryPlan demoResponse) positioning)).
Proof.
  apply (X11_logged_conflicts_come_from_the_pool Demo.rt Demo.request Demo.data demoResponse
           positioning (TextSec (Sections.positioning (Response.sections demoResponse)))).
  - vm_compute. reflexivity.
  - left. reflexivity.
  - vm_compute. left. reflexivity.
Defined.

(** X12. An event of the detector carries the chunk's id and refers either
    to a stacking rule of the contract that is the rule
    [sr_nonstack_4nf_eb15] or forbids combination for some promotion, or to
    the positioning tags, the latter only for the positioning section of a
    hotel not tagged [nightlife]. For any section but positioning the
    detector answers as it does for promotions. *)
Theorem X12_conflict_events rt c k hotel :
  (forall ev,
      detectSemanticConflict rt c k hotel = Some ev ->
      Conflict.chunkId ev = Chunk.chunkId c
      /\ ((exists rule,
              In rule (Contract.stackingRules (Hotel.contract hotel))
              /\ Conflict.structuredRuleRef ev
                 = "contract.stackingRules." +:+ StackingRule.ruleId rule
              /\ (StackingRule.ruleId rule = "sr_nonstack_4nf_eb15"
                  \/ (StackingRule.allowsCombination rule = false
                      /\ StackingRule.appliesToPromoIds rule <> [])))
          \/ (Conflict.structuredRuleRef ev = "hotel.positioningTags"
              /\ k = positioning
              /\ ~ In "nightlife" (Hotel.positioningTags hotel))))
  /\ (k <> positioning ->
      detectSemanticConflict rt c k hotel = detectSemanticConflict rt c promotions hotel).
Proof.
  split.
  - intros ev H. split; [by eapply detect_chunkId|]. revert H.
    unfold detectSemanticConflict.
    assert (Hpos : forall b1 b2,
               (if b1 && negb (includesStr (Hotel.positioningTags hotel) "nightlife")
                   && b2
                then Some {| Conflict.chunkId := Chunk.chunkId c;
                             Conflict.reason :=
                               "Chunk conflicts with canonical positioning tags and site visit notes (privacy-led, not nightlife-led).";
                             Conflict.structuredRuleRef := "hotel.positioningTags" |}
                else None) = Some ev ->
               b2 = true ->
               Conflict.structuredRuleRef ev = "hotel.positioningTags"
               /\ ~ In "nightlife" (Hotel.positioningTags hotel)).
    { intros b1 b2. destruct b1; simpl; [|discriminate].
      destruct (includesStr _ _) eqn:E; simpl; [discriminate|].
      destruct b2; [|discriminate]. intros [= <-] _. split; [done|].
      intros Hin. apply includesStr_In in Hin. congruence. }
    destruct (_ && _ && _).
    + destruct (find _ _) as [rule|] eqn:F.
      * intros [= <-]. left. apply find_some in F as [Hin Hr]. exists rule.
        split; [done|]. split; [done|].
        apply orb_prop in Hr as [Hr|Hr].
        -- left. by apply String.eqb_eq.
        -- right. apply andb_prop in Hr as [Ha Hl].
           apply negb_true_iff in Ha. split; [done|].
           destruct (StackingRule.appliesToPromoIds rule); [discriminate|done].
      * intros H. right.
        destruct (bool_decide (k = positioning)) eqn:Ek.
        -- apply bool_decide_eq_true in Ek. destruct (Hpos _ _ H eq_refl). done.
        -- destruct (existsb _ _ && _); discriminate.
    + intros H. right.
      destruct (bool_decide (k = positioning)) eqn:Ek.
      * apply bool_decide_eq_true in Ek. destruct (Hpos _ _ H eq_refl). done.
      * destruct (existsb _ _ && _); discriminate.
  - intros Hk. unfold detectSemanticConflict.
    rewrite (bool_decide_eq_false_2 (k = positioning)) by done.
    rewrite (bool_decide_eq_false_2 (promotions = positioning)) by done.
    reflexivity.
Qed.

Lemma X12_witness :
  detectSemanticConflict Demo.rt Demo.chunkStack risks Demo.hotel
  = detectSemanticConflict Demo.rt Demo.chunkStack promotions Demo.hotel.
Proof.
  apply (proj2 (X12_conflict_events Demo.rt Demo.chunkStack risks Demo.hotel)). discriminate.
Defined.

(** ** Freshness *)

Lemma flat_map_nil {A B} (f : A -> list B) l :
  flat_map f l = [] <-> forall x, In x l -> f x = [].
Proof.
  induction l as [|y l IH]; simpl; [tauto|]. split.
  - intros H. apply app_eq_nil in H as [Hy Hl]. intros x [<-|Hx]; [done|].
    by apply IH.
  - intros H. rewrite (H y) by auto. simpl. apply IH. auto.
Qed.

(** X13. The policy result of a response is PASS exactly when every
    citation and every used chunk of every section whose source type has a
    limit and whose date can be read has an age within that limit; an item
    without a limit or with an unreadable date never raises a warning. The
    list of warnings is empty exactly in that case. *)
Theorem X13_policy_pass_iff_all_within_limit rt p data r :
  runKnowledgeSpineQuery rt p (inr data) = inr r ->
  let limit := Policy.maxAgeDaysBySourceType (Hotel.policy (Data.hotel data)) in
  (Trust.policyCompliance (Response.trust r) = PASS
   <-> forall k s item maxAge age,
         In (k, s) (sectionEntries (Response.sections r)) ->
         In item (selectSectionSourceItems s) ->
         limit (SourceItem.type item) = Some maxAge ->
         daysOld rt (SourceItem.date item) = Some age ->
         (age <= maxAge)%Z)
  /\ (Trust.policyCompliance (Response.trust r) = PASS
      <-> Trust.policyWarnings (Response.trust r) = [])
  /\ Trust.withinFreshnessPolicy (Response.trust r)
     = Trust.policyCompliance (Response.trust r).
Proof.
  intros Hrun limit.
  apply run_inr in Hrun as (input & data' & _ & [= <-] & _ & ->).
  set (r := respond rt data input).
  assert (Hpass : Trust.policyCompliance (Response.trust r) = PASS
                  <-> Trust.policyWarnings (Response.trust r) = []).
  { change (Trust.policyCompliance (Response.trust r))
      with (if 0 <? length (Trust.policyWarnings (Response.trust r)) then WARN else PASS).
    destruct (Trust.policyWarnings (Response.trust r)); simpl; split; congruence. }
  split; [|split; [exact Hpass|reflexivity]].
  rewrite Hpass.
  change (Trust.policyWarnings (Response.trust r))
    with (flat_map (sectionWarnings rt (Data.hotel data))
            (sectionEntries (Response.sections r))).
  rewrite flat_map_nil. split.
  - intros H k s item maxAge age Hin Hitem Hlim Hage.
    specialize (H (k, s) Hin). unfold sectionWarnings in H.
    rewrite flat_map_nil in H. specialize (H item Hitem). simpl in H.
    fold limit in H. rewrite Hlim, Hage in H.
    destruct (maxAge <? age)%Z eqn:E; [discriminate|]. by apply Z.ltb_ge.
  - intros H [k s] Hin. unfold sectionWarnings. apply flat_map_nil.
    intros item Hitem. simpl. fold limit.
    destruct (limit (SourceItem.type item)) as [maxAge|] eqn:Hlim; [|done].
    destruct (daysOld rt (SourceItem.date item)) as [age|] eqn:Hage; [|done].
    specialize (H k s item maxAge age Hin Hitem Hlim Hage).
    apply Z.ltb_ge in H. by rewrite H.
Qed.

Lemma X13_witness :
  Trust.policyCompliance (Response.trust demoResponseEven) = PASS
  <-> Trust.policyWarnings (Response.trust demoResponseEven) = [].
Proof.
  apply (X13_policy_pass_iff_all_within_limit Demo.rt Demo.requestMinimal Demo.dataEven
           demoResponseEven).
  vm_compute. reflexivity.
Defined.

(** ** Statistics of the trust payload *)

Lemma filter_split_length {A} (f : A -> bool) l :
  length (List.filter (fun x => negb (f x)) l) + length (List.filter f l) = length l.
Proof.
  induction l as [|x l IH]; simpl; [done|]. destruct (f x); simpl; lia.
Qed.

Lemma omap_length_all {A B} (f : A -> option B) l :
  (forall x, In x l -> is_Some (f x)) -> length (omap f l) = length l.
Proof.
  induction l as [|x l IH]; intros H; simpl; [done|].
  destruct (H x (or_introl eq_refl)) as [y Hy]. rewrite Hy. simpl.
  f_equal. apply IH. intros z Hz. apply H. by right.
Qed.

Lemma collectCitations_resolved ids (m : gmap string Source.t) c :
  keyedById m -> In c (collectCitations ids m) -> is_Some (m !! Citation.sourceId c).
Proof.
  intros Hm. unfold collectCitations. rewrite in_map_iff.
  intros (s & <- & Hs). apply list_elem_of_In, list_elem_of_omap in Hs.
  destruct Hs as (id & _ & Hlook). pose proof (Hm _ _ Hlook) as E. simpl.
  rewrite E. eauto.
Qed.

Lemma built_citations_resolved rt data input plan k s c :
  In (k, s) (sectionEntries (buildSections rt data input plan)) ->
  In c (sec_citations s) ->
  is_Some (buildSourceMap (Data.allSources data) !! Citation.sourceId c).
Proof.
  intros H. apply entries_buildSections in H.
  destruct H as [[_ ->]|[[_ ->]|[[_ ->]|[[_ ->]|[_ ->]]]]];
    apply collectCitations_resolved, buildSourceMap_keyed.
Qed.

Lemma respond_citations_resolved rt data input c :
  In c (allCitationsOf (respond rt data input)) ->
  is_Some (buildSourceMap (Data.allSources data) !! Citation.sourceId c).
Proof.
  unfold allCitationsOf. rewrite in_flat_map. intros (s & Hs & Hc).
  apply values_entries in Hs as [k Hs].
  apply entries_respond in Hs as (s0 & H0 & Ho).
  apply overridden_fields in Ho as (_ & E & _). rewrite E in Hc.
  eapply built_citations_resolved; eauto.
Qed.

(** X14. In the statistics of a response, the structured and the
    unstructured sources used add up to the number of distinct sources
    cited across its sections: every citation goes back to a source
    record, counted once however many sections cite it. *)
Theorem X14_source_counts_add_up rt p loaded r :
  runKnowledgeSpineQuery rt p loaded = inr r ->
  Trust.structuredSourcesUsed (Response.trust r)
  + Trust.unstructuredSourcesUsed (Response.trust r)
  = uniqueCitationCount r.
Proof.
  intros Hrun. apply run_inr in Hrun as (input & data & _ & _ & _ & ->).
  set (r := respond rt data input).
  change (Trust.structuredSourcesUsed (Response.trust r)
          + Trust.unstructuredSourcesUsed (Response.trust r))
    with (length (List.filter (fun s => negb (unstructuredSourceTypes (Source.type s)))
                    (omap (fun id => buildSourceMap (Data.allSources data) !! id)
                          (uniq (List.map Citation.sourceId (allCitationsOf r)))))
          + length (List.filter (fun s => unstructuredSourceTypes (Source.type s))
                      (omap (fun id => buildSourceMap (Data.allSources data) !! id)
                            (uniq (List.map Citation.sourceId (allCitationsOf r)))))).
  rewrite (filter_split_length (fun s => unstructuredSourceTypes (Source.type s))).
  unfold uniqueCitationCount. apply omap_length_all.
  intros id Hid. unfold uniq in Hid. apply uniqAcc_In in Hid as [Hid _].
  apply in_map_iff in Hid as (c & <- & Hc).
  exact (respond_citations_resolved rt data input c Hc).
Qed.

Lemma X14_witness :
  Trust.structuredSourcesUsed (Response.trust demoResponse)
  + Trust.unstructuredSourcesUsed (Response.trust demoResponse) = 6.
Proof.
  rewrite (X14_source_counts_add_up Demo.rt Demo.request (inr Demo.data) demoResponse).
  - vm_compute. reflexivity.
  - vm_compute. reflexivity.
Defined.

Lemma built_breakdown rt data input plan k s :
  In (k, s) (sectionEntries (buildSections rt data input plan)) ->
  Breakdown.semanticChunksCount (sec_retrievalBreakdown s)
  = length (sec_semanticChunksUsed s)
  /\ Breakdown.conflictsIgnoredCount (sec_retrievalBreakdown s)
     = length (sec_conflictsIgnored s)
  /\ Breakdown.overridesApplied (sec_retrievalBreakdown s)
     = (0 <? length (sec_conflictsIgnored s)).
Proof.
  intros H. apply entries_buildSections in H.
  destruct H as [[_ ->]|[[_ ->]|[[_ ->]|[[_ ->]|[_ ->]]]]]; done.
Qed.

Lemma list_sum_pos l : 0 < list_sum l <-> exists n, In n l /\ 0 < n.
Proof.
  induction l as [|x l IH]; simpl.
  - split; [lia|]. intros (n & [] & _).
  - split.
    + intros H. destruct (Nat.eq_dec x 0) as [->|Hx].
      * apply IH in H as (n & Hn & Hpos). eauto.
      * exists x. split; [auto|lia].
    + intros (n & [<-|Hn] & Hpos); [lia|].
      assert (0 < list_sum l) by (apply IH; eauto). lia.
Qed.

(** X15. The counts a response reports agree with its lists. In every
    section the breakdown counts the chunks used and the conflicts ignored
    of that section, and [overridesApplied] is set exactly when the section
    ignored a conflict; in the trust payload [semanticChunksUsed] and
    [conflictsIgnored] are the sums over the sections, and
    [canonicalOverridesNotes] is set exactly when some section ignored a
    conflict. *)
Theorem X15_counts_agree_with_lists rt p loaded r :
  runKnowledgeSpineQuery rt p loaded = inr r ->
  let values := sectionValues (Response.sections r) in
  (forall s, In s values ->
     Breakdown.semanticChunksCount (sec_retrievalBreakdown s)
     = length (sec_semanticChunksUsed s)
     /\ Breakdown.conflictsIgnoredCount (sec_retrievalBreakdown s)
        = length (sec_conflictsIgnored s)
     /\ (Breakdown.overridesApplied (sec_retrievalBreakdown s) = true
         <-> sec_conflictsIgnored s <> []))
  /\ Trust.semanticChunksUsed (Response.trust r)
     = list_sum (List.map (fun s => length (sec_semanticChunksUsed s)) values)
  /\ Trust.conflictsIgnored (Response.trust r)
     = list_sum (List.map (fun s => length (sec_conflictsIgnored s)) values)
  /\ Trust.structuredFactsUsed (Response.trust r)
     = list_sum (List.map (fun s => Breakdown.structuredFactsCount (sec_retrievalBreakdown s))
                          values)
  /\ (Trust.canonicalOverridesNotes (Response.trust r) = true
      <-> exists s, In s values /\ sec_conflictsIgnored s <> []).
Proof.
  intros Hrun. apply run_inr in Hrun as (input & data & _ & _ & _ & ->).
  set (r := respond rt data input). intros values.
  assert (Hc : Trust.conflictsIgnored (Response.trust r)
               = list_sum (List.map (fun s => length (sec_conflictsIgnored s)) values)).
  { rewrite <- (Nat.add_0_l (list_sum _)).
    rewrite <- (fold_left_sum (fun s => length (sec_conflictsIgnored s))). reflexivity. }
  split; [|split; [|split; [exact Hc|split]]].
  - intros s Hs. apply values_entries in Hs as [k Hs].
    apply entries_respond in Hs as (s0 & H0 & Ho).
    apply overridden_fields in Ho as (_ & _ & -> & -> & ->).
    apply built_breakdown in H0 as (-> & -> & ->).
    split; [done|]. split; [done|].
    destruct (sec_conflictsIgnored s0); simpl; split; try done; discriminate.
  - rewrite <- (Nat.add_0_l (list_sum _)).
    rewrite <- (fold_left_sum (fun s => length (sec_semanticChunksUsed s))). reflexivity.
  - rewrite <- (Nat.add_0_l (list_sum _)).
    rewrite <- (fold_left_sum
                  (fun s => Breakdown.structuredFactsCount (sec_retrievalBreakdown s))).
    reflexivity.
  - change (Trust.canonicalOverridesNotes (Response.trust r))
      with (0 <? Trust.conflictsIgnored (Response.trust r)).
    rewrite Hc, Nat.ltb_lt, list_sum_pos. split.
    + intros (n & Hn & Hpos). apply in_map_iff in Hn as (s & <- & Hs).
      exists s. split; [done|]. intros E. rewrite E in Hpos. simpl in Hpos. lia.
    + intros (s & Hs & Hne). exists (length (sec_conflictsIgnored s)).
      split; [apply in_map_iff; eauto|].
      destruct (sec_conflictsIgnored s); [done|simpl; lia].
Qed.

Lemma X15_witness :
  Trust.conflictsIgnored (Response.trust demoResponse) = 2
  /\ Trust.canonicalOverridesNotes (Response.trust demoResponse) = true.
Proof.
  destruct (X15_counts_agree_with_lists Demo.rt Demo.request (inr Demo.data) demoResponse)
    as (_ & _ & Hc & _ & Hn).
  - vm_compute. reflexivity.
  - split; [rewrite Hc; vm_compute; reflexivity|].
    apply Hn. exists (TextSec (Sections.positioning (Response.sections demoResponse))).
    split; [left; reflexivity|]. vm_compute. discriminate.
Defined.

(** X16. The guardrail [allSectionsBackedByCitations] of a response is set
    exactly when every produced section has at least one citation, which is
    exactly when every produced section has status [OK]. *)
Theorem X16_all_sections_backed rt p loaded r :
  runKnowledgeSpineQuery rt p loaded = inr r ->
  (Trust.allSectionsBackedByCitations (Response.trust r) = true
   <-> forall s, In s (sectionValues (Response.sections r)) -> sec_citations s <> [])
  /\ (Trust.allSectionsBackedByCitations (Response.trust r) = true
      <-> forall s, In s (sectionValues (Response.sections r)) -> sec_status s = OK).
Proof.
  intros Hrun. apply run_inr in Hrun as (input & data & _ & _ & _ & ->).
  set (r := respond rt data input).
  assert (Hst : forall s, In s (sectionValues (Response.sections r)) ->
                          sec_status s = statusOf (sec_citations s)).
  { intros s Hs. apply values_entries in Hs as [k Hs]. by eapply respond_status. }
  change (Trust.allSectionsBackedByCitations (Response.trust r))
    with (forallb (fun s => (0 <? length (sec_citations s))
                            && bool_decide (sec_status s = OK))
                  (sectionValues (Response.sections r))).
  rewrite forallb_forall. split; split.
  - intros H s Hs. specialize (H s Hs). apply andb_prop in H as [H _].
    destruct (sec_citations s); [discriminate|done].
  - intros H s Hs. specialize (H s Hs).
    rewrite (Hst s Hs). destruct (sec_citations s); [done|]. by rewrite bool_decide_eq_true_2.
  - intros H s Hs. specialize (H s Hs). apply andb_prop in H as [_ H].
    by apply bool_decide_eq_true in H.
  - intros H s Hs. specialize (H s Hs). rewrite (Hst s Hs) in H |- *.
    destruct (sec_citations s); [discriminate|]. by rewrite bool_decide_eq_true_2.
Qed.

Lemma X16_witness :
  Trust.allSectionsBackedByCitations (Response.trust demoResponse) = true.
Proof.
  apply (proj1 (X16_all_sections_backed Demo.rt Demo.request (inr Demo.data) demoResponse
                  ltac:(vm_compute; reflexivity))).
  intros s Hs. vm_compute in Hs.
  repeat (destruct Hs as [<-|Hs]; [vm_compute; discriminate|]). destruct Hs.
Defined.

(** ** Score, label and escalation *)

(** *** Comparing doubles *)

Lemma SFcompare_antisym x y c :
  SFcompare x y = Some c -> SFcompare y x = Some (CompOpp c).
Proof.
  destruct x as [sx|sx| |sx mx ex], y as [sy|sy| |sy my ey]; simpl; try discriminate;
    try (destruct sx; try destruct sy; intros [= <-]; reflexivity);
    try (destruct sy; intros [= <-]; reflexivity).
  destruct sx, sy; intros [= <-]; try reflexivity.
  - rewrite (Z.compare_antisym ex ey). destruct (ex ?= ey)%Z; simpl; try reflexivity.
    pose proof (Pos.compare_cont_antisym mx my Eq) as A. simpl in A.
    destruct (Pos.compare_cont Eq mx my), (Pos.compare_cont Eq my mx);
      simpl in *; congruence.
  - rewrite (Z.compare_antisym ex ey). destruct (ex ?= ey)%Z; simpl; try reflexivity.
    pose proof (Pos.compare_cont_antisym mx my Eq) as A. simpl in A.
    destruct (Pos.compare_cont Eq mx my), (Pos.compare_cont Eq my mx);
      simpl in *; congruence.
Qed.

Lemma SFcompare_defined x y :
  Num.isNaN x = false -> Num.isNaN y = false -> exists c, SFcompare x y = Some c.
Proof.
  destruct x as [sx|sx| |sx mx ex], y as [sy|sy| |sy my ey]; simpl; try discriminate;
    intros _ _; eauto.
Qed.

Lemma Num_ltb_not_leb x y : Num.ltb x y = true -> Num.leb y x = false.
Proof.
  unfold Num.ltb, Num.leb, SFltb, SFleb.
  destruct (SFcompare x y) as [[]|] eqn:E; try discriminate.
  intros _. by rewrite (SFcompare_antisym _ _ _ E).
Qed.

Lemma Num_not_leb_ltb x y :
  Num.isNaN x = false -> Num.isNaN y = false -> Num.leb y x = false -> Num.ltb x y = true.
Proof.
  intros Hx Hy. unfold Num.ltb, Num.leb, SFltb, SFleb.
  destruct (SFcompare_defined y x Hy Hx) as [c E]. rewrite E.
  rewrite (SFcompare_antisym _ _ _ E). by destruct c.
Qed.

Lemma Num_ltb_leb x y : Num.ltb x y = true -> Num.leb x y = true.
Proof.
  unfold Num.ltb, Num.leb, SFltb, SFleb. by destruct (SFcompare x y) as [[]|].
Qed.

(** What is at least 0.75 is at least 0.6. *)
Lemma Num_leb_75_60 x :
  Num.leb (Num.ofQ (75 # 100)) x = true -> Num.leb (Num.ofQ (6 # 10)) x = true.
Proof.
  assert (E75 : Num.ofQ (75 # 100) = S754_finite false 6755399441055744 (-53))
    by (vm_compute; reflexivity).
  assert (E60 : Num.ofQ (6 # 10) = S754_finite false 5404319552844595 (-53))
    by (vm_compute; reflexivity).
  rewrite E75, E60. clear E75 E60.
  destruct x as [s|s| |s m e]; [by destruct s|by destruct s|discriminate|].
  destruct s; [discriminate|].
  unfold Num.leb, SFleb, SFcompare.
  destruct (-53 ?= e)%Z; [|reflexivity|discriminate].
  change (Pos.compare_cont Eq 6755399441055744 m) with (6755399441055744 ?= m)%positive.
  change (Pos.compare_cont Eq 5404319552844595 m) with (5404319552844595 ?= m)%positive.
  destruct (Pos.compare_spec 6755399441055744 m) as [<-|H|H]; [reflexivity| |discriminate].
  intros _. destruct (Pos.compare_spec 5404319552844595 m) as [<-|H'|H']; try reflexivity.
  pose proof (Pos.lt_trans _ _ _ H H') as C. vm_compute in C. discriminate.
Qed.

Lemma labelOf_High raw :
  labelOf raw = High <-> Num.leb (Num.ofQ (75 # 100)) raw = true.
Proof.
  unfold labelOf. destruct (Num.leb (Num.ofQ (75 # 100)) raw); [done|].
  destruct (Num.leb (Num.ofQ (6 # 10)) raw); split; discriminate.
Qed.

Lemma labelOf_Low raw :
  labelOf raw = Low <-> Num.leb (Num.ofQ (6 # 10)) raw = false.
Proof.
  unfold labelOf. destruct (Num.leb (Num.ofQ (75 # 100)) raw) eqn:E1.
  - apply Num_leb_75_60 in E1. rewrite E1. split; discriminate.
  - destruct (Num.leb (Num.ofQ (6 # 10)) raw); split; try discriminate; done.
Qed.

Lemma rawScore_not_NaN_threshold raw :
  Num.isNaN raw = false ->
  Num.leb (Num.ofQ (6 # 10)) raw = false -> Num.ltb raw (Num.ofQ (6 # 10)) = true.
Proof. intros Hnan. by apply Num_not_leb_ltb. Qed.

(** X17. The label of a response follows the score before rounding, as a
    double: it is [High] exactly when the score is at least 0.75 and [Low]
    exactly when the score is not at least 0.6. A score below 0.6 is
    labelled [Low] and escalates. A [Low] label comes with escalation
    unless the score is not a number. A response without escalation has a
    label other than [Low] (or a score that is not a number), a traveler-fit
    section of status [OK], promotions that are cited when requested, a
    policy result PASS and an empty reason. *)
Theorem X17_label_and_escalation rt p loaded r :
  runKnowledgeSpineQuery rt p loaded = inr r ->
  let raw := rawScoreOf rt r in
  let label := Trust.evidenceStrengthLabel (Response.trust r) in
  (label = High <-> Num.leb (Num.ofQ (75 # 100)) raw = true)
  /\ (label = Low <-> Num.leb (Num.ofQ (6 # 10)) raw = false)
  /\ (Num.ltb raw (Num.ofQ (6 # 10)) = true ->
      label = Low /\ Trust.escalationNeeded (Response.trust r) = true)
  /\ (label = Low -> Num.isNaN raw = false ->
      Trust.escalationNeeded (Response.trust r) = true)
  /\ (Trust.escalationNeeded (Response.trust r) = false ->
      (label <> Low \/ Num.isNaN raw = true)
      /\ TextSection.status (Sections.travelerFit (Response.sections r)) = OK
      /\ promotionsMissingSourcesOf r = false
      /\ Trust.policyCompliance (Response.trust r) = PASS
      /\ Trust.escalationReason (Response.trust r) = "").
Proof.
  intros Hrun. apply run_inr in Hrun as (input & data & _ & _ & _ & ->).
  set (r := respond rt data input). intros raw label.
  assert (HH : label = High <-> Num.leb (Num.ofQ (75 # 100)) raw = true)
    by apply labelOf_High.
  assert (HL : label = Low <-> Num.leb (Num.ofQ (6 # 10)) raw = false)
    by apply labelOf_Low.
  assert (HE : Trust.escalationNeeded (Response.trust r)
               = belowThreshold raw || promotionsMissingSourcesOf r
                 || travelerFitInsufficientOf r || policyWarnOf r)
    by apply respond_escalationNeeded.
  assert (HR : Trust.escalationReason (Response.trust r)
               = escalationReasonOf raw (promotionsMissingSourcesOf r)
                   (travelerFitInsufficientOf r) (policyWarnOf r))
    by apply respond_escalationReason.
  split; [exact HH|]. split; [exact HL|]. split; [|split].
  - intros Hlt. split.
    + by apply HL, Num_ltb_not_leb.
    + rewrite HE. unfold belowThreshold. by rewrite Hlt.
  - intros HLow Hnan. apply HL in HLow.
    rewrite HE. unfold belowThreshold.
    by rewrite (rawScore_not_NaN_threshold raw Hnan HLow).
  - intros H. rewrite HE in H.
    apply orb_false_iff in H as [H H4]. apply orb_false_iff in H as [H H3].
    apply orb_false_iff in H as [H1 H2].
    split; [|split; [|split; [exact H2|split]]].
    + destruct (Num.isNaN raw) eqn:Hnan; [by right|left].
      intros HLow. apply HL in HLow.
      unfold belowThreshold in H1.
      rewrite (rawScore_not_NaN_threshold raw Hnan HLow) in H1. discriminate.
    + unfold travelerFitInsufficientOf in H3. apply bool_decide_eq_false in H3.
      destruct (TextSection.status _); [done|by destruct H3].
    + unfold policyWarnOf in H4. apply bool_decide_eq_false in H4.
      destruct (Trust.policyCompliance _); [done|by destruct H4].
    + rewrite HR. unfold escalationReasonOf. by rewrite H1, H2, H3, H4.
Qed.

Lemma X17_witness :
  Trust.evidenceStrengthLabel (Response.trust demoResponseEven) = Low
  /\ Trust.escalationNeeded (Response.trust demoResponseEven) = true.
Proof.
  apply (proj1 (proj2 (proj2 (X17_label_and_escalation Demo.rt Demo.requestMinimal
                                (inr Demo.dataEven) demoResponseEven
                                ltac:(vm_compute; reflexivity))))).
  vm_compute. reflexivity.
Defined.

(** *** No citation at all *)

Lemma list_sum_bound {A} (f : A -> nat) b l :
  (forall x, In x l -> f x <= b) -> list_sum (List.map f l) <= b * length l.
Proof.
  induction l as [|x l IH]; intros H; simpl; [lia|].
  pose proof (H x (or_introl eq_refl)).
  assert (list_sum (List.map f l) <= b * length l) by (apply IH; intros; apply H; by right).
  lia.
Qed.

Lemma respond_used_bound rt data input s :
  In s (sectionValues (Response.sections (respond rt data input))) ->
  length (sec_semanticChunksUsed s) <= 3.
Proof.
  intros Hs. apply values_entries in Hs as [k Hs].
  apply entries_respond in Hs as (s0 & H0 & Ho).
  apply overridden_fields in Ho as (_ & _ & -> & _).
  apply built_semantic in H0 as [(_ & -> & _)|(_ & -> & _)]; [|simpl; lia].
  unfold retrievalFor, retrieveSemanticChunks.
  rewrite retrieveLoop_used_take by (simpl; lia).
  simpl. rewrite length_take. lia.
Qed.

Lemma sectionValues_length ss : length (sectionValues ss) <= 5.
Proof.
  unfold sectionValues, sectionEntries.
  destruct ss as [a b [c|] [d|] [e|]]; simpl; lia.
Qed.

Lemma respond_semanticCount_bound rt data input :
  semanticCountOf (sectionValues (Response.sections (respond rt data input))) <= 15.
Proof.
  unfold semanticCountOf. rewrite fold_left_sum.
  pose proof (list_sum_bound (fun s => length (sec_semanticChunksUsed s)) 3
                (sectionValues (Response.sections (respond rt data input)))
                (respond_used_bound rt data input)).
  pose proof (sectionValues_length (Response.sections (respond rt data input))).
  lia.
Qed.

(** The score of no citation and up to fifteen chunks, case by case. *)
Lemma no_citation_scores :
  forallb
    (fun k =>
       let raw := evidenceStrengthScoreOf 0 (Num.ofZ 0) false k in
       Num.leb raw (Num.ofQ (2 # 100)) && Num.ltb raw (Num.ofQ (6 # 10))
       && negb (Num.leb (Num.ofQ (6 # 10)) raw))
    (seq 0 16) = true.
Proof. vm_compute. reflexivity. Qed.

(** X18. A response none of whose sections has a citation always asks for
    escalation, with the evidence-strength reason and the label [Low]: its
    score before rounding is the chunk bonus alone, at most 0.02. *)
Theorem X18_no_citation_escalates rt p loaded r :
  runKnowledgeSpineQuery rt p loaded = inr r ->
  (forall s, In s (sectionValues (Response.sections r)) -> sec_citations s = []) ->
  Num.leb (rawScoreOf rt r) (Num.ofQ (2 # 100)) = true
  /\ Trust.evidenceStrengthLabel (Response.trust r) = Low
  /\ Trust.escalationNeeded (Response.trust r) = true
  /\ Trust.escalationReason (Response.trust r)
     = "Reason: Evidence Strength below threshold (0.6). Current score "
       +:+ Num.toFixed2 (rawScoreOf rt r).
Proof.
  intros Hrun Hnone.
  assert (Hall : allCitationsOf r = []).
  { unfold allCitationsOf. apply flat_map_nil. exact Hnone. }
  apply run_inr in Hrun as (input & data & _ & _ & _ & ->).
  set (r := respond rt data input) in *.
  set (k := semanticCountOf (sectionValues (Response.sections r))).
  assert (Hk : In k (seq 0 16)).
  { apply in_seq. pose proof (respond_semanticCount_bound rt data input). subst k r. lia. }
  assert (Hraw : rawScoreOf rt r = evidenceStrengthScoreOf 0 (Num.ofZ 0) false k).
  { unfold rawScoreOf. rewrite Hall. reflexivity. }
  pose proof (proj1 (forallb_forall _ _) no_citation_scores k Hk) as Hcase.
  cbv beta zeta in Hcase. rewrite <- Hraw in Hcase.
  apply andb_prop in Hcase as [Hcase Hge]. apply andb_prop in Hcase as [Hle Hlt].
  apply negb_true_iff in Hge.
  assert (HE : Trust.escalationNeeded (Response.trust r)
               = belowThreshold (rawScoreOf rt r) || promotionsMissingSourcesOf r
                 || travelerFitInsufficientOf r || policyWarnOf r)
    by apply respond_escalationNeeded.
  assert (HR : Trust.escalationReason (Response.trust r)
               = escalationReasonOf (rawScoreOf rt r) (promotionsMissingSourcesOf r)
                   (travelerFitInsufficientOf r) (policyWarnOf r))
    by apply respond_escalationReason.
  split; [exact Hle|]. split; [by apply labelOf_Low|]. split.
  - rewrite HE. unfold belowThreshold. by rewrite Hlt.
  - rewrite HR. unfold escalationReasonOf, belowThreshold. by rewrite Hlt.
Qed.

Lemma X18_witness :
  let r := respond Demo.rt Demo.dataNoSources Demo.input in
  Trust.escalationNeeded (Response.trust r) = true
  /\ Trust.evidenceStrengthLabel (Response.trust r) = Low.
Proof.
  intros r.
  destruct (X18_no_citation_escalates Demo.rt Demo.request (inr Demo.dataNoSources) r)
    as (_ & HL & HE & _).
  - vm_compute. reflexivity.
  - intros s Hs. vm_compute in Hs.
    repeat (destruct Hs as [<-|Hs]; [vm_compute; reflexivity|]). destruct Hs.
  - split; [exact HE|exact HL].
Defined.

(** *** The range of the score *)

(** X30. [clamp(x, 0, 1)] is not a number exactly when [x] is not one, and
    lies between 0 and 1, as doubles compare, otherwise. So whatever the
    citation count, the average, the recency flag and the chunk count are,
    the score the engine computes is not a number or lies between 0 and 1. *)
Theorem X30_score_in_unit_interval_or_not_a_number :
  (forall x,
      let c := clamp x (Num.ofQ 0) (Num.ofQ 1) in
      (Num.isNaN c = true <-> Num.isNaN x = true)
      /\ (Num.isNaN x = false ->
          Num.leb (Num.ofQ 0) c = true /\ Num.leb c (Num.ofQ 1) = true))
  /\ (forall n avg recent sem,
         let raw := evidenceStrengthScoreOf n avg recent sem in
         Num.isNaN raw = true
         \/ (Num.leb (Num.ofQ 0) raw = true /\ Num.leb raw (Num.ofQ 1) = true)).
Proof.
  assert (Hclamp : forall x,
             let c := clamp x (Num.ofQ 0) (Num.ofQ 1) in
             (Num.isNaN c = true <-> Num.isNaN x = true)
             /\ (Num.isNaN x = false ->
                 Num.leb (Num.ofQ 0) c = true /\ Num.leb c (Num.ofQ 1) = true)).
  { assert (E0 : Num.ofQ 0 = S754_zero false) by (vm_compute; reflexivity).
    assert (E1 : Num.ofQ 1 = S754_finite false 4503599627370496 (-52))
      by (vm_compute; reflexivity).
    rewrite E0, E1. clear E0 E1. intros x.
    unfold clamp, clampIn. cbn [Arith.min Arith.max binary64].
    destruct x as [s|s| |s m e].
    - by destruct s.
    - by destruct s.
    - split; [done|discriminate].
    - destruct s; [done|].
      unfold Num.max. simpl. unfold Num.min. simpl.
      destruct (Num.ltb (S754_finite false m e)
                        (S754_finite false 4503599627370496 (-52))) eqn:L.
      + split; [done|]. intros _. split; [done|]. by apply Num_ltb_leb.
      + done. }
  split; [exact Hclamp|].
  intros n avg recent sem raw. subst raw.
  unfold evidenceStrengthScoreOf, evidenceStrengthIn.
  match goal with
  | |- context [clampIn binary64 ?x _ _] =>
      destruct (Hclamp x) as [Hnan Hin]; destruct (Num.isNaN x) eqn:E
  end.
  - left. by apply Hnan.
  - right. by apply Hin.
Qed.

Lemma X30_witness :
  Num.leb (Num.ofQ 0) (clamp (Num.ofQ (3 # 2)) (Num.ofQ 0) (Num.ofQ 1)) = true
  /\ Num.leb (clamp (Num.ofQ (3 # 2)) (Num.ofQ 0) (Num.ofQ 1)) (Num.ofQ 1) = true.
Proof.
  apply (proj2 (proj1 X30_score_in_unit_interval_or_not_a_number (Num.ofQ (3 # 2)))).
  vm_compute. reflexivity.
Defined.

(** ** The narrative override *)

Lemma applyOverrides_empty ss : applyOverrides Overrides.empty ss = ss.
Proof. destruct ss as [a b [c|] d [e|]]; reflexivity. Qed.

(** X19. Whatever the narrative service answers, a response keeps the
    promotions section as drafted, and every other section keeps its
    status, citations, chunks, conflicts and breakdown; a section of status
    [INSUFFICIENT_SOURCES] is kept whole. In deterministic mode all sections
    are the drafted ones. In narrative mode a text the service gives for the
    positioning section replaces its content when the text is not empty and
    the section has status [OK]. *)
Theorem X19_override_touches_ok_content_only rt p data r input :
  runKnowledgeSpineQuery rt p (inr data) = inr r ->
  validateInput p = inr input ->
  let drafted := buildSections rt data input (Response.queryPlan r) in
  let draft := {| Response.queryPlan := Response.queryPlan r;
                  Response.sections := drafted;
                  Response.trust := draftTrust (Data.hotel data) |} in
  Sections.promotions (Response.sections r) = Sections.promotions drafted
  /\ (forall k s,
        In (k, s) (sectionEntries (Response.sections r)) ->
        exists s0,
          In (k, s0) (sectionEntries drafted)
          /\ sec_status s = sec_status s0 /\ sec_citations s = sec_citations s0
          /\ sec_semanticChunksUsed s = sec_semanticChunksUsed s0
          /\ sec_conflictsIgnored s = sec_conflictsIgnored s0
          /\ sec_retrievalBreakdown s = sec_retrievalBreakdown s0
          /\ (sec_status s0 = INSUFFICIENT_SOURCES -> s = s0))
  /\ (QueryInput.useLLM input && Runtime.hasApiKey rt = false ->
      Response.sections r = drafted)
  /\ (QueryInput.useLLM input && Runtime.hasApiKey rt = true ->
      forall text,
        Overrides.positioning
          (Runtime.narrativeService rt draft (Data.hotel data) input) = Some text ->
        text <> "" ->
        TextSection.status (Sections.positioning drafted) = OK ->
        TextSection.content (Sections.positioning (Response.sections r)) = text).
Proof.
  intros Hrun Hv.
  apply run_inr in Hrun as (input' & data' & Hv' & [= <-] & _ & ->).
  rewrite Hv in Hv'. injection Hv' as <-.
  intros drafted draft.
  split; [reflexivity|]. split; [|split].
  - intros k s Hin. apply entries_respond in Hin as (s0 & H0 & Ho).
    exists s0. split; [exact H0|].
    pose proof (overridden_fields _ _ Ho) as (E1 & E2 & E3 & E4 & E5).
    repeat (split; [done|]).
    intros Hins. apply (overridden_insufficient _ _ Ho). congruence.
  - intros Hdet. unfold respond. cbn [Response.sections].
    rewrite (deterministic_no_override _ _ _ _ Hdet).
    apply applyOverrides_empty.
  - intros Hllm text Htext Hne Hok.
    apply andb_prop in Hllm as [Hu Hk].
    unfold respond. cbn [Response.sections]. unfold maybeLlmNarrativeOverride.
    rewrite Hu, Hk. cbn [negb orb]. unfold applyOverrides. cbn [Sections.positioning].
    fold draft in Htext. change (Response.queryPlan (respond rt data input))
      with (buildQueryPlan rt (Data.hotel data) input) in *.
    change (TextSection.content
              (applyOverride
                 (Overrides.positioning
                    (Runtime.narrativeService rt draft (Data.hotel data) input))
                 (Sections.positioning drafted)) = text).
    rewrite Htext. unfold applyOverride.
    destruct text; [done|]. cbn [Str.isEmpty negb andb].
    rewrite bool_decide_eq_true_2 by exact Hok. reflexivity.
Qed.

Lemma X19_witness :
  Response.sections demoResponse
  = buildSections Demo.rt Demo.data Demo.input (Response.queryPlan demoResponse).
Proof.
  apply (proj1 (proj2 (proj2 (X19_override_touches_ok_content_only Demo.rt Demo.request
                                Demo.data demoResponse Demo.input
                                ltac:(vm_compute; reflexivity) ltac:(vm_compute; reflexivity))))).
  reflexivity.
Defined.

Example narrative_mode_rewrites_positioning :
  TextSection.content (Sections.positioning (Response.sections demoResponseLlm))
  = "- Rewritten positioning."
  /\ QueryPlan.retrievalMode (Response.queryPlan demoResponseLlm) = llm_assisted.
Proof. vm_compute. auto. Qed.

(** ** Dates *)

Lemma fold_left_max l t :
  (t <= fold_left Z.max l t)%Z
  /\ (forall x, In x l -> (x <= fold_left Z.max l t)%Z)
  /\ In (fold_left Z.max l t) (t :: l).
Proof.
  revert t. induction l as [|y l IH]; intros t; simpl.
  - split; [lia|]. split; [tauto|auto].
  - destruct (IH (Z.max t y)) as (H1 & H2 & H3). split; [lia|]. split.
    + intros x [<-|Hx]; [lia|auto].
    + destruct H3 as [H3|H3]; [|auto]. rewrite <- H3.
      destruct (Z.max_spec t y) as [[_ E]|[_ E]]; rewrite E; auto.
Qed.

(** X20. [maxDate] answers nothing exactly when no date of the list can
    be read (an empty date counts as unreadable); otherwise it answers the
    ISO day of the latest readable date of the list. *)
Theorem X20_maxDate_latest_readable rt dates :
  (maxDate rt dates = None
   <-> forall d, In d dates -> d = "" \/ Runtime.getTime rt d = None)
  /\ (forall day,
        maxDate rt dates = Some day ->
        exists d t,
          In d dates /\ d <> "" /\ Runtime.getTime rt d = Some t
          /\ day = Runtime.toISODay rt t
          /\ forall d' t', In d' dates -> d' <> "" -> Runtime.getTime rt d' = Some t' ->
                           (t' <= t)%Z).
Proof.
  unfold maxDate.
  set (f := fun d => if Str.isEmpty d then None else Runtime.getTime rt d).
  assert (Hf : forall d t, f d = Some t <-> d <> "" /\ Runtime.getTime rt d = Some t).
  { intros d t. unfold f. destruct d; simpl; split; try done.
    - intros [H _]. done.
    - intros [_ H]. done. }
  assert (Hin : forall t, In t (omap f dates) <-> exists d, In d dates /\ f d = Some t).
  { intros t. rewrite <- list_elem_of_In, list_elem_of_omap.
    split; intros (d & Hd & E); exists d; split; try done; by apply list_elem_of_In. }
  destruct (omap f dates) as [|t rest] eqn:E.
  - split; [|discriminate]. split; [|done]. intros _ d Hd.
    destruct d as [|a d']; [by left|]. right.
    destruct (Runtime.getTime rt (String a d')) as [t|] eqn:G; [|done].
    exfalso. apply (proj2 (Hin t)). exists (String a d'). split; [done|].
    apply Hf. done.
  - split.
    + split; [discriminate|]. intros H. exfalso.
      destruct (proj1 (Hin t) (or_introl eq_refl)) as (d & Hd & Ed).
      apply Hf in Ed as [Hne Ed]. destruct (H d Hd); congruence.
    + intros day [= <-].
      destruct (fold_left_max rest t) as (H1 & H2 & H3).
      apply Hin in H3 as (d & Hd & Ed). apply Hf in Ed as [Hne Ed].
      exists d, (fold_left Z.max rest t). repeat split; try done.
      intros d' t' Hd' Hne' Ed'.
      assert (Ht' : In t' (t :: rest)).
      { apply Hin. exists d'. split; [done|]. by apply Hf. }
      destruct Ht' as [<-|Ht']; auto.
Qed.

Lemma X20_witness :
  exists d t,
    In d ["2025-06-01"; ""; "not a date"; "2026-02-01"]
    /\ d <> "" /\ Runtime.getTime Demo.rt d = Some t
    /\ "2026-02-01" = Runtime.toISODay Demo.rt t
    /\ forall d' t', In d' ["2025-06-01"; ""; "not a date"; "2026-02-01"] -> d' <> "" ->
                     Runtime.getTime Demo.rt d' = Some t' -> (t' <= t)%Z.
Proof.
  apply (proj2 (X20_maxDate_latest_readable Demo.rt
                  ["2025-06-01"; ""; "not a date"; "2026-02-01"])).
  vm_compute. reflexivity.
Defined.

(** X21. Some citation is recent exactly when one of them has a readable
    date less than 121 full days before now; a citation dated after now
    counts as recent, one with an unreadable date never does. *)
Theorem X21_recent_means_within_121_days rt citations :
  (anyRecentOf rt citations = true
   <-> exists c ts,
         In c citations /\ Runtime.getTime rt (Citation.date c) = Some ts
         /\ (Runtime.now rt - ts < 121 * msPerDay)%Z)
  /\ (forall c ts,
        In c citations -> Runtime.getTime rt (Citation.date c) = Some ts ->
        (Runtime.now rt <= ts)%Z -> anyRecentOf rt citations = true).
Proof.
  assert (Hage : forall c ts,
             Runtime.getTime rt (Citation.date c) = Some ts ->
             (match daysOld rt (Citation.date c) with
              | Some age => (age <=? 120)%Z
              | None => false
              end = true
              <-> (Runtime.now rt - ts < 121 * msPerDay)%Z)).
  { intros c ts E. unfold daysOld. rewrite E. rewrite Z.leb_le.
    change msPerDay with 86400000%Z. split; intros H.
    - Z.div_mod_to_equations. lia.
    - Z.div_mod_to_equations. lia. }
  assert (Hiff : anyRecentOf rt citations = true
                 <-> exists c ts,
                       In c citations /\ Runtime.getTime rt (Citation.date c) = Some ts
                       /\ (Runtime.now rt - ts < 121 * msPerDay)%Z).
  { unfold anyRecentOf. rewrite existsb_exists. split.
    - intros (c & Hc & H).
      destruct (Runtime.getTime rt (Citation.date c)) as [ts|] eqn:E.
      + exists c, ts. split; [done|]. split; [done|]. by apply (Hage c ts E).
      + unfold daysOld in H. rewrite E in H. discriminate.
    - intros (c & ts & Hc & E & H). exists c. split; [done|]. by apply (Hage c ts E). }
  split; [exact Hiff|].
  intros c ts Hc E Hle. apply Hiff. exists c, ts. split; [done|]. split; [done|].
  change msPerDay with 86400000%Z. lia.
Qed.

Lemma X21_witness :
  anyRecentOf Demo.rt
    [toCitation (Demo.source "s" site_visit "2026-02-01" (1 # 2) None)] = true.
Proof.
  apply (proj1 (X21_recent_means_within_121_days Demo.rt
                  [toCitation (Demo.source "s" site_visit "2026-02-01" (1 # 2) None)])).
  exists (toCitation (Demo.source "s" site_visit "2026-02-01" (1 # 2) None)),
    1769904000000%Z.
  split; [left; reflexivity|]. split; [reflexivity|]. vm_compute. reflexivity.
Defined.

(** ** Sources and citations *)

Lemma buildSourceMap_snoc l s :
  buildSourceMap (l ++ [s]) = <[Source.sourceId s := s]> (buildSourceMap l).
Proof. unfold buildSourceMap. by rewrite fold_left_app. Qed.

Lemma buildSourceMap_lookup allSources id :
  buildSourceMap allSources !! id = lastWithId allSources id.
Proof.
  unfold lastWithId. induction allSources as [|s l IH] using rev_ind.
  - apply lookup_empty.
  - rewrite buildSourceMap_snoc, rev_app_distr. simpl.
    rewrite lookup_insert. case_decide as E.
    + subst id. by rewrite String.eqb_refl.
    + apply String.eqb_neq in E. by rewrite E.
Qed.

Lemma lastWithId_Some allSources id :
  is_Some (lastWithId allSources id)
  <-> exists s, In s allSources /\ Source.sourceId s = id.
Proof.
  unfold lastWithId. split.
  - intros [s H]. apply find_some in H as [Hin E].
    apply in_rev in Hin. apply String.eqb_eq in E. eauto.
  - intros (s & Hin & E).
    destruct (find _ (rev allSources)) as [s'|] eqn:F; [eauto|].
    exfalso. pose proof (find_none _ _ F s (proj1 (in_rev _ _) Hin)) as N.
    simpl in N. rewrite E, String.eqb_refl in N. discriminate.
Qed.

(** X22. The source map resolves an id to the last record of the list that
    carries it, so that of two records with one id the later is the one
    cited; an id resolves exactly when some record carries it. *)
Theorem X22_source_map_last_wins allSources id :
  buildSourceMap allSources !! id = lastWithId allSources id
  /\ (is_Some (buildSourceMap allSources !! id)
      <-> exists s, In s allSources /\ Source.sourceId s = id)
  /\ (forall s, buildSourceMap (allSources ++ [s]) !! Source.sourceId s = Some s).
Proof.
  split; [apply buildSourceMap_lookup|]. split.
  - rewrite buildSourceMap_lookup. apply lastWithId_Some.
  - intros s. rewrite buildSourceMap_snoc. apply lookup_insert_eq.
Qed.

Example later_record_is_cited :
  List.map Citation.title
    (collectCitations ["s"]
       (buildSourceMap [Demo.source "s" contract "2025-06-01" (1 # 2) None;
                        Demo.source "s" promotion "2026-02-01" (9 # 10) None]))
  = ["Title of s"]
  /\ List.map Citation.type
       (collectCitations ["s"]
          (buildSourceMap [Demo.source "s" contract "2025-06-01" (1 # 2) None;
                           Demo.source "s" promotion "2026-02-01" (9 # 10) None]))
     = [promotion].
Proof. vm_compute. auto. Qed.

(** X23. The citations of a list of backing ids are the records of the
    distinct ids that some source carries, in the order the ids first
    appear: an id no source carries is dropped without an error, and a
    repeated id is cited once. *)
Theorem X23_cited_ids sourceIds allSources :
  List.map Citation.sourceId (collectCitations sourceIds (buildSourceMap allSources))
  = List.filter (fun id => existsb (fun s => String.eqb (Source.sourceId s) id) allSources)
                (uniq sourceIds)
  /\ collectCitations sourceIds (buildSourceMap allSources)
     = List.map toCitation (omap (lastWithId allSources) (uniq sourceIds))
  /\ (collectCitations sourceIds (buildSourceMap allSources) = []
      <-> forall id s, In id sourceIds -> In s allSources -> Source.sourceId s <> id).
Proof.
  assert (Hex : forall id,
             existsb (fun s => String.eqb (Source.sourceId s) id) allSources = true
             <-> is_Some (buildSourceMap allSources !! id)).
  { intros id. rewrite buildSourceMap_lookup, lastWithId_Some, existsb_exists.
    split; intros (s & Hs & E); exists s; split; try done;
      [by apply String.eqb_eq|by apply String.eqb_eq]. }
  assert (H1 : List.map Citation.sourceId
                 (collectCitations sourceIds (buildSourceMap allSources))
               = List.filter
                   (fun id => existsb (fun s => String.eqb (Source.sourceId s) id) allSources)
                   (uniq sourceIds)).
  { unfold collectCitations. generalize (uniq sourceIds) as u.
    induction u as [|id u IH]; [done|]. simpl.
    destruct (buildSourceMap allSources !! id) as [s|] eqn:E.
    - rewrite (proj2 (Hex id)) by eauto. simpl.
      rewrite (buildSourceMap_keyed allSources id s E). f_equal. exact IH.
    - destruct (existsb _ allSources) eqn:X; [|exact IH].
      apply Hex in X as [s X]. congruence. }
  split; [exact H1|]. split.
  - unfold collectCitations. f_equal. apply list_omap_ext.
    apply Forall_Forall2_diag, Forall_forall. intros id _.
    apply buildSourceMap_lookup.
  - split.
    + intros E id s Hid Hs Heq. rewrite E in H1. simpl in H1.
      assert (Hin : In id (List.filter
                             (fun id => existsb (fun s => String.eqb (Source.sourceId s) id)
                                                allSources) (uniq sourceIds))).
      { apply filter_In. split.
        - unfold uniq. apply uniqAcc_In. simpl. tauto.
        - apply existsb_exists. exists s. split; [done|]. by apply String.eqb_eq. }
      rewrite <- H1 in Hin. destruct Hin.
    + intros H.
      destruct (collectCitations sourceIds (buildSourceMap allSources)) as [|c cs] eqn:E;
        [done|]. exfalso.
      assert (Hin : In (Citation.sourceId c)
                       (List.map Citation.sourceId (c :: cs))) by (left; done).
      rewrite H1 in Hin. apply filter_In in Hin as [Hin Hx].
      unfold uniq in Hin. apply uniqAcc_In in Hin as [Hin _].
      apply existsb_exists in Hx as (s & Hs & Heq). apply String.eqb_eq in Heq.
      by apply (H _ _ Hin Hs).
Qed.

Lemma X23_witness :
  collectCitations ["ghost"; "phantom"] (buildSourceMap Demo.allSources) = [].
Proof.
  apply (proj2 (proj2 (X23_cited_ids ["ghost"; "phantom"] Demo.allSources))).
  intros id s Hid Hs.
  simpl in Hid, Hs.
  repeat (destruct Hid as [<-|Hid]; [repeat (destruct Hs as [<-|Hs]; [discriminate|]); destruct Hs|]).
  destruct Hid.
Defined.

Lemma omap_nil {A B} (f : A -> option B) l :
  omap f l = [] <-> forall x, In x l -> f x = None.
Proof.
  induction l as [|y l IH]; simpl; [tauto|].
  destruct (f y) eqn:E; split.
  - discriminate.
  - intros H. specialize (H y (or_introl eq_refl)). congruence.
  - intros H x [<-|Hx]; [done|]. by apply IH.
  - intros H. apply IH. auto.
Qed.

Lemma collectCitations_nil ids (m : gmap string Source.t) :
  collectCitations ids m = [] <-> forall id, In id ids -> m !! id = None.
Proof.
  unfold collectCitations. split.
  - intros H. apply map_eq_nil in H. rewrite omap_nil in H.
    intros id Hid. apply H. unfold uniq. apply uniqAcc_In. simpl. tauto.
  - intros H. assert (E : omap (fun id => m !! id) (uniq ids) = []); [|by rewrite E].
    apply omap_nil. intros id Hid. apply H.
    unfold uniq in Hid. by apply uniqAcc_In in Hid as [Hid _].
Qed.

Lemma risks_entry ss t :
  Sections.risks ss = Some t -> In (risks, TextSec t) (sectionEntries ss).
Proof.
  intros H. unfold sectionEntries. rewrite H. simpl. auto.
Qed.

(** X24. The risks section draws on the risks whose season relevance
    includes the requested season, and only on them: it counts them as its
    structured facts, and its status is [OK] exactly when one of them names
    a source id that some source record carries. With no risk relevant to
    the season the section is [INSUFFICIENT_SOURCES], whatever sources
    exist. *)
Theorem X24_risks_follow_the_season rt p data r input t :
  runKnowledgeSpineQuery rt p (inr data) = inr r ->
  validateInput p = inr input ->
  Sections.risks (Response.sections r) = Some t ->
  let relevant := relevantRisksOf (Data.hotel data) (QueryInput.season input) in
  (forall risk, In risk relevant
                <-> In risk (Hotel.risks (Data.hotel data))
                    /\ In (QueryInput.season input) (Risk.seasonRelevance risk))
  /\ Breakdown.structuredFactsCount (TextSection.retrievalBreakdown t) = length relevant
  /\ (TextSection.status t = OK
      <-> exists risk id s,
            In risk relevant /\ In id (Risk.sourceIds risk)
            /\ In s (Data.allSources data) /\ Source.sourceId s = id)
  /\ (relevant = [] -> TextSection.status t = INSUFFICIENT_SOURCES).
Proof.
  intros Hrun Hv Hrisks relevant.
  apply run_inr in Hrun as (input' & data' & Hv' & [= <-] & _ & ->).
  rewrite Hv in Hv'. injection Hv' as <-.
  apply risks_entry, entries_respond in Hrisks as (s0 & H0 & Ho).
  pose proof (overridden_fields _ _ Ho) as (Est & _ & _ & _ & Ebd).
  apply entries_buildSections in H0.
  destruct H0 as [[[=] _]|[[[=] _]|[[_ ->]|[[[=] _]|[[=] _]]]]].
  simpl in Est, Ebd. rewrite Est, Ebd. clear Est Ebd Ho.
  assert (Hst : TextSection.status
                  (buildRisksSection (Data.hotel data) (buildSourceMap (Data.allSources data))
                     (retrievalFor rt data (buildQueryPlan rt (Data.hotel data) input) risks)
                     input) = OK
                <-> exists risk id s,
                      In risk relevant /\ In id (Risk.sourceIds risk)
                      /\ In s (Data.allSources data) /\ Source.sourceId s = id).
  { unfold buildRisksSection, mkTextSection. cbn [TextSection.status].
    fold (relevantRisksOf (Data.hotel data) (QueryInput.season input)). fold relevant.
    rewrite statusOf_OK. split.
    - intros Hne.
      destruct (List.Exists_dec
                  (fun id => is_Some (buildSourceMap (Data.allSources data) !! id))
                  (flat_map Risk.sourceIds relevant)) as [E|E].
      { intros id. destruct (buildSourceMap (Data.allSources data) !! id);
          [left; eauto|right; intros [? [=]]]. }
      + apply List.Exists_exists in E as (id & Hid & Hsome).
        apply in_flat_map in Hid as (risk & Hrisk & Hid).
        rewrite buildSourceMap_lookup in Hsome.
        apply lastWithId_Some in Hsome as (s & Hs & Heq). eauto 10.
      + exfalso. apply Hne. apply collectCitations_nil. intros id Hid.
        destruct (buildSourceMap (Data.allSources data) !! id) eqn:L; [|done].
        exfalso. apply E. apply List.Exists_exists. exists id. split; [done|].
        rewrite L. eauto.
    - intros (risk & id & s & Hrisk & Hid & Hs & Heq) Hnil.
      rewrite collectCitations_nil in Hnil.
      assert (Hin : In id (flat_map Risk.sourceIds relevant))
        by (apply in_flat_map; eauto).
      specialize (Hnil id Hin). rewrite buildSourceMap_lookup in Hnil.
      assert (Hsome : is_Some (lastWithId (Data.allSources data) id))
        by (apply lastWithId_Some; eauto).
      destruct Hsome as [x Hx]. congruence. }
  split; [|split; [|split; [exact Hst|]]].
  - intros risk. unfold relevant, relevantRisksOf. rewrite filter_In, existsb_exists.
    split.
    + intros [Hin (s & Hs & E)]. apply bool_decide_eq_true in E. by subst.
    + intros [Hin Hs]. split; [done|]. exists (QueryInput.season input).
      split; [done|]. by apply bool_decide_eq_true.
  - unfold buildRisksSection, mkTextSection, buildRetrievalBreakdown.
    cbn [TextSection.retrievalBreakdown Breakdown.structuredFactsCount].
    by rewrite length_map.
  - intros Hnil.
    match goal with
    | |- ?x = INSUFFICIENT_SOURCES => destruct x eqn:E; [|reflexivity]
    end.
    destruct (proj1 Hst E) as (risk & _ & _ & Hrisk & _).
    rewrite Hnil in Hrisk. destruct Hrisk.
Qed.

Lemma X24_witness :
  exists t,
    Sections.risks (Response.sections demoResponse) = Some t
    /\ Breakdown.structuredFactsCount (TextSection.retrievalBreakdown t) = 1.
Proof.
  destruct (Sections.risks (Response.sections demoResponse)) as [t|] eqn:E;
    [|vm_compute in E; discriminate].
  exists t. split; [reflexivity|].
  rewrite (proj1 (proj2 (X24_risks_follow_the_season Demo.rt Demo.request Demo.data
                           demoResponse Demo.input t
                           ltac:(vm_compute; reflexivity) ltac:(vm_compute; reflexivity) E))).
  vm_compute. reflexivity.
Defined.

(** ** What the page shows *)

Lemma splitNewline_single s : singleLine s = true -> splitNewline s = [s].
Proof.
  induction s as [|a s IH]; simpl; [done|].
  intros H. apply andb_prop in H as [Ha Hs]. apply negb_true_iff in Ha.
  rewrite Ha, (IH Hs). reflexivity.
Qed.

Lemma splitNewline_line a b :
  singleLine a = true -> splitNewline (a +:+ newline +:+ b) = a :: splitNewline b.
Proof.
  induction a as [|x a IH]; intros H.
  - reflexivity.
  - simpl in H. apply andb_prop in H as [Hx Ha]. apply negb_true_iff in Hx.
    rewrite append_cons. simpl. rewrite Hx, (IH Ha). reflexivity.
Qed.

Lemma splitNewline_join lines :
  (forall l, In l lines -> singleLine l = true) ->
  lines <> [] ->
  splitNewline (Str.join newline lines) = lines.
Proof.
  unfold Str.join. induction lines as [|x lines IH]; intros Hall Hne; [done|].
  destruct lines as [|y lines].
  - simpl. apply splitNewline_single. apply Hall. by left.
  - change (String.concat newline (x :: y :: lines))
      with (x +:+ newline +:+ String.concat newline (y :: lines)).
    rewrite splitNewline_line by (apply Hall; by left). f_equal. apply IH; [|done].
    intros l Hl. apply Hall. by right.
Qed.

(** X25. The card of a text section shows one paragraph for each content
    line, bullet mark included: splitting the rendered content at line
    breaks and dropping empty pieces gives back the lines, as long as no
    line holds a line break itself. *)
Theorem X25_card_shows_the_bullet_lines section lines :
  TextSection.content section = renderBulletText lines ->
  (forall l, In l lines -> singleLine l = true) ->
  cardLines section = List.map (fun line => "- " +:+ line) lines.
Proof.
  intros Hc Hall. unfold cardLines. rewrite Hc. unfold renderBulletText.
  destruct lines as [|x lines]; [reflexivity|].
  rewrite splitNewline_join.
  - apply forallb_filter_id. apply forallb_forall.
    intros l Hl. apply in_map_iff in Hl as (l0 & <- & _). reflexivity.
  - intros l Hl. apply in_map_iff in Hl as (l0 & <- & Hl0).
    simpl. by apply Hall.
  - discriminate.
Qed.

Lemma X25_witness :
  cardLines (Sections.positioning (Response.sections demoResponse))
  = ["- Amanzoe is positioned as privacy-led, design-forward.";
     "- Core strengths: Hilltop pavilions with private pools; Discreet service.";
     "- Warm sea and thinner crowds";
     "- Supporting color (non-canonical): Advisor brief."].
Proof.
  apply (X25_card_shows_the_bullet_lines
           (Sections.positioning (Response.sections demoResponse))
           ["Amanzoe is positioned as privacy-led, design-forward.";
            "Core strengths: Hilltop pavilions with private pools; Discreet service.";
            "Warm sea and thinner crowds";
            "Supporting color (non-canonical): Advisor brief."]).
  - vm_compute. reflexivity.
  - intros l Hl. simpl in Hl.
    repeat (destruct Hl as [<-|Hl]; [vm_compute; reflexivity|]). destruct Hl.
Defined.

(** ** Promotions *)

Lemma respond_promotions rt data input :
  Sections.promotions (Response.sections (respond rt data input))
  = if QueryInput.includePromotions input
    then Some (buildPromotionsSection (Data.hotel data)
                 (buildSourceMap (Data.allSources data))
                 (collectPromoSemanticConflicts rt (Data.allChunks data) (Data.hotel data)))
    else None.
Proof.
  unfold respond, applyOverrides, buildSections. cbn [Response.sections Sections.promotions].
  by destruct (QueryInput.includePromotions input).
Qed.

(** X26. The promotions section is drawn from the hotel record and the
    source records alone: two runs of one request over data with the same
    hotel and the same sources, whatever their chunk pools, runtimes and
    narrative services, agree on its status, promotions, stacking rules and
    citations; it never uses a chunk, and when its status is [OK] it lists
    every promotion and every stacking rule of the hotel, in order. *)
Theorem X26_promotions_structured_only rt rt' p data data' r r' q :
  runKnowledgeSpineQuery rt p (inr data) = inr r ->
  runKnowledgeSpineQuery rt' p (inr data') = inr r' ->
  Data.hotel data' = Data.hotel data ->
  Data.allSources data' = Data.allSources data ->
  Sections.promotions (Response.sections r) = Some q ->
  PromotionsSection.semanticChunksUsed q = []
  /\ (PromotionsSection.status q = OK ->
      List.map PromoOut.promoId (PromotionsSection.promos q)
      = List.map Promo.promoId (Hotel.promotions (Data.hotel data))
      /\ List.map RuleOut.ruleId (PromotionsSection.stackingRules q)
         = List.map StackingRule.ruleId (Contract.stackingRules (Hotel.contract (Data.hotel data))))
  /\ exists q',
       Sections.promotions (Response.sections r') = Some q'
       /\ PromotionsSection.status q' = PromotionsSection.status q
       /\ PromotionsSection.promos q' = PromotionsSection.promos q
       /\ PromotionsSection.stackingRules q' = PromotionsSection.stackingRules q
       /\ PromotionsSection.citations q' = PromotionsSection.citations q.
Proof.
  intros Hrun Hrun' Hh Hs Hq.
  apply run_inr in Hrun as (input & d & Hv & [= <-] & _ & ->).
  apply run_inr in Hrun' as (input' & d' & Hv' & [= <-] & _ & ->).
  rewrite Hv in Hv'. injection Hv' as <-.
  rewrite respond_promotions in Hq. rewrite respond_promotions.
  destruct (QueryInput.includePromotions input); [|discriminate].
  injection Hq as <-. rewrite Hh, Hs.
  split; [reflexivity|]. split.
  - unfold buildPromotionsSection. simpl. intros ->.
    rewrite !List.map_map. done.
  - eexists. split; [reflexivity|]. done.
Qed.

Lemma X26_witness :
  exists q q',
    Sections.promotions (Response.sections demoResponse) = Some q
    /\ Sections.promotions
         (Response.sections (respond demoRuntimeLater demoDataNoChunks Demo.input)) = Some q'
    /\ PromotionsSection.citations q' = PromotionsSection.citations q.
Proof.
  destruct (Sections.promotions (Response.sections demoResponse)) as [q|] eqn:E;
    [|vm_compute in E; discriminate].
  destruct (X26_promotions_structured_only Demo.rt demoRuntimeLater Demo.request
              Demo.data demoDataNoChunks demoResponse
              (respond demoRuntimeLater demoDataNoChunks Demo.input) q
              ltac:(vm_compute; reflexivity) ltac:(vm_compute; reflexivity)
              eq_refl eq_refl E)
    as (_ & _ & q' & Hq' & _ & _ & _ & Hc).
  exists q, q'. split; [reflexivity|]. split; [exact Hq'|exact Hc].
Defined.

(** ** Supporting colour *)

Lemma supportingColor_titles used c :
  In c used ->
  exists line,
    In line (supportingColor used)
    /\ occursIn (Chunk.title c) line
    /\ occursIn "Supporting color (non-canonical): " line.
Proof.
  intros Hc. unfold supportingColor.
  destruct used as [|u used]; [destruct Hc|]. cbn [length Nat.ltb Nat.leb].
  eexists. split; [left; reflexivity|]. split.
  - destruct (join_occurs ", " (Chunk.title c) (List.map Chunk.title (u :: used)))
      as (a & b & E); [by apply in_map|].
    rewrite E. exists ("Supporting color (non-canonical): " +:+ a), (b +:+ ".").
    by rewrite !append_assoc_s.
  - by exists "", (Str.join ", " (List.map Chunk.title (u :: used)) +:+ ".").
Qed.

Lemma built_ok_mentions_titles rt data input plan k t c :
  In (k, TextSec t) (sectionEntries (buildSections rt data input plan)) ->
  TextSection.status t = OK ->
  In c (TextSection.semanticChunksUsed t) ->
  occursIn (Chunk.title c) (TextSection.content t)
  /\ occursIn "Supporting color (non-canonical): " (TextSection.content t).
Proof.
  intros H. apply entries_buildSections in H.
  destruct H as [[_ [= ->]]|[[_ [= ->]]|[[_ [= ->]]|[[_ [=]]|[_ [= ->]]]]]];
    unfold buildPositioningSection, buildTravelerFitSection, buildRisksSection,
      buildUjvPovSection, mkTextSection;
    cbn [TextSection.status TextSection.content TextSection.semanticChunksUsed];
    intros -> Hc;
    destruct (supportingColor_titles _ _ Hc) as (line & Hline & H1 & H2);
    (split; (eapply occursIn_trans; [eassumption|]); apply renderBulletText_occurs;
     rewrite ?in_app_iff; simpl; rewrite ?in_app_iff; tauto).
Qed.

(** X27. In deterministic mode a text section of status [OK] names every
    chunk it used: its content holds the line "Supporting color
    (non-canonical): ..." with the title of each used chunk. *)
Theorem X27_ok_content_names_used_chunks rt p loaded r k t c :
  runKnowledgeSpineQuery rt p loaded = inr r ->
  deterministicMode rt p ->
  In (k, TextSec t) (sectionEntries (Response.sections r)) ->
  TextSection.status t = OK ->
  In c (TextSection.semanticChunksUsed t) ->
  Str.includes (TextSection.content t) (Chunk.title c) = true
  /\ Str.includes (TextSection.content t) "Supporting color (non-canonical): " = true.
Proof.
  intros Hrun Hdet Hin Hok Hc.
  apply run_inr in Hrun as (input & data & Hv & _ & _ & ->).
  specialize (Hdet input Hv).
  unfold respond in Hin. cbn [Response.sections] in Hin.
  rewrite (deterministic_no_override _ _ _ _ Hdet), applyOverrides_empty in Hin.
  destruct (built_ok_mentions_titles _ _ _ _ _ _ _ Hin Hok Hc) as [H1 H2].
  split; by apply occursIn_includes.
Qed.

Lemma X27_witness :
  Str.includes
    (TextSection.content (Sections.positioning (Response.sections demoResponse)))
    (Chunk.title Demo.chunkPrivacy) = true.
Proof.
  apply (X27_ok_content_names_used_chunks Demo.rt Demo.request (inr Demo.data) demoResponse
           positioning (Sections.positioning (Response.sections demoResponse))
           Demo.chunkPrivacy).
  - vm_compute. reflexivity.
  - intros input H. vm_compute in H. injection H as <-. reflexivity.
  - left. reflexivity.
  - vm_compute. reflexivity.
  - vm_compute. left. reflexivity.
Defined.

(** X28. Every policy warning of a response stands for one item, a citation
    or a used chunk of one of its sections, whose source type has a limit
    and whose age exceeds it; the warning names the section, the item, the
    limit and the age. *)
Theorem X28_warnings_name_offending_items rt p data r w :
  runKnowledgeSpineQuery rt p (inr data) = inr r ->
  In w (Trust.policyWarnings (Response.trust r)) ->
  exists k s item maxAge age,
    In (k, s) (sectionEntries (Response.sections r))
    /\ In item (selectSectionSourceItems s)
    /\ Policy.maxAgeDaysBySourceType (Hotel.policy (Data.hotel data)) (SourceItem.type item)
       = Some maxAge
    /\ daysOld rt (SourceItem.date item) = Some age
    /\ (maxAge < age)%Z
    /\ w = SectionKey_name k +:+ ": " +:+ SourceItem.label item
           +:+ " exceeds max age " +:+ Str.ofZ maxAge
           +:+ "d (age " +:+ Str.ofZ age +:+ "d)".
Proof.
  intros Hrun Hw.
  apply run_inr in Hrun as (input & data' & _ & [= <-] & _ & ->).
  set (r := respond rt data input) in *.
  change (Trust.policyWarnings (Response.trust r))
    with (flat_map (sectionWarnings rt (Data.hotel data))
            (sectionEntries (Response.sections r))) in Hw.
  apply in_flat_map in Hw as ([k s] & Hin & Hw).
  unfold sectionWarnings in Hw. apply in_flat_map in Hw as (item & Hitem & Hw).
  simpl in Hw.
  destruct (Policy.maxAgeDaysBySourceType _ _) as [maxAge|] eqn:Hlim; [|destruct Hw].
  destruct (daysOld rt (SourceItem.date item)) as [age|] eqn:Hage; [|destruct Hw].
  destruct (maxAge <? age)%Z eqn:L; [|destruct Hw].
  destruct Hw as [<-|[]]. apply Z.ltb_lt in L.
  exists k, s, item, maxAge, age. done.
Qed.

Lemma X28_witness :
  exists k s item maxAge age,
    In (k, s) (sectionEntries (Response.sections demoResponse))
    /\ In item (selectSectionSourceItems s)
    /\ Policy.maxAgeDaysBySourceType (Hotel.policy (Data.hotel Demo.data))
         (SourceItem.type item) = Some maxAge
    /\ daysOld Demo.rt (SourceItem.date item) = Some age
    /\ (maxAge < age)%Z
    /\ "ujvPov: src_pov_2024 (ujv_pov) exceeds max age 540d (age 781d)"
       = SectionKey_name k +:+ ": " +:+ SourceItem.label item
         +:+ " exceeds max age " +:+ Str.ofZ maxAge
         +:+ "d (age " +:+ Str.ofZ age +:+ "d)".
Proof.
  apply (X28_warnings_name_offending_items Demo.rt Demo.request Demo.data demoResponse).
  - vm_compute. reflexivity.
  - vm_compute. left. reflexivity.
Defined.

(** X29. The plan of a response says how it was made: its retrieval mode
    is [llm_assisted] exactly when the request opted in and a credential is
    configured, and under [mock_synthesis] every section is the drafted
    one, the narrative service having no say. The plan repeats the hotel
    and the traveler type, season and role of the request, and its stamp is
    the clock reading. *)
Theorem X29_plan_reports_the_mode rt p data r input :
  runKnowledgeSpineQuery rt p (inr data) = inr r ->
  validateInput p = inr input ->
  let plan := Response.queryPlan r in
  (QueryPlan.retrievalMode plan = llm_assisted
   <-> QueryInput.useLLM input = true /\ Runtime.hasApiKey rt = true)
  /\ (QueryPlan.retrievalMode plan = mock_synthesis ->
      Response.sections r = buildSections rt data input plan)
  /\ QueryPlan.hotelId plan = QueryInput.hotelId input
  /\ QueryPlan.hotelName plan = Hotel.name (Data.hotel data)
  /\ QueryPlan.travelerType plan = QueryInput.travelerType input
  /\ QueryPlan.season plan = QueryInput.season input
  /\ QueryPlan.role plan = QueryInput.role input
  /\ QueryPlan.createdAt plan = Runtime.nowISO rt.
Proof.
  intros Hrun Hv.
  apply run_inr in Hrun as (input' & data' & Hv' & [= <-] & Hid & ->).
  rewrite Hv in Hv'. injection Hv' as <-.
  intros plan.
  assert (Hmode : QueryPlan.retrievalMode plan
                  = if QueryInput.useLLM input && Runtime.hasApiKey rt
                    then llm_assisted else mock_synthesis) by reflexivity.
  split; [|split; [|repeat split; done]].
  - rewrite Hmode.
    destruct (QueryInput.useLLM input), (Runtime.hasApiKey rt); simpl;
      split; try done; intros [? ?]; discriminate.
  - rewrite Hmode. intros Hm.
    assert (Hdet : QueryInput.useLLM input && Runtime.hasApiKey rt = false)
      by (destruct (_ && _); [discriminate|done]).
    unfold respond. cbn [Response.sections].
    rewrite (deterministic_no_override _ _ _ _ Hdet). apply applyOverrides_empty.
Qed.

Lemma X29_witness :
  QueryPlan.retrievalMode (Response.queryPlan demoResponseLlm) = llm_assisted.
Proof.
  apply (proj1 (X29_plan_reports_the_mode demoRuntimeLater
                  (formPayload demoInputLlm) Demo.data demoResponseLlm demoInputLlm
                  ltac:(vm_compute; reflexivity) ltac:(vm_compute; reflexivity))).
  split; reflexivity.
Defined.
